(** * email_shooter: the campaign dispatch engine

    A shallow embedding of [mailer.py] (SendGrid) and [mailer_old.py]
    (MailerSend), with the model classes of [models.py] and the settings of
    [config.py] they read; then their callers in [scheduler.py] and [app.py]
    (the scheduled job and the send, delete and unsubscribe routes) and the
    string helpers of [utils.py].

    Conventions.
    - A Python exception is a class name and the text [str(e)] gives.
    - Code that mutates state and may raise is a function
      [state -> state * res A]: what was assigned before a [raise] stays
      assigned, as in Python.
    - The SQLAlchemy session is the loaded campaign object, the list of rows
      handed to [db.session.add], and [commit], which writes both to the
      tables.  Store round trips are total, except in [Module Faulty],
      where [send_campaign] runs once more on a store whose commits can
      fail.
    - Jinja2, the provider SDKs and the clock are outside the repository and
      are parameters of the model. *)

From Stdlib Require Import ZArith String Ascii List Bool Lia DecimalString.
Import ListNotations.

Open Scope string_scope.
Open Scope list_scope.
Open Scope Z_scope.

Infix "+:+" := String.append (at level 60, right associativity).

(** ** Python values and exceptions *)

Inductive exn := PyExc (cls : string) (msg : string).

Definition str (e : exn) : string := let 'PyExc _ m := e in m.

Definition Exception (msg : string) : exn := PyExc "Exception" msg.
Definition ValueError (msg : string) : exn := PyExc "ValueError" msg.
Definition ZeroDivisionError (msg : string) : exn := PyExc "ZeroDivisionError" msg.
Definition AttributeError (msg : string) : exn := PyExc "AttributeError" msg.

Inductive res (A : Type) := Ret (a : A) | Raise (e : exn).
Arguments Ret {A} a.
Arguments Raise {A} e.

(** A Python value, as far as the engine looks into one. *)
#[warnings="-register-all"]
Inductive PyVal :=
| PNone
| PStr (s : string)
| PInt (z : Z)
| PDict (items : list (string * PyVal)).

(** [x or d] on an optional string: [None] and [''] are falsy. *)
Definition py_or (x : option string) (d : string) : string :=
  match x with
  | Some (String a s) => String a s
  | _ => d
  end.

Definition truthy (x : option string) : bool :=
  match x with
  | Some (String _ _) => true
  | _ => false
  end.

(** [s.split(sep)[0]]: the text before the first [sep], all of [s] when
    there is none. *)
Fixpoint split_head (sep : ascii) (s : string) : string :=
  match s with
  | EmptyString => EmptyString
  | String a r => if Ascii.eqb a sep then EmptyString else String a (split_head sep r)
  end.

(** [s.lower()], on ASCII letters. *)
Definition lower_ascii (a : ascii) : ascii :=
  let n := nat_of_ascii a in
  if ((65 <=? n)%nat && (n <=? 90)%nat)%bool then ascii_of_nat (n + 32) else a.

Fixpoint lower (s : string) : string :=
  match s with
  | EmptyString => EmptyString
  | String a r => String (lower_ascii a) (lower r)
  end.

(** Text of ASCII characters only: there [lower] is Python's [str.lower],
    which maps other letters too. *)
Fixpoint ascii_text (s : string) : bool :=
  match s with
  | EmptyString => true
  | String a r => (nat_of_ascii a <? 128)%nat && ascii_text r
  end.

(** [str(i)] for an integer, and for an id that may be [None]. *)
Definition str_int (z : Z) : string := NilZero.string_of_int (Z.to_int z).

Definition str_id (i : option Z) : string :=
  match i with
  | Some z => str_int z
  | None => "None"
  end.

(** [d.get(k)] on a dict kept as an association list. *)
Fixpoint dict_get {V : Type} (d : list (string * V)) (k : string) : option V :=
  match d with
  | [] => None
  | (k', v) :: r => if String.eqb k' k then Some v else dict_get r k
  end.

(** [range(start, stop, step)]. *)
Definition py_range (start stop step : Z) : res (list Z) :=
  if step =? 0 then Raise (ValueError "range() arg 3 must not be zero")
  else
    let n :=
      if 0 <? step
      then (if start <? stop then (stop - start - 1) / step + 1 else 0)
      else (if stop <? start then (start - stop - 1) / (- step) + 1 else 0) in
    Ret (map (fun k : nat => start + Z.of_nat k * step) (seq 0 (Z.to_nat n))).

(** [l[i:j]] for [0 <= i] and [0 <= j], the only slices the engine takes. *)
Definition py_slice {A : Type} (l : list A) (i j : Z) : list A :=
  firstn (Z.to_nat (j - i)) (skipn (Z.to_nat i) l).

(** [time.sleep(seconds)]: nothing the engine can observe, but a negative
    length raises. *)
Definition time_sleep (seconds : Z) : res unit :=
  if seconds <? 0 then Raise (ValueError "sleep length must be non-negative")
  else Ret tt.

(** [time.sleep(1 / rate_limit)]: true division, then the sleep. *)
Definition sleep_reciprocal (rate_limit : Z) : res unit :=
  if rate_limit =? 0 then Raise (ZeroDivisionError "division by zero")
  else if rate_limit <? 0 then Raise (ValueError "sleep length must be non-negative")
  else Ret tt.

(** ** models.py *)

Definition Time := Z.

Module Subscriber.
Record t := mk {
  id : option Z;              (* None until the row is inserted *)
  email : string;
  name : option string;
  custom_message : option string;
  is_active : bool;
  unsubscribe_token : string
}.
End Subscriber.

Module Campaign.
Record t := mk {
  id : Z;
  name : string;
  subject : string;
  template_html : string;
  template_text : option string;
  scheduled_at : option Time;
  sent_at : option Time;
  status : string;
  total_recipients : Z;
  emails_sent : Z;
  emails_failed : Z
}.

Definition set_status (v : string) (c : t) : t :=
  mk (id c) (name c) (subject c) (template_html c) (template_text c)
     (scheduled_at c) (sent_at c) v (total_recipients c) (emails_sent c)
     (emails_failed c).

Definition set_sent_at (v : option Time) (c : t) : t :=
  mk (id c) (name c) (subject c) (template_html c) (template_text c)
     (scheduled_at c) v (status c) (total_recipients c) (emails_sent c)
     (emails_failed c).

Definition set_total_recipients (v : Z) (c : t) : t :=
  mk (id c) (name c) (subject c) (template_html c) (template_text c)
     (scheduled_at c) (sent_at c) (status c) v (emails_sent c)
     (emails_failed c).

Definition set_emails_sent (v : Z) (c : t) : t :=
  mk (id c) (name c) (subject c) (template_html c) (template_text c)
     (scheduled_at c) (sent_at c) (status c) (total_recipients c) v
     (emails_failed c).

Definition set_emails_failed (v : Z) (c : t) : t :=
  mk (id c) (name c) (subject c) (template_html c) (template_text c)
     (scheduled_at c) (sent_at c) (status c) (total_recipients c)
     (emails_sent c) v.
End Campaign.

Module EmailLog.
Record t := mk {
  subscriber_id : option Z;
  campaign_id : Z;
  sendgrid_message_id : PyVal;
  status : string;
  error_message : option string;
  sent_at : option Time
}.
End EmailLog.

(** The tables, each a list of rows in the store's order. *)
Record Db := mkDb {
  campaigns : list Campaign.t;
  subscribers : list Subscriber.t;
  email_logs : list EmailLog.t
}.

(** [Campaign.query.get(campaign_id)]: the row with that primary key. *)
Definition query_get (d : Db) (campaign_id : Z) : option Campaign.t :=
  find (fun c => Campaign.id c =? campaign_id) (campaigns d).

(** The UPDATE a flush issues for a loaded campaign: the row with its
    primary key takes the object's columns. *)
Definition update_row (c : Campaign.t) (rows : list Campaign.t) : list Campaign.t :=
  map (fun r => if Campaign.id r =? Campaign.id c then c else r) rows.

(** [Subscriber.query.filter_by(is_active=True).all()]. *)
Definition active_subscribers (d : Db) : list Subscriber.t :=
  filter Subscriber.is_active (subscribers d).

(** [Subscriber(email, name, custom_message)]: lower-cases the address and
    draws a fresh token; no id and no [is_active] yet (None, falsy), nothing
    added to the session.  [lower] is [str.lower] on ASCII text only: what is
    proved of a subscriber built here is stated for an [ascii_text]
    address. *)
Definition new_subscriber (token : string) (email : string)
    (name custom_message : option string) : Subscriber.t :=
  Subscriber.mk None (lower email) name custom_message false token.

(** ** config.py *)

Module Config.
Record t := mk {
  FROM_EMAIL : option string;
  FROM_NAME : string;
  EMAIL_BATCH_SIZE : Z;
  EMAIL_RATE_LIMIT : Z;
  UNSUBSCRIBE_URL : string
}.
End Config.

(** The attributes class [Config] defines.  Reading any other name off the
    class (Python's own double-underscore names apart) raises. *)
Definition Config_attributes : list string :=
  [ "SECRET_KEY"; "SQLALCHEMY_DATABASE_URI"; "SQLALCHEMY_TRACK_MODIFICATIONS";
    "MAILERSEND_API_KEY"; "FROM_EMAIL"; "FROM_NAME";
    "EMAIL_BATCH_SIZE"; "EMAIL_RATE_LIMIT"; "UNSUBSCRIBE_URL";
    "SCHEDULER_ENABLED"; "TESTING" ].

(** [Config.<name>], as far as whether the read succeeds. *)
Definition Config_getattr (name : string) : res unit :=
  if existsb (String.eqb name) Config_attributes then Ret tt
  else Raise (AttributeError ("type object 'Config' has no attribute '" +:+ name +:+ "'")).

(** ** The session state threaded through a send

    [client] is what the provider object has seen: the messages handed to
    SendGrid, or the calls made on the shared MailerSend object. *)
Record St (X : Type) := mkSt {
  db : Db;
  campaign : Campaign.t;          (* the loaded object, as mutated so far *)
  session_new : list EmailLog.t;  (* rows added, not yet committed *)
  clock : nat;                    (* readings of the clock taken so far *)
  client : X
}.
Arguments mkSt {X}.
Arguments db {X}.
Arguments campaign {X}.
Arguments session_new {X}.
Arguments clock {X}.
Arguments client {X}.

Definition M (S A : Type) : Type := S -> S * res A.

Definition ret {S A} (a : A) : M S A := fun s => (s, Ret a).

Definition raise {S A} (e : exn) : M S A := fun s => (s, Raise e).

Definition bind {S A B} (m : M S A) (k : A -> M S B) : M S B :=
  fun s =>
    match m s with
    | (s', Ret a) => k a s'
    | (s', Raise e) => (s', Raise e)
    end.

(** [try: m except Exception as e: h e]. *)
Definition try_except {S A} (m : M S A) (h : exn -> M S A) : M S A :=
  fun s =>
    match m s with
    | (s', Ret a) => (s', Ret a)
    | (s', Raise e) => h e s'
    end.

Definition lift {S A} (r : res A) : M S A := fun s => (s, r).

Notation "'let*' x ':=' m 'in' k" := (bind m (fun x => k))
  (at level 10, x name, m at level 100, k at level 200).

Definition update_campaign {X} (f : Campaign.t -> Campaign.t) : M (St X) unit :=
  fun st => (mkSt (db st) (f (campaign st)) (session_new st) (clock st) (client st), Ret tt).

Definition get_campaign {X} : M (St X) Campaign.t :=
  fun st => (st, Ret (campaign st)).

(** [db.session.add(row)]. *)
Definition session_add {X} (row : EmailLog.t) : M (St X) unit :=
  fun st => (mkSt (db st) (campaign st) (session_new st ++ [row]) (clock st) (client st), Ret tt).

(** [db.session.commit()]: the loaded campaign and the added rows reach the
    tables. *)
Definition commit {X} : M (St X) unit :=
  fun st =>
    let d := db st in
    let d' := mkDb (update_row (campaign st) (campaigns d))
                   (subscribers d)
                   (email_logs d ++ session_new st) in
    (mkSt d' (campaign st) [] (clock st) (client st), Ret tt).

(** [datetime.utcnow()], read off the clock [now]. *)
Definition utcnow {X} (now : nat -> Time) : M (St X) Time :=
  fun st => (mkSt (db st) (campaign st) (session_new st) (S (clock st)) (client st),
             Ret (now (clock st))).

(** What [send_single_email] and [send_campaign] return. *)
Inductive SendResult :=
| Sent (message_id : PyVal) (status_code : Z)   (* 'success': True *)
| NotSent (error : string).                     (* 'success': False *)

Record CampaignResult := mkResult { sent : Z; failed : Z; total : Z }.

(** The state [commit] leaves. *)
Definition committed {X} (st : St X) : St X := fst (commit st).

(** A campaign with [a] more sent and [b] more failed. *)
Definition add_counts (a b : Z) (c : Campaign.t) : Campaign.t :=
  Campaign.set_emails_failed (Campaign.emails_failed c + b)
    (Campaign.set_emails_sent (Campaign.emails_sent c + a) c).

(** [emails_sent + emails_failed]. *)
Definition attempted (c : Campaign.t) : Z :=
  Campaign.emails_sent c + Campaign.emails_failed c.

(** What both mailers take from outside: the settings [config.py] read from
    the environment, the Jinja2 engine (a [Template] rendered with the
    context as keyword arguments) and the clock. *)
Record Env := mkEnv {
  config : Config.t;
  jinja : string -> list (string * string) -> res string;
  now : nat -> Time
}.

(** How a run of an entry point ends: it raised before loading a campaign,
    or it ran on the loaded campaign and left the session in [st]. *)
Inductive Run (X A : Type) :=
| NotLoaded (e : exn)
| Ran (st : St X) (r : res A).
Arguments NotLoaded {X A} e.
Arguments Ran {X A} st r.

(** [campaign.status not in ['draft', 'scheduled']]. *)
Definition not_sendable (status : string) : bool :=
  negb (String.eqb status "draft" || String.eqb status "scheduled").

Definition len {A : Type} (l : list A) : Z := Z.of_nat (length l).

(** ** mailer.py *)

Module Mail.
Record t := mk {
  from_email : option string * string;
  to_emails : string;
  subject : string;
  html_content : string;
  plain_text_content : option string;
  custom_args : list (string * string)
}.

(** [message.custom_args = value].  In sendgrid's [Mail] (version 6, the one
    whose helpers [mailer.py] imports) [custom_args] is a property without a
    setter (the setter is on [custom_arg]), so the assignment raises.  The
    text is the one Python 3.11 gives; older versions word it differently. *)
Definition set_custom_args (message : t) (value : list (string * string)) : res t :=
  Raise (AttributeError "property 'custom_args' of 'Mail' object has no setter").
End Mail.

Module Response.
Record t := mk {
  headers : list (string * string);
  status_code : Z
}.
End Response.

Module Mailer.
Section EmailSender.

Variable E : Env.
(** [self.sg.send(message)] *)
Variable sg : Mail.t -> res Response.t.

Definition State := St (list Mail.t).

Definition render_template (template_content : string)
    (context : list (string * string)) : res string :=
  match jinja E template_content context with
  | Ret s => Ret s
  | Raise e => Raise (Exception ("Template rendering error: " +:+ str e))
  end.

Definition build_context (subscriber : Subscriber.t) (campaign : Campaign.t)
    : list (string * string) :=
  [ ("name", py_or (Subscriber.name subscriber)
                   (split_head "@" (Subscriber.email subscriber)));
    ("email", Subscriber.email subscriber);
    ("subject", Campaign.subject campaign);
    ("custom_message", py_or (Subscriber.custom_message subscriber) EmptyString);
    ("from_name", Config.FROM_NAME (config E));
    ("unsubscribe_url",
       Config.UNSUBSCRIBE_URL (config E) +:+ "?token=" +:+
       Subscriber.unsubscribe_token subscriber);
    ("campaign_name", Campaign.name campaign) ].

(** The two render steps, inside their [try]. *)
Definition render_bodies (subscriber : Subscriber.t) (campaign : Campaign.t)
    : res (string * option string) :=
  let context := build_context subscriber campaign in
  let rendered :=
    match render_template (Campaign.template_html campaign) context with
    | Raise e => Raise e
    | Ret html_content =>
        match Campaign.template_text campaign with
        | Some (String a s) =>
            match render_template (String a s) context with
            | Raise e => Raise e
            | Ret text_content => Ret (html_content, Some text_content)
            end
        | _ => Ret (html_content, None)   (* None or '' is falsy *)
        end
    end in
  match rendered with
  | Ret r => Ret r
  | Raise e =>
      Raise (Exception ("Template rendering failed for " +:+
                        Subscriber.email subscriber +:+ ": " +:+ str e))
  end.

Definition create_email_message (subscriber : Subscriber.t)
    (campaign : Campaign.t) : res Mail.t :=
  match render_bodies subscriber campaign with
  | Raise e => Raise e
  | Ret (html_content, text_content) =>
      let message :=
        Mail.mk (Config.FROM_EMAIL (config E), Config.FROM_NAME (config E))
                (Subscriber.email subscriber)
                (Campaign.subject campaign)
                html_content
                text_content
                [] in
      Mail.set_custom_args message
        [ ("campaign_id", str_int (Campaign.id campaign));
          ("subscriber_id", str_id (Subscriber.id subscriber)) ]
  end.

(** The call on the provider: the message is handed over, then the provider
    answers or raises. *)
Definition sg_send (message : Mail.t) : M State Response.t :=
  fun st => (mkSt (db st) (campaign st) (session_new st) (clock st)
                  (client st ++ [message]),
             sg message).

Definition header_value (response : Response.t) (k : string) : PyVal :=
  match dict_get (Response.headers response) k with
  | Some v => PStr v
  | None => PNone
  end.

Definition send_single_email (subscriber : Subscriber.t) : M State SendResult :=
  try_except
    (let* campaign := get_campaign in
     let* message := lift (create_email_message subscriber campaign) in
     let* response := sg_send message in
     let* t := utcnow (now E) in
     let* _ := session_add
                 (EmailLog.mk (Subscriber.id subscriber) (Campaign.id campaign)
                              (header_value response "X-Message-Id")
                              "sent" None (Some t)) in
     let* _ := update_campaign
                 (fun c => Campaign.set_emails_sent (Campaign.emails_sent c + 1) c) in
     ret (Sent (header_value response "X-Message-Id")
               (Response.status_code response)))
    (fun e =>
     let* campaign := get_campaign in
     let* t := utcnow (now E) in
     let* _ := session_add
                 (EmailLog.mk (Subscriber.id subscriber) (Campaign.id campaign)
                              PNone "failed" (Some (str e)) (Some t)) in
     let* _ := update_campaign
                 (fun c => Campaign.set_emails_failed (Campaign.emails_failed c + 1) c) in
     ret (NotSent (str e))).

(** [for subscriber in batch: ...], carrying (sent_count, failed_count). *)
Fixpoint send_batch (batch : list Subscriber.t) (counts : Z * Z)
    : M State (Z * Z) :=
  match batch with
  | [] => ret counts
  | subscriber :: rest =>
      let* result := send_single_email subscriber in
      let counts' :=
        match result with
        | Sent _ _ => (fst counts + 1, snd counts)
        | NotSent _ => (fst counts, snd counts + 1)
        end in
      let* _ := lift (sleep_reciprocal (Config.EMAIL_RATE_LIMIT (config E))) in
      send_batch rest counts'
  end.

(** [for i in range(0, len(subscribers), self.batch_size): ...], over the
    start indices the range gave. *)
Fixpoint send_batches (starts : list Z) (subscribers : list Subscriber.t)
    (counts : Z * Z) : M State (Z * Z) :=
  match starts with
  | [] => ret counts
  | i :: more =>
      let batch_size := Config.EMAIL_BATCH_SIZE (config E) in
      let batch := py_slice subscribers i (i + batch_size) in
      let* counts' := send_batch batch counts in
      let* _ := commit in
      let* _ := (if i + batch_size <? len subscribers
                 then lift (time_sleep 2) else ret tt) in
      send_batches more subscribers counts'
  end.

(** The body of the [try] in [send_campaign]. *)
Definition send_campaign_try (test_mode : bool) : M State CampaignResult :=
  let* subscribers := (fun st => (st, Ret (active_subscribers (db st)))) in
  let* _ := update_campaign (Campaign.set_total_recipients (len subscribers)) in
  let* _ := commit in
  let subscribers := if test_mode then firstn 3 subscribers else subscribers in
  let* starts := lift (py_range 0 (len subscribers)
                                (Config.EMAIL_BATCH_SIZE (config E))) in
  let* counts := send_batches starts subscribers (0, 0) in
  let* _ := update_campaign
              (Campaign.set_status
                 (if snd counts =? 0 then "completed" else "completed_with_errors")) in
  let* _ := commit in
  ret (mkResult (fst counts) (snd counts) (len subscribers)).

(** [send_campaign] from the status update on. *)
Definition send_campaign_started (test_mode : bool) : M State CampaignResult :=
  let* _ := update_campaign (Campaign.set_status "sending") in
  let* t := utcnow (now E) in
  let* _ := update_campaign (Campaign.set_sent_at (Some t)) in
  let* _ := commit in
  try_except (send_campaign_try test_mode)
    (fun e =>
     let* _ := update_campaign (Campaign.set_status "failed") in
     let* _ := commit in
     raise (Exception ("Campaign sending failed: " +:+ str e))).

Definition send_campaign (campaign_id : Z) (test_mode : bool)
    (d : Db) (clk : nat) (outbox : list Mail.t) : Run (list Mail.t) CampaignResult :=
  match query_get d campaign_id with
  | None => NotLoaded (Exception "Campaign not found")
  | Some campaign =>
      let st := mkSt d campaign [] clk outbox in
      if not_sendable (Campaign.status campaign)
      then Ran st (Raise (Exception ("Campaign cannot be sent. Current status: " +:+
                                     Campaign.status campaign)))
      else let (st', r) := send_campaign_started test_mode st in Ran st' r
  end.

(** [token] is the [uuid4] the temporary subscriber draws. *)
Definition send_test_email (campaign_id : Z) (test_email : string) (token : string)
    (d : Db) (clk : nat) (outbox : list Mail.t) : Run (list Mail.t) SendResult :=
  match query_get d campaign_id with
  | None => NotLoaded (Exception "Campaign not found")
  | Some campaign =>
      let st := mkSt d campaign [] clk outbox in
      let test_subscriber :=
        new_subscriber token test_email (Some "Test User")
                       (Some "This is a test message.") in
      let (st', r) :=
        try_except (send_single_email test_subscriber)
                   (fun e => ret (NotSent (str e))) st in
      Ran st' r
  end.

(** *** One recipient's outcome, without the bookkeeping *)

(** Compose, then deliver. *)
Definition attempt (campaign : Campaign.t) (subscriber : Subscriber.t)
    : res Response.t :=
  match create_email_message subscriber campaign with
  | Raise e => Raise e
  | Ret message => sg message
  end.

Definition delivered (campaign : Campaign.t) (subscriber : Subscriber.t) : bool :=
  match attempt campaign subscriber with
  | Ret _ => true
  | Raise _ => false
  end.

(** The row an attempt made at time [t] adds. *)
Definition log_row (campaign : Campaign.t) (subscriber : Subscriber.t)
    (t : Time) : EmailLog.t :=
  match attempt campaign subscriber with
  | Ret response =>
      EmailLog.mk (Subscriber.id subscriber) (Campaign.id campaign)
                  (header_value response "X-Message-Id") "sent" None (Some t)
  | Raise e =>
      EmailLog.mk (Subscriber.id subscriber) (Campaign.id campaign)
                  PNone "failed" (Some (str e)) (Some t)
  end.

Fixpoint log_rows (campaign : Campaign.t) (clk : nat)
    (recipients : list Subscriber.t) : list EmailLog.t :=
  match recipients with
  | [] => []
  | s :: rest => log_row campaign s (now E clk) :: log_rows campaign (S clk) rest
  end.

(** The messages that reach the provider: one per recipient whose message
    could be composed. *)
Definition handed_over (campaign : Campaign.t)
    (recipients : list Subscriber.t) : list Mail.t :=
  flat_map (fun s => match create_email_message s campaign with
                     | Ret message => [message]
                     | Raise _ => []
                     end) recipients.

Definition count_delivered (campaign : Campaign.t)
    (recipients : list Subscriber.t) : Z :=
  len (filter (delivered campaign) recipients).

Definition count_failed (campaign : Campaign.t)
    (recipients : list Subscriber.t) : Z :=
  len (filter (fun s => negb (delivered campaign s)) recipients).

(** The state the in-order attempts on [recipients] leave. *)
Definition after_attempts (recipients : list Subscriber.t) (st : State) : State :=
  mkSt (db st)
       (add_counts (count_delivered (campaign st) recipients)
                   (count_failed (campaign st) recipients) (campaign st))
       (session_new st ++ log_rows (campaign st) (clock st) recipients)
       (clock st + length recipients)%nat
       (client st ++ handed_over (campaign st) recipients).

(** The recipients of a send. *)
Definition recipients (test_mode : bool) (d : Db) : list Subscriber.t :=
  if test_mode then firstn 3 (active_subscribers d) else active_subscribers d.

(** The campaign object when the batch loop starts, and when [send_campaign]
    returns normally. *)
Definition campaign_started (campaign : Campaign.t) (d : Db) (clk : nat) : Campaign.t :=
  Campaign.set_total_recipients (len (active_subscribers d))
    (Campaign.set_sent_at (Some (now E clk))
       (Campaign.set_status "sending" campaign)).

Definition campaign_finished (test_mode : bool) (campaign : Campaign.t)
    (d : Db) (clk : nat) : Campaign.t :=
  let started := campaign_started campaign d clk in
  let rs := recipients test_mode d in
  Campaign.set_status
    (if count_failed started rs =? 0 then "completed" else "completed_with_errors")
    (add_counts (count_delivered started rs) (count_failed started rs) started).

(** The row for [subscriber] matches the outcome of the attempt. *)
Definition row_for (campaign : Campaign.t) (subscriber : Subscriber.t)
    (row : EmailLog.t) : Prop :=
  EmailLog.subscriber_id row = Subscriber.id subscriber /\
  EmailLog.campaign_id row = Campaign.id campaign /\
  match attempt campaign subscriber with
  | Ret _ => EmailLog.status row = "sent" /\ EmailLog.error_message row = None
  | Raise e => EmailLog.status row = "failed" /\
               EmailLog.error_message row = Some (str e)
  end.

(** The session a send that ran to its end leaves. *)
Definition finished (test_mode : bool) (campaign : Campaign.t)
    (d : Db) (clk : nat) (outbox : list Mail.t) : State :=
  let started := campaign_started campaign d clk in
  let rs := recipients test_mode d in
  let final := campaign_finished test_mode campaign d clk in
  mkSt (mkDb (update_row final (campaigns d))
             (subscribers d)
             (email_logs d ++ log_rows started (S clk) rs))
       final [] (S clk + length rs)%nat
       (outbox ++ handed_over started rs).

End EmailSender.

(** [EmailSender()]: the constructor reads [Config.SENDGRID_API_KEY] first.
    [client] is what [SendGridAPIClient(api_key=...)] gives for the key: the
    client, or the error it raises. *)
Definition EmailSender (client : res (Mail.t -> res Response.t))
    : res (Mail.t -> res Response.t) :=
  match Config_getattr "SENDGRID_API_KEY" with
  | Raise e => Raise e
  | Ret _ => client
  end.

(** The module's [send_campaign_email]: a new sender, then [send_campaign].
    [sender] is what [EmailSender()] gives. *)
Definition send_campaign_email (E : Env) (sender : res (Mail.t -> res Response.t))
    (campaign_id : Z) (test_mode : bool) (d : Db) (clk : nat) (outbox : list Mail.t)
    : Run (list Mail.t) CampaignResult :=
  match sender with
  | Raise e => NotLoaded e
  | Ret sg => send_campaign E sg campaign_id test_mode d clk outbox
  end.

End Mailer.

(** ** mailer_old.py *)

Module MailerSend.
(** The calls the sender makes on its one [emails.NewEmail] object. *)
Inductive call :=
| set_mail_from (mail_from : string * option string)
                (recipients : list (string * string))
| set_subject (subject : string)
| set_html_content (html : string)
| set_plain_text_content (text : string)
| set_headers (headers : list (string * string))
| send.
End MailerSend.

Module MailerOld.
Section EmailSender.

Variable E : Env.
(** The MailerSend object, by what its latest call gives after all the calls
    made on it so far (latest last). *)
Variable mailer : list MailerSend.call -> res PyVal.

Definition State := St (list MailerSend.call).

Definition render_template (template_content : string)
    (context : list (string * string)) : res string :=
  match jinja E template_content context with
  | Ret s => Ret s
  | Raise e => Raise (Exception ("Template rendering error: " +:+ str e))
  end.

Definition build_context (subscriber : Subscriber.t) (campaign : Campaign.t)
    : list (string * string) :=
  [ ("name", py_or (Subscriber.name subscriber)
                   (split_head "@" (Subscriber.email subscriber)));
    ("email", Subscriber.email subscriber);
    ("subject", Campaign.subject campaign);
    ("custom_message", py_or (Subscriber.custom_message subscriber) EmptyString);
    ("from_name", Config.FROM_NAME (config E));
    ("unsubscribe_url",
       Config.UNSUBSCRIBE_URL (config E) +:+ "?token=" +:+
       Subscriber.unsubscribe_token subscriber);
    ("campaign_name", Campaign.name campaign) ].

Definition render_bodies (subscriber : Subscriber.t) (campaign : Campaign.t)
    : res (string * option string) :=
  let context := build_context subscriber campaign in
  let rendered :=
    match render_template (Campaign.template_html campaign) context with
    | Raise e => Raise e
    | Ret html_content =>
        match Campaign.template_text campaign with
        | Some (String a s) =>
            match render_template (String a s) context with
            | Raise e => Raise e
            | Ret text_content => Ret (html_content, Some text_content)
            end
        | _ => Ret (html_content, None)
        end
    end in
  match rendered with
  | Ret r => Ret r
  | Raise e =>
      Raise (Exception ("Template rendering failed for " +:+
                        Subscriber.email subscriber +:+ ": " +:+ str e))
  end.

(** One call on [self.mailer]: the object has seen it, then answers or
    raises. *)
Definition call (c : MailerSend.call) : M State PyVal :=
  fun st =>
    let calls := client st ++ [c] in
    (mkSt (db st) (campaign st) (session_new st) (clock st) calls, mailer calls).

Definition create_email_message (subscriber : Subscriber.t)
    (campaign : Campaign.t) : M State unit :=
  let* bodies := lift (render_bodies subscriber campaign) in
  let html_content := fst bodies in
  let text_content := snd bodies in
  let* _ := call (MailerSend.set_mail_from
                    (Config.FROM_NAME (config E), Config.FROM_EMAIL (config E))
                    [ (py_or (Subscriber.name subscriber)
                             (split_head "@" (Subscriber.email subscriber)),
                       Subscriber.email subscriber) ]) in
  let* _ := call (MailerSend.set_subject (Campaign.subject campaign)) in
  let* _ := call (MailerSend.set_html_content html_content) in
  let* _ := (if truthy text_content
             then call (MailerSend.set_plain_text_content (py_or text_content EmptyString))
             else ret PNone) in
  let* _ := call (MailerSend.set_headers
                    [ ("X-Campaign-Id", str_int (Campaign.id campaign));
                      ("X-Subscriber-Id", str_id (Subscriber.id subscriber)) ]) in
  ret tt.

(** [v.get(k)] on a value that need not be a dict. *)
Definition py_get (v : PyVal) (k : string) : res PyVal :=
  match v with
  | PDict items =>
      Ret (match dict_get items k with Some x => x | None => PNone end)
  | PNone => Raise (AttributeError "'NoneType' object has no attribute 'get'")
  | PStr _ => Raise (AttributeError "'str' object has no attribute 'get'")
  | PInt _ => Raise (AttributeError "'int' object has no attribute 'get'")
  end.

(** The message id read off the response: [None] unless the response is a
    non-empty dict. *)
Definition extract_message_id (response : PyVal) : res PyVal :=
  match response with
  | PDict (item :: items) =>
      let data :=
        match dict_get (item :: items) "data" with
        | Some v => v
        | None => PDict []
        end in
      py_get data "message_id"
  | _ => Ret PNone
  end.

Definition send_single_email (subscriber : Subscriber.t) : M State SendResult :=
  try_except
    (let* campaign := get_campaign in
     let* _ := create_email_message subscriber campaign in
     let* response := call MailerSend.send in
     let* message_id := lift (extract_message_id response) in
     let* t := utcnow (now E) in
     let* _ := session_add
                 (EmailLog.mk (Subscriber.id subscriber) (Campaign.id campaign)
                              message_id "sent" None (Some t)) in
     let* _ := update_campaign
                 (fun c => Campaign.set_emails_sent (Campaign.emails_sent c + 1) c) in
     ret (Sent message_id 200))
    (fun e =>
     let* campaign := get_campaign in
     let* t := utcnow (now E) in
     let* _ := session_add
                 (EmailLog.mk (Subscriber.id subscriber) (Campaign.id campaign)
                              PNone "failed" (Some (str e)) (Some t)) in
     let* _ := update_campaign
                 (fun c => Campaign.set_emails_failed (Campaign.emails_failed c + 1) c) in
     ret (NotSent (str e))).

Fixpoint send_batch (batch : list Subscriber.t) (counts : Z * Z)
    : M State (Z * Z) :=
  match batch with
  | [] => ret counts
  | subscriber :: rest =>
      let* result := send_single_email subscriber in
      let counts' :=
        match result with
        | Sent _ _ => (fst counts + 1, snd counts)
        | NotSent _ => (fst counts, snd counts + 1)
        end in
      let* _ := lift (sleep_reciprocal (Config.EMAIL_RATE_LIMIT (config E))) in
      send_batch rest counts'
  end.

Fixpoint send_batches (starts : list Z) (subscribers : list Subscriber.t)
    (counts : Z * Z) : M State (Z * Z) :=
  match starts with
  | [] => ret counts
  | i :: more =>
      let batch_size := Config.EMAIL_BATCH_SIZE (config E) in
      let batch := py_slice subscribers i (i + batch_size) in
      let* counts' := send_batch batch counts in
      let* _ := commit in
      let* _ := (if i + batch_size <? len subscribers
                 then lift (time_sleep 2) else ret tt) in
      send_batches more subscribers counts'
  end.

Definition send_campaign_try (test_mode : bool) : M State CampaignResult :=
  let* subscribers := (fun st => (st, Ret (active_subscribers (db st)))) in
  let* _ := update_campaign (Campaign.set_total_recipients (len subscribers)) in
  let* _ := commit in
  let subscribers := if test_mode then firstn 3 subscribers else subscribers in
  let* starts := lift (py_range 0 (len subscribers)
                                (Config.EMAIL_BATCH_SIZE (config E))) in
  let* counts := send_batches starts subscribers (0, 0) in
  let* _ := update_campaign
              (Campaign.set_status
                 (if snd counts =? 0 then "completed" else "completed_with_errors")) in
  let* _ := commit in
  ret (mkResult (fst counts) (snd counts) (len subscribers)).

Definition send_campaign_started (test_mode : bool) : M State CampaignResult :=
  let* _ := update_campaign (Campaign.set_status "sending") in
  let* t := utcnow (now E) in
  let* _ := update_campaign (Campaign.set_sent_at (Some t)) in
  let* _ := commit in
  try_except (send_campaign_try test_mode)
    (fun e =>
     let* _ := update_campaign (Campaign.set_status "failed") in
     let* _ := commit in
     raise (Exception ("Campaign sending failed: " +:+ str e))).

Definition send_campaign (campaign_id : Z) (test_mode : bool)
    (d : Db) (clk : nat) (calls : list MailerSend.call)
    : Run (list MailerSend.call) CampaignResult :=
  match query_get d campaign_id with
  | None => NotLoaded (Exception "Campaign not found")
  | Some campaign =>
      let st := mkSt d campaign [] clk calls in
      if not_sendable (Campaign.status campaign)
      then Ran st (Raise (Exception ("Campaign cannot be sent. Current status: " +:+
                                     Campaign.status campaign)))
      else let (st', r) := send_campaign_started test_mode st in Ran st' r
  end.

(** Compose, deliver and read the message id: the [try] of
    [send_single_email] up to the log row. *)
Definition attempt (subscriber : Subscriber.t) : M State PyVal :=
  let* campaign := get_campaign in
  let* _ := create_email_message subscriber campaign in
  let* response := call MailerSend.send in
  lift (extract_message_id response).

(** [token] is the [uuid4] the temporary subscriber draws. *)
Definition send_test_email (campaign_id : Z) (test_email : string) (token : string)
    (d : Db) (clk : nat) (calls : list MailerSend.call)
    : Run (list MailerSend.call) SendResult :=
  match query_get d campaign_id with
  | None => NotLoaded (Exception "Campaign not found")
  | Some campaign =>
      let st := mkSt d campaign [] clk calls in
      let test_subscriber :=
        new_subscriber token test_email (Some "Test User")
                       (Some "This is a test message.") in
      let (st', r) :=
        try_except (send_single_email test_subscriber)
                   (fun e => ret (NotSent (str e))) st in
      Ran st' r
  end.

End EmailSender.
End MailerOld.

(** ** [mailer.py] on a store that can fail

    [send_campaign] once more, with commits that can fail.  [store k] is
    what the [k]-th commit of the run meets: [None] when the store takes it,
    [Some e] when it raises [e].  A commit that fails writes nothing and
    leaves the SQLAlchemy session in need of a rollback, which
    [send_campaign] never issues; every later commit on that session then
    raises [rollback_needed e] (SQLAlchemy's PendingRollbackError, which
    names [e]).  Queries stay total, and all but [commit] is the code of
    [Module Mailer]. *)

Module Faulty.
Section EmailSender.

Variable E : Env.
Variable sg : Mail.t -> res Response.t.
Variable store : nat -> option exn.
Variable rollback_needed : exn -> exn.

Record State := mkState {
  session : Mailer.State;
  commits : nat;                  (* commits issued so far *)
  failed_flush : option exn       (* the error of a failed commit, not rolled back *)
}.

(** A step of [Module Mailer] that does not commit. *)
Definition on_session {A} (m : M Mailer.State A) : M State A :=
  fun s =>
    let (st, r) := m (session s) in
    (mkState st (commits s) (failed_flush s), r).

Definition commit : M State unit :=
  fun s =>
    match failed_flush s with
    | Some e => (mkState (session s) (S (commits s)) (Some e), Raise (rollback_needed e))
    | None =>
        match store (commits s) with
        | Some e => (mkState (session s) (S (commits s)) (Some e), Raise e)
        | None => (mkState (committed (session s)) (S (commits s)) None, Ret tt)
        end
    end.

Fixpoint send_batches (starts : list Z) (subscribers : list Subscriber.t)
    (counts : Z * Z) : M State (Z * Z) :=
  match starts with
  | [] => ret counts
  | i :: more =>
      let batch_size := Config.EMAIL_BATCH_SIZE (config E) in
      let batch := py_slice subscribers i (i + batch_size) in
      let* counts' := on_session (Mailer.send_batch E sg batch counts) in
      let* _ := commit in
      let* _ := (if i + batch_size <? len subscribers
                 then lift (time_sleep 2) else ret tt) in
      send_batches more subscribers counts'
  end.

Definition send_campaign_try (test_mode : bool) : M State CampaignResult :=
  let* subscribers := (fun s => (s, Ret (active_subscribers (db (session s))))) in
  let* _ := on_session
              (update_campaign (Campaign.set_total_recipients (len subscribers))) in
  let* _ := commit in
  let subscribers := if test_mode then firstn 3 subscribers else subscribers in
  let* starts := lift (py_range 0 (len subscribers)
                                (Config.EMAIL_BATCH_SIZE (config E))) in
  let* counts := send_batches starts subscribers (0, 0) in
  let* _ := on_session
              (update_campaign
                 (Campaign.set_status
                    (if snd counts =? 0 then "completed" else "completed_with_errors"))) in
  let* _ := commit in
  ret (mkResult (fst counts) (snd counts) (len subscribers)).

Definition send_campaign_started (test_mode : bool) : M State CampaignResult :=
  let* _ := on_session (update_campaign (Campaign.set_status "sending")) in
  let* t := on_session (utcnow (now E)) in
  let* _ := on_session (update_campaign (Campaign.set_sent_at (Some t))) in
  let* _ := commit in
  try_except (send_campaign_try test_mode)
    (fun e =>
     let* _ := on_session (update_campaign (Campaign.set_status "failed")) in
     let* _ := commit in
     raise (Exception ("Campaign sending failed: " +:+ str e))).

(** [m'] on this store does what [m] does on the store that takes every
    commit: same session, same result, and no commit has failed. *)
Definition agrees {A} (m' : M State A) (m : M Mailer.State A) : Prop :=
  forall s, failed_flush s = None ->
    session (fst (m' s)) = fst (m (session s)) /\
    snd (m' s) = snd (m (session s)) /\
    failed_flush (fst (m' s)) = None.

(** How a run ends: it raised before loading a campaign, or it ran on the
    loaded campaign and left the session in [s]. *)
Inductive Outcome :=
| Unloaded (e : exn)
| Ended (s : State) (r : res CampaignResult).

Definition send_campaign (campaign_id : Z) (test_mode : bool)
    (d : Db) (clk : nat) (outbox : list Mail.t) : Outcome :=
  match query_get d campaign_id with
  | None => Unloaded (Exception "Campaign not found")
  | Some campaign =>
      let s := mkState (mkSt d campaign [] clk outbox) 0 None in
      if not_sendable (Campaign.status campaign)
      then Ended s (Raise (Exception ("Campaign cannot be sent. Current status: " +:+
                                      Campaign.status campaign)))
      else let (s', r) := send_campaign_started test_mode s in Ended s' r
  end.

End EmailSender.
End Faulty.

(** ** Sample data

    A stand-in for Jinja2 that expands the one placeholder of the sample
    template and copies any other text, the default settings of
    [config.py], and three providers. *)

Module Sample.

Definition render (t : string) (context : list (string * string)) : res string :=
  if String.eqb t "Hi {{name}}"
  then Ret ("Hi " +:+ py_or (dict_get context "name") EmptyString)
  else Ret t.

Definition settings : Config.t :=
  Config.mk (Some "news@example.com") "Email Shooter" 100 1
            "http://localhost:5000/unsubscribe".

Definition env : Env := mkEnv settings render (fun k => Z.of_nat k).

(** Settings with [EMAIL_RATE_LIMIT=0]. *)
Definition env_rate0 : Env :=
  mkEnv (Config.mk (Some "news@example.com") "Email Shooter" 100 0
                   "http://localhost:5000/unsubscribe")
        render (fun k => Z.of_nat k).

Definition accepts (m : Mail.t) : res Response.t :=
  Ret (Response.mk [("X-Message-Id", "msg-" +:+ Mail.to_emails m)] 202).

Definition rejects_bad (m : Mail.t) : res Response.t :=
  if String.eqb (Mail.to_emails m) "bad@x.com"
  then Raise (PyExc "BadRequestsError" "HTTP Error 400: Bad Request")
  else accepts m.

(** A provider call that times out: [str(TimeoutError())] is the empty
    string. *)
Definition times_out (m : Mail.t) : res Response.t :=
  Raise (PyExc "TimeoutError" EmptyString).

(** A MailerSend object that accepts every call. *)
Definition mailer_accepts (calls : list MailerSend.call) : res PyVal :=
  Ret (PDict [("data", PDict [("message_id", PStr "ms-1")])]).

Definition ann : Subscriber.t :=
  Subscriber.mk (Some 1) "a@x.com" (Some "A") None true "token-a".
Definition bob : Subscriber.t :=
  Subscriber.mk (Some 2) "b@x.com" None None true "token-b".
Definition bad : Subscriber.t :=
  Subscriber.mk (Some 3) "bad@x.com" None None true "token-c".
Definition dee : Subscriber.t :=
  Subscriber.mk (Some 4) "d@x.com" (Some "Dee") (Some "see you") true "token-d".
Definition gone : Subscriber.t :=
  Subscriber.mk (Some 5) "gone@x.com" None None false "token-e".

(** A campaign as [create_campaign] stores it. *)
Definition draft : Campaign.t :=
  Campaign.mk 1 "Spring" "Hello" "Hi {{name}}" None None None "draft" 0 0 0.

(** A campaign a send has completed while nobody was subscribed. *)
Definition done : Campaign.t :=
  Campaign.mk 1 "Spring" "Hello" "Hi {{name}}" None None (Some 7) "completed" 0 0 0.

Definition db_two : Db := mkDb [draft] [ann; gone; bob] [].
Definition db_three : Db := mkDb [draft] [ann; bob; bad] [].
Definition db_four : Db := mkDb [draft] [ann; bob; bad; dee] [].
Definition db_done : Db := mkDb [done] [ann] [].

End Sample.

(** ** What a send may touch *)

(** A row the engine writes for campaign [k]. *)
Definition engine_row (k : Z) (row : EmailLog.t) : Prop :=
  EmailLog.campaign_id row = k /\
  (EmailLog.status row = "sent" \/ EmailLog.status row = "failed").

(** A row for campaign [k] that records a failure: no message id, and an
    error text that is not empty. *)
Definition failed_row (k : Z) (row : EmailLog.t) : Prop :=
  EmailLog.campaign_id row = k /\
  EmailLog.status row = "failed" /\
  EmailLog.sendgrid_message_id row = PNone /\
  exists text, EmailLog.error_message row = Some text /\ text <> EmptyString.

(** [EmailLog.query.filter_by(campaign_id=k).all()]. *)
Definition logs_of (k : Z) (d : Db) : list EmailLog.t :=
  filter (fun row => EmailLog.campaign_id row =? k) (email_logs d).

(** A stored campaign no send has touched: both counters are 0 and the log
    has no row of it.  Rows and counters are written by [send_single_email]
    alone, which [send_campaign] reaches only after the status has left
    'draft' and 'scheduled' for good, so the campaigns a send accepts are
    in this state. *)
Definition untouched (d : Db) (c : Campaign.t) : Prop :=
  Campaign.emails_sent c = 0 /\
  Campaign.emails_failed c = 0 /\
  logs_of (Campaign.id c) d = [].

(** Tables in which every campaign a send accepts is untouched. *)
Definition drafts_untouched (d : Db) : Prop :=
  forall k c, query_get d k = Some c ->
              not_sendable (Campaign.status c) = false -> untouched d c.

(** [emails_sent + emails_failed <= total_recipients]. *)
Definition within_total (c : Campaign.t) : Prop :=
  attempted c <= Campaign.total_recipients c.

(** [EmailLog.query.filter_by(status=status).count()] over some rows. *)
Definition count_status (status : string) (rows : list EmailLog.t) : Z :=
  len (filter (fun row => String.eqb (EmailLog.status row) status) rows).

(** Session [b] is a later point than [a] in the handling of one campaign:
    same campaign id, same subscribers, every other campaign as it was, the
    log (committed and pending) longer by rows of this campaign, and the two
    counters raised by the number of such rows with each status. *)
Definition follows {X : Type} (a b : St X) : Prop :=
  Campaign.id (campaign b) = Campaign.id (campaign a) /\
  subscribers (db b) = subscribers (db a) /\
  (forall k, k <> Campaign.id (campaign a) ->
             query_get (db b) k = query_get (db a) k) /\
  exists rows,
    email_logs (db b) ++ session_new b
      = (email_logs (db a) ++ session_new a) ++ rows /\
    Forall (engine_row (Campaign.id (campaign a))) rows /\
    Campaign.emails_sent (campaign b)
      = Campaign.emails_sent (campaign a) + count_status "sent" rows /\
    Campaign.emails_failed (campaign b)
      = Campaign.emails_failed (campaign a) + count_status "failed" rows.

(** A computation every run of which ends at a later point. *)
Definition keeps {X A : Type} (m : M (St X) A) : Prop :=
  forall st st' r, m st = (st', r) -> follows st st'.

(** A message addressed to one of [l]. *)
Definition addressed_to (l : list Subscriber.t) (m : Mail.t) : Prop :=
  exists s, In s l /\ Mail.to_emails m = Subscriber.email s.

(** From [a] to [b] the subscribers table is kept and the provider has been
    handed only messages addressed to members of [l]. *)
Definition mails_only (l : list Subscriber.t) (a b : Mailer.State) : Prop :=
  subscribers (db b) = subscribers (db a) /\
  exists msgs, client b = client a ++ msgs /\ Forall (addressed_to l) msgs.

Definition keeps_mail {A : Type} (l : list Subscriber.t) (m : M Mailer.State A) : Prop :=
  forall st st' r, m st = (st', r) -> mails_only l st st'.

(** The session when the batch loop of [send_campaign] starts. *)
Definition loop_entry {X : Type} (E : Env) (c : Campaign.t) (d : Db)
    (clk : nat) (x : X) : St X :=
  let started :=
    Campaign.set_total_recipients (len (active_subscribers d))
      (Campaign.set_sent_at (Some (now E clk))
         (Campaign.set_status "sending" c)) in
  mkSt (mkDb (update_row started (campaigns d)) (subscribers d) (email_logs d))
       started [] (S clk) x.


(** ** utils.py *)

Module Utils.

(** [a in s] for a character. *)
Fixpoint contains (a : ascii) (s : string) : bool :=
  match s with
  | EmptyString => false
  | String b r => Ascii.eqb b a || contains a r
  end.

(** [s.rsplit(sep, 1)] when [sep] occurs in [s]: the text before the last
    [sep] and the text after it. *)
Fixpoint rsplit_once (sep : ascii) (s : string) : option (string * string) :=
  match s with
  | EmptyString => None
  | String a r =>
      match rsplit_once sep r with
      | Some (h, t) => Some (String a h, t)
      | None => if Ascii.eqb a sep then Some (EmptyString, r) else None
      end
  end.

(** [allowed_file(filename, allowed_extensions)].  The [and] keeps
    [rsplit(...)[1]] from being taken of a name without a dot.  [lower]
    works on ASCII letters, which is all that matters for the extensions the
    code passes: no other character lower-cases to a letter of ['csv']. *)
Definition allowed_file (filename : string) (allowed_extensions : list string) : bool :=
  contains "." filename &&
  match rsplit_once "." filename with
  | Some (_, ext) => existsb (String.eqb (lower ext)) allowed_extensions
  | None => false
  end.

(** [s.strip()] on ASCII text: the characters [str.isspace] accepts below
    128 are 9 to 13 and 28 to 32. *)
Definition is_space (a : ascii) : bool :=
  let n := nat_of_ascii a in
  ((9 <=? n)%nat && (n <=? 13)%nat) || ((28 <=? n)%nat && (n <=? 32)%nat).

Fixpoint lstrip (s : string) : string :=
  match s with
  | EmptyString => EmptyString
  | String a r => if is_space a then lstrip r else s
  end.

Fixpoint rstrip (s : string) : string :=
  match s with
  | EmptyString => EmptyString
  | String a r =>
      match rstrip r with
      | EmptyString => if is_space a then EmptyString else String a EmptyString
      | kept => String a kept
      end
  end.

Definition strip (s : string) : string := rstrip (lstrip s).

(** [s.split(sep)[-1]]: the text after the last [sep], all of [s] when there
    is none. *)
Fixpoint split_last (sep : ascii) (s : string) : string :=
  match s with
  | EmptyString => EmptyString
  | String a r =>
      if contains sep r then split_last sep r
      else if Ascii.eqb a sep then r else s
  end.

(** Text that does not start with white space. *)
Definition starts_clean (s : string) : Prop :=
  match s with
  | EmptyString => True
  | String a _ => is_space a = false
  end.

(** Text of ASCII characters only, where [strip] and [lower] above are
    Python's. *)
Fixpoint ascii_only (s : string) : bool :=
  match s with
  | EmptyString => true
  | String a r => (nat_of_ascii a <? 128)%nat && ascii_only r
  end.

(** [clean_email_address(email)] for an address that is a string or
    [None]. *)
Definition clean_email_address (email : option string) : option string :=
  match email with
  | Some (String a r) =>
      let email := lower (strip (String a r)) in
      if negb (contains "@" email) || negb (contains "." (split_last "@" email))
      then None
      else Some email
  | _ => None
  end.

Definition status_colors : list (string * string) :=
  [ ("draft", "secondary"); ("scheduled", "info"); ("sending", "primary");
    ("completed", "success"); ("completed_with_errors", "warning");
    ("failed", "danger"); ("pending", "secondary"); ("sent", "info");
    ("delivered", "success"); ("opened", "primary"); ("clicked", "success");
    ("bounced", "danger"); ("unsubscribed", "warning") ].

Definition get_status_color (status : string) : string :=
  match dict_get status_colors status with
  | Some color => color
  | None => "secondary"
  end.

End Utils.

(** ** What a request or a job leaves behind

    The tables, the readings taken off the clock and what the provider has
    seen.  Changes that were not committed end with the request. *)
Record World := mkWorld {
  tables : Db;
  readings : nat;
  seen : list Mail.t
}.

Definition world_of (st : St (list Mail.t)) : World :=
  mkWorld (db st) (clock st) (client st).

(** ** scheduler.py *)

Module Scheduler.
Section Jobs.

Variable E : Env.
(** What [EmailSender()] gives. *)
Variable sender : res (Mail.t -> res Response.t).

(** [scheduled_job_wrapper(campaign_id)].  The handler's
    [Campaign.query.get] gives the object the session already holds. *)
Definition scheduled_job_wrapper (campaign_id : Z) (w : World) : World :=
  match query_get (tables w) campaign_id with
  | Some campaign =>
      if String.eqb (Campaign.status campaign) "scheduled"
      then
        let mark_failed :=
          let* _ := update_campaign (Campaign.set_status "failed") in
          commit in
        match Mailer.send_campaign_email E sender campaign_id false
                (tables w) (readings w) (seen w) with
        | Ran st (Ret _) => world_of st
        | Ran st (Raise _) => world_of (fst (mark_failed st))
        | NotLoaded _ =>
            world_of (fst (mark_failed
                             (mkSt (tables w) campaign [] (readings w) (seen w))))
        end
      else w
  | None => w
  end.

End Jobs.
End Scheduler.

(** ** app.py *)

Module App.

Inductive Response :=
| NotFound                                            (* [get_or_404] aborts *)
| Redirect (endpoint : string) (message category : string)
                                 (* [flash(message, category)], then a redirect *)
| Page (template : string).

Section Routes.

Variable E : Env.
(** What [EmailSender()] gives. *)
Variable sender : res (Mail.t -> res Response.t).

(** [POST /campaigns/<id>/send].  The result [send_campaign] returns always
    has ['success': True], so the route's other branch is never taken. *)
Definition send_campaign (id : Z) (w : World) : World * Response :=
  match query_get (tables w) id with
  | None => (w, NotFound)
  | Some campaign =>
      if not_sendable (Campaign.status campaign)
      then (w, Redirect "view_campaign"
                 ("Campaign cannot be sent. Current status: " +:+ Campaign.status campaign)
                 "error")
      else
        match Mailer.send_campaign_email E sender id false
                (tables w) (readings w) (seen w) with
        | Ran st (Ret result) =>
            (world_of st,
             Redirect "view_campaign"
               ("Campaign sent successfully! " +:+ str_int (sent result) +:+
                " emails sent, " +:+ str_int (failed result) +:+ " failed.")
               "success")
        | Ran st (Raise e) =>
            (world_of st,
             Redirect "view_campaign" ("Error sending campaign: " +:+ str e) "error")
        | NotLoaded e =>
            (w, Redirect "view_campaign" ("Error sending campaign: " +:+ str e) "error")
        end
  end.

End Routes.

(** [POST /campaigns/<id>/delete]: the row goes, and with it the log rows
    the relationship's cascade reaches. *)
Definition delete_campaign (id : Z) (d : Db) : Db * Response :=
  match query_get d id with
  | None => (d, NotFound)
  | Some campaign =>
      if not_sendable (Campaign.status campaign)
      then (d, Redirect "view_campaign"
                 ("Campaign cannot be deleted. Current status: " +:+ Campaign.status campaign)
                 "error")
      else
        (mkDb (filter (fun c => negb (Campaign.id c =? id)) (campaigns d))
              (subscribers d)
              (filter (fun row => negb (EmailLog.campaign_id row =? id)) (email_logs d)),
         Redirect "campaigns" "Campaign deleted successfully!" "success")
  end.

(** The UPDATE a flush issues for a loaded subscriber. *)
Definition same_id (a b : option Z) : bool :=
  match a, b with
  | Some x, Some y => x =? y
  | _, _ => false
  end.

Definition update_subscriber (s : Subscriber.t) (rows : list Subscriber.t)
    : list Subscriber.t :=
  map (fun r => if same_id (Subscriber.id r) (Subscriber.id s) then s else r) rows.

Definition deactivated (s : Subscriber.t) : Subscriber.t :=
  Subscriber.mk (Subscriber.id s) (Subscriber.email s) (Subscriber.name s)
                (Subscriber.custom_message s) false (Subscriber.unsubscribe_token s).

(** [GET /unsubscribe?token=...]. *)
Definition unsubscribe (token : option string) (d : Db) : Db * Response :=
  match token with
  | Some (String a t) =>
      match find (fun s => String.eqb (Subscriber.unsubscribe_token s) (String a t))
                 (subscribers d) with
      | Some subscriber =>
          (mkDb (campaigns d)
                (update_subscriber (deactivated subscriber) (subscribers d))
                (email_logs d),
           Page "unsubscribed.html")
      | None => (d, Redirect "dashboard" "Invalid unsubscribe link" "error")
      end
  | _ => (d, Redirect "dashboard" "Invalid unsubscribe link" "error")
  end.

(** The constraints [models.py] puts on the subscribers table: a primary
    key, never null, and a unique token. *)
Definition subscribers_keyed (d : Db) : Prop :=
  NoDup (map Subscriber.id (subscribers d)) /\
  Forall (fun s => Subscriber.id s <> None) (subscribers d) /\
  NoDup (map Subscriber.unsubscribe_token (subscribers d)).

End App.

(** ** More sample data *)

Module Sample2.

(** A MailerSend object whose [send] answers with a null [data]. *)
Definition mailer_null_data (calls : list MailerSend.call) : res PyVal :=
  Ret (PDict [("data", PNone)]).

(** A campaign [create_campaign] has scheduled. *)
Definition scheduled : Campaign.t :=
  Campaign.mk 2 "Summer" "Hello" "Hi {{name}}" None (Some 9) None "scheduled" 0 0 0.

Definition db_scheduled : Db := mkDb [Sample.draft; scheduled] [Sample.ann; Sample.bob] [].

(** No active subscriber. *)
Definition db_nobody : Db := mkDb [Sample.draft] [Sample.gone] [].

(** Settings with [EMAIL_BATCH_SIZE=-1], and with [EMAIL_BATCH_SIZE=0]. *)
Definition env_batch_neg : Env :=
  mkEnv (Config.mk (Some "news@example.com") "Email Shooter" (-1) 1
                   "http://localhost:5000/unsubscribe")
        Sample.render (fun k => Z.of_nat k).

Definition env_batch0 : Env :=
  mkEnv (Config.mk (Some "news@example.com") "Email Shooter" 0 1
                   "http://localhost:5000/unsubscribe")
        Sample.render (fun k => Z.of_nat k).

(** A Jinja2 that rejects every template. *)
Definition render_broken (t : string) (context : list (string * string)) : res string :=
  Raise (PyExc "TemplateSyntaxError" "unexpected '}'").

Definition env_broken : Env :=
  mkEnv Sample.settings render_broken (fun k => Z.of_nat k).

(** The sessions the sample sends end in. *)
Definition sent_scheduled : Mailer.State :=
  Mailer.finished Sample.env Sample.accepts false scheduled db_scheduled 0%nat [].


Definition sent_three : Mailer.State :=
  Mailer.finished Sample.env Sample.rejects_bad false Sample.draft Sample.db_three 0%nat [].

(** A Jinja2 that fails on every template and names what it was given. *)
Definition render_echo (t : string) (context : list (string * string)) : res string :=
  let value k := py_or (dict_get context k) EmptyString in
  Raise (PyExc "UndefinedError"
               (t +:+ " with name=" +:+ value "name" +:+
                ", custom_message=" +:+ value "custom_message" +:+
                ", unsubscribe_url=" +:+ value "unsubscribe_url" +:+
                ", campaign_name=" +:+ value "campaign_name")).

Definition env_echo : Env :=
  mkEnv Sample.settings render_echo (fun k => Z.of_nat k).

(** A store that fails the second commit of a run, and the error SQLAlchemy
    raises on a session that needs a rollback. *)
Definition store_fails_second (k : nat) : option exn :=
  match k with
  | 1%nat => Some (PyExc "OperationalError" "database is locked")
  | _ => None
  end.

Definition pending_rollback (e : exn) : exn :=
  PyExc "PendingRollbackError"
        ("This Session's transaction has been rolled back due to a previous " +:+
         "exception during flush. Original exception was: " +:+ str e).

End Sample2.

(** * Facts *)

Ltac simpl_id :=
  cbn [Campaign.id Campaign.set_status Campaign.set_sent_at
       Campaign.set_total_recipients Campaign.set_emails_sent
       Campaign.set_emails_failed add_counts].

Ltac run_monad :=
  unfold bind, ret, raise, lift, try_except, get_campaign, update_campaign,
    session_add, utcnow; simpl.

Lemma firstn_plus {A} (n p : nat) (l : list A) :
  firstn (n + p) l = firstn n l ++ firstn p (skipn n l).
Proof.
  revert l. induction n as [|n IH]; intros l; simpl; [reflexivity|].
  destruct l as [|x l]; simpl.
  - now rewrite firstn_nil.
  - now rewrite IH.
Qed.

Lemma skipn_plus {A} (n p : nat) (l : list A) :
  skipn (n + p) l = skipn p (skipn n l).
Proof.
  revert l. induction n as [|n IH]; intros l; simpl; [reflexivity|].
  destruct l as [|x l]; simpl; [now rewrite skipn_nil | apply IH].
Qed.

Lemma len_app {A} (l1 l2 : list A) : len (l1 ++ l2) = len l1 + len l2.
Proof. unfold len. rewrite length_app. lia. Qed.

Lemma len_nonneg {A} (l : list A) : 0 <= len l.
Proof. unfold len. lia. Qed.

Lemma update_row_again c c' rows :
  Campaign.id c = Campaign.id c' ->
  update_row c (update_row c' rows) = update_row c rows.
Proof.
  intros Hid. unfold update_row. rewrite map_map. apply map_ext. intros r.
  destruct (Campaign.id r =? Campaign.id c') eqn:Hr.
  - apply Z.eqb_eq in Hr. rewrite Hr, <- Hid, Z.eqb_refl. reflexivity.
  - reflexivity.
Qed.

Lemma query_get_update_row c rows k :
  Campaign.id c = k ->
  find (fun r => Campaign.id r =? k) (update_row c rows) =
  match find (fun r => Campaign.id r =? k) rows with
  | Some _ => Some c
  | None => None
  end.
Proof.
  intros <-. induction rows as [|r rows IH]; simpl; [reflexivity|].
  destruct (Campaign.id r =? Campaign.id c) eqn:Hr.
  - now rewrite Z.eqb_refl.
  - now rewrite Hr.
Qed.

Lemma query_get_other c rows k :
  Campaign.id c <> k ->
  find (fun r => Campaign.id r =? k) (update_row c rows) =
  find (fun r => Campaign.id r =? k) rows.
Proof.
  intros Hne. induction rows as [|r rows IH]; simpl; [reflexivity|].
  destruct (Campaign.id r =? Campaign.id c) eqn:Hr.
  - apply Z.eqb_eq in Hr.
    apply Z.eqb_neq in Hne. rewrite Hne.
    rewrite Hr, Hne. exact IH.
  - now rewrite IH.
Qed.

Lemma query_get_id d k c : query_get d k = Some c -> Campaign.id c = k.
Proof.
  unfold query_get. intros H. apply find_some in H. now apply Z.eqb_eq.
Qed.

(** The fields of the states the session operations leave. *)

Lemma St_ext {X} (a b : St X) :
  db a = db b -> campaign a = campaign b -> session_new a = session_new b ->
  clock a = clock b -> client a = client b -> a = b.
Proof. destruct a, b; simpl; intros; subst; reflexivity. Qed.

Lemma Db_ext (a b : Db) :
  campaigns a = campaigns b -> subscribers a = subscribers b ->
  email_logs a = email_logs b -> a = b.
Proof. destruct a, b; simpl; intros; subst; reflexivity. Qed.

Lemma campaigns_committed {X} (st : St X) :
  campaigns (db (committed st)) = update_row (campaign st) (campaigns (db st)).
Proof. reflexivity. Qed.

Lemma subscribers_committed {X} (st : St X) :
  subscribers (db (committed st)) = subscribers (db st).
Proof. reflexivity. Qed.

Lemma email_logs_committed {X} (st : St X) :
  email_logs (db (committed st)) = email_logs (db st) ++ session_new st.
Proof. reflexivity. Qed.

Lemma campaign_committed {X} (st : St X) : campaign (committed st) = campaign st.
Proof. reflexivity. Qed.

Lemma session_new_committed {X} (st : St X) : session_new (committed st) = [].
Proof. reflexivity. Qed.

Lemma clock_committed {X} (st : St X) : clock (committed st) = clock st.
Proof. reflexivity. Qed.

Lemma client_committed {X} (st : St X) : client (committed st) = client st.
Proof. reflexivity. Qed.

Lemma db_updated {X} f (st : St X) : db (fst (update_campaign f st)) = db st.
Proof. reflexivity. Qed.

Lemma campaign_updated {X} f (st : St X) :
  campaign (fst (update_campaign f st)) = f (campaign st).
Proof. reflexivity. Qed.

Lemma session_new_updated {X} f (st : St X) :
  session_new (fst (update_campaign f st)) = session_new st.
Proof. reflexivity. Qed.

Lemma clock_updated {X} f (st : St X) : clock (fst (update_campaign f st)) = clock st.
Proof. reflexivity. Qed.

Lemma client_updated {X} f (st : St X) : client (fst (update_campaign f st)) = client st.
Proof. reflexivity. Qed.

Lemma active_subscribers_committed {X} (st : St X) :
  active_subscribers (db (committed st)) = active_subscribers (db st).
Proof. reflexivity. Qed.

Lemma recipients_committed {X} test (st : St X) :
  Mailer.recipients test (db (committed st)) = Mailer.recipients test (db st).
Proof. reflexivity. Qed.

Lemma pause_between_batches {S A} (b : bool) (k : unit -> M S A) :
  bind (if b then lift (time_sleep 2) else ret tt) k = k tt.
Proof. destruct b; reflexivity. Qed.

Create Rewrite HintDb session.
#[global] Hint Rewrite @campaigns_committed @subscribers_committed
  @email_logs_committed @campaign_committed @session_new_committed
  @clock_committed @client_committed @db_updated @campaign_updated
  @session_new_updated @clock_updated @client_updated
  @active_subscribers_committed @recipients_committed : session.

Section MailerFacts.

Variable E : Env.
Variable sg : Mail.t -> res Response.t.

Abbreviation attempt := (Mailer.attempt E sg).
Abbreviation delivered := (Mailer.delivered E sg).
Abbreviation log_rows := (Mailer.log_rows E sg).
Abbreviation handed_over := (Mailer.handed_over E).
Abbreviation count_delivered := (Mailer.count_delivered E sg).
Abbreviation count_failed := (Mailer.count_failed E sg).
Abbreviation after_attempts := (Mailer.after_attempts E sg).

Lemma log_rows_add_counts a b c clk l :
  log_rows (add_counts a b c) clk l = log_rows c clk l.
Proof.
  revert clk. induction l as [|s l IH]; intros clk; simpl; [reflexivity|].
  now rewrite IH.
Qed.

Lemma log_rows_app c clk l1 l2 :
  log_rows c clk (l1 ++ l2) = log_rows c clk l1 ++ log_rows c (clk + length l1) l2.
Proof.
  revert clk. induction l1 as [|s l1 IH]; intros clk; simpl.
  - now rewrite Nat.add_0_r.
  - rewrite IH. now rewrite Nat.add_succ_r.
Qed.

Lemma length_log_rows c clk l : length (log_rows c clk l) = length l.
Proof. revert clk. induction l; intros; simpl; auto. Qed.

Lemma count_split c l : count_delivered c l + count_failed c l = len l.
Proof.
  unfold Mailer.count_delivered, Mailer.count_failed, len.
  induction l as [|s l IH]; [reflexivity|].
  cbn [filter]. destruct (delivered c s); cbn [negb length];
    rewrite !Nat2Z.inj_succ; lia.
Qed.

Lemma count_delivered_app c l1 l2 :
  count_delivered c (l1 ++ l2) = count_delivered c l1 + count_delivered c l2.
Proof. unfold Mailer.count_delivered. now rewrite filter_app, len_app. Qed.

Lemma count_failed_app c l1 l2 :
  count_failed c (l1 ++ l2) = count_failed c l1 + count_failed c l2.
Proof. unfold Mailer.count_failed. now rewrite filter_app, len_app. Qed.

Lemma add_counts_add_counts a b a' b' c :
  add_counts a' b' (add_counts a b c) = add_counts (a + a') (b + b') c.
Proof. unfold add_counts, Campaign.set_emails_failed, Campaign.set_emails_sent; simpl.
  f_equal; lia. Qed.

Lemma after_attempts_app l1 l2 st :
  after_attempts l2 (after_attempts l1 st) = after_attempts (l1 ++ l2) st.
Proof.
  unfold Mailer.after_attempts; simpl.
  change (count_delivered (add_counts ?a ?b ?c)) with (count_delivered c).
  change (count_failed (add_counts ?a ?b ?c)) with (count_failed c).
  change (handed_over (add_counts ?a ?b ?c)) with (handed_over c).
  rewrite log_rows_add_counts, add_counts_add_counts.
  rewrite count_delivered_app, count_failed_app, log_rows_app.
  unfold Mailer.handed_over. rewrite flat_map_app, length_app.
  rewrite <- !app_assoc. f_equal. lia.
Qed.

Lemma send_single_email_run s st :
  Mailer.send_single_email E sg s st =
  (after_attempts [s] st,
   Ret (match attempt (campaign st) s with
        | Ret response => Sent (Mailer.header_value response "X-Message-Id")
                               (Response.status_code response)
        | Raise e => NotSent (str e)
        end)).
Proof.
  unfold Mailer.send_single_email, Mailer.after_attempts, Mailer.count_delivered,
    Mailer.count_failed, Mailer.delivered, Mailer.handed_over, Mailer.attempt,
    Mailer.sg_send. run_monad.
  unfold Mailer.log_row, Mailer.attempt.
  destruct (Mailer.create_email_message E s (campaign st)) as [m|e]; simpl.
  - destruct (sg m) as [r|e]; simpl; rewrite ?app_nil_r, ?Nat.add_1_r;
      unfold add_counts, Campaign.set_emails_failed, Campaign.set_emails_sent; simpl;
      rewrite ?Z.add_0_r; reflexivity.
  - rewrite ?app_nil_r, ?Nat.add_1_r;
      unfold add_counts, Campaign.set_emails_failed, Campaign.set_emails_sent; simpl;
      rewrite ?Z.add_0_r; reflexivity.
Qed.


Lemma add_counts_zero c : add_counts 0 0 c = c.
Proof. destruct c. unfold add_counts, Campaign.set_emails_failed,
  Campaign.set_emails_sent; simpl. now rewrite !Z.add_0_r. Qed.

Lemma after_attempts_nil st : after_attempts [] st = st.
Proof.
  destruct st as [d c new clk cl]. unfold Mailer.after_attempts; simpl.
  change (count_delivered c []) with 0. change (count_failed c []) with 0.
  now rewrite add_counts_zero, !app_nil_r, Nat.add_0_r.
Qed.

Lemma count_delivered_cons c s l :
  count_delivered c (s :: l) =
  (if delivered c s then 1 else 0) + count_delivered c l.
Proof.
  unfold Mailer.count_delivered, len. cbn [filter].
  destruct (delivered c s); cbn [length]; rewrite ?Nat2Z.inj_succ; lia.
Qed.

Lemma count_failed_cons c s l :
  count_failed c (s :: l) =
  (if delivered c s then 0 else 1) + count_failed c l.
Proof.
  unfold Mailer.count_failed, len. cbn [filter].
  destruct (delivered c s); cbn [negb length]; rewrite ?Nat2Z.inj_succ; lia.
Qed.

Hypothesis rate_ok : 0 < Config.EMAIL_RATE_LIMIT (config E).

Lemma sleep_ok : sleep_reciprocal (Config.EMAIL_RATE_LIMIT (config E)) = Ret tt.
Proof.
  unfold sleep_reciprocal.
  destruct (Z.eqb_spec (Config.EMAIL_RATE_LIMIT (config E)) 0); [lia|].
  destruct (Z.ltb_spec (Config.EMAIL_RATE_LIMIT (config E)) 0); [lia|reflexivity].
Qed.

Lemma send_batch_run batch counts st :
  Mailer.send_batch E sg batch counts st =
  (after_attempts batch st,
   Ret (fst counts + count_delivered (campaign st) batch,
        snd counts + count_failed (campaign st) batch)).
Proof.
  revert counts st. induction batch as [|s rest IH]; intros counts st.
  - simpl. unfold ret. rewrite after_attempts_nil.
    change (count_delivered (campaign st) []) with 0.
    change (count_failed (campaign st) []) with 0.
    rewrite !Z.add_0_r. now destruct counts.
  - cbn [Mailer.send_batch]. unfold bind at 1. rewrite send_single_email_run.
    unfold bind at 1, lift. rewrite sleep_ok. rewrite IH.
    change (s :: rest) with ([s] ++ rest). rewrite after_attempts_app.
    f_equal. f_equal.
    change (campaign (after_attempts [s] st))
      with (add_counts (count_delivered (campaign st) [s])
                       (count_failed (campaign st) [s]) (campaign st)).
    change (count_delivered (add_counts ?a ?b ?c)) with (count_delivered c).
    change (count_failed (add_counts ?a ?b ?c)) with (count_failed c).
    change ([s] ++ rest) with (s :: rest).
    rewrite count_delivered_cons, count_failed_cons.
    unfold Mailer.delivered.
    destruct (attempt (campaign st) s); cbn [fst snd]; f_equal; lia.
Qed.

Lemma committed_twice (st : Mailer.State) : committed (committed st) = committed st.
Proof.
  unfold committed, commit; simpl.
  rewrite update_row_again by reflexivity. now rewrite app_nil_r.
Qed.

Lemma committed_after_committed l (st : Mailer.State) :
  committed (after_attempts l (committed st)) = committed (after_attempts l st).
Proof.
  unfold committed, commit, Mailer.after_attempts; simpl.
  rewrite update_row_again by reflexivity.
  now rewrite <- app_assoc.
Qed.

Hypothesis batch_ok : 0 < Config.EMAIL_BATCH_SIZE (config E).

Lemma send_batches_run subs m : forall a counts st,
  committed st = st ->
  let b := Z.to_nat (Config.EMAIL_BATCH_SIZE (config E)) in
  let chunk := firstn (m * b) (skipn (a * b) subs) in
  Mailer.send_batches E sg
    (map (fun k : nat => 0 + Z.of_nat k * Config.EMAIL_BATCH_SIZE (config E)) (seq a m))
    subs counts st =
  (committed (after_attempts chunk st),
   Ret (fst counts + count_delivered (campaign st) chunk,
        snd counts + count_failed (campaign st) chunk)).
Proof.
  induction m as [|m IH]; intros a counts st Hst b chunk.
  - subst chunk. simpl. unfold ret. rewrite after_attempts_nil, Hst.
    change (count_delivered (campaign st) []) with 0.
    change (count_failed (campaign st) []) with 0.
    rewrite !Z.add_0_r. now destruct counts.
  - cbn [seq map Mailer.send_batches]. unfold bind at 1.
    rewrite send_batch_run. unfold bind at 1.
    change (commit (after_attempts ?l st)) with
      (committed (after_attempts l st), @Ret unit tt).
    cbv iota beta. rewrite pause_between_batches.
    set (batch := py_slice subs _ _).
    assert (Hbatch : batch = firstn b (skipn (a * b) subs)).
    { subst batch b. unfold py_slice. f_equal.
      - f_equal. lia.
      - f_equal. rewrite Z.add_0_l, Z2Nat.inj_mul, Nat2Z.id by lia. reflexivity. }
    rewrite IH by apply committed_twice.
    rewrite committed_after_committed, after_attempts_app.
    change (campaign (committed (after_attempts batch st)))
      with (add_counts (count_delivered (campaign st) batch)
                       (count_failed (campaign st) batch) (campaign st)).
    change (count_delivered (add_counts ?x ?y ?c)) with (count_delivered c).
    change (count_failed (add_counts ?x ?y ?c)) with (count_failed c).
    assert (Hchunk : batch ++ firstn (m * b) (skipn (S a * b) subs) = chunk).
    { subst chunk. rewrite Hbatch.
      change (S a * b)%nat with (b + a * b)%nat.
      rewrite (Nat.add_comm b (a * b)), skipn_plus.
      change (S m * b)%nat with (b + m * b)%nat.
      now rewrite firstn_plus. }
    fold b. rewrite Hchunk.
    f_equal. f_equal.
    rewrite <- Hchunk, count_delivered_app, count_failed_app. simpl. f_equal; lia.
Qed.

Lemma py_range_batches n :
  0 <= n ->
  exists m : nat,
    py_range 0 n (Config.EMAIL_BATCH_SIZE (config E)) =
    Ret (map (fun k : nat => 0 + Z.of_nat k * Config.EMAIL_BATCH_SIZE (config E)) (seq 0 m))
    /\ n <= Z.of_nat m * Config.EMAIL_BATCH_SIZE (config E).
Proof.
  intros Hn. unfold py_range.
  set (bs := Config.EMAIL_BATCH_SIZE (config E)) in *.
  destruct (Z.eqb_spec bs 0); [lia|].
  destruct (Z.ltb_spec 0 bs); [|lia].
  eexists. split; [reflexivity|].
  destruct (Z.ltb_spec 0 n).
  - rewrite Z2Nat.id.
    + pose proof (Z.div_mod (n - 0 - 1) bs ltac:(lia)).
      pose proof (Z.mod_pos_bound (n - 0 - 1) bs ltac:(lia)). nia.
    + pose proof (Z.div_pos (n - 0 - 1) bs ltac:(lia) ltac:(lia)). lia.
  - simpl. lia.
Qed.


Lemma firstn_covers {A} (l : list A) (m : nat) :
  len l <= Z.of_nat m * Config.EMAIL_BATCH_SIZE (config E) ->
  firstn (m * Z.to_nat (Config.EMAIL_BATCH_SIZE (config E))) (skipn (0 * Z.to_nat (Config.EMAIL_BATCH_SIZE (config E))) l) = l.
Proof.
  intros H. simpl. apply firstn_all2. unfold len in H.
  apply Nat2Z.inj_le. rewrite Nat2Z.inj_mul, Z2Nat.id by lia. exact H.
Qed.

Lemma send_campaign_try_run test (st : Mailer.State) :
  let rs := Mailer.recipients test (db st) in
  let c1 := Campaign.set_total_recipients (len (active_subscribers (db st))) (campaign st) in
  let st1 := mkSt (db st) c1 (session_new st) (clock st) (client st) in
  let final := if count_failed c1 rs =? 0 then "completed" else "completed_with_errors" in
  Mailer.send_campaign_try E sg test st =
  (committed (fst (update_campaign (Campaign.set_status final)
                     (committed (after_attempts rs (committed st1))))),
   Ret (mkResult (count_delivered c1 rs) (count_failed c1 rs) (len rs))).
Proof.
  intros rs c1 st1 final.
  unfold Mailer.send_campaign_try.
  unfold bind at 1. unfold bind at 1. unfold update_campaign at 1.
  unfold bind at 1.
  change (commit ?x) with (committed x, @Ret unit tt). cbv iota beta.
  fold c1. fold st1.
  change (if test then firstn 3 (active_subscribers (db st)) else active_subscribers (db st))
    with rs.
  destruct (py_range_batches (len rs) (len_nonneg rs)) as (m & Hrange & Hm).
  unfold bind at 1, lift. rewrite Hrange.
  unfold bind at 1.
  rewrite send_batches_run by apply committed_twice.
  rewrite (firstn_covers rs m Hm).
  change (campaign (committed st1)) with c1.
  cbn [fst snd]. rewrite !Z.add_0_l.
  unfold bind at 1. unfold update_campaign at 1. unfold bind at 1.
  change (commit ?x) with (committed x, @Ret unit tt). cbv iota beta.
  unfold ret. reflexivity.
Qed.


Lemma db_after_attempts l (st : Mailer.State) : db (after_attempts l st) = db st.
Proof. reflexivity. Qed.

Lemma campaign_after_attempts l (st : Mailer.State) :
  campaign (after_attempts l st) =
  add_counts (count_delivered (campaign st) l) (count_failed (campaign st) l)
             (campaign st).
Proof. reflexivity. Qed.

Lemma session_new_after_attempts l (st : Mailer.State) :
  session_new (after_attempts l st) =
  session_new st ++ log_rows (campaign st) (clock st) l.
Proof. reflexivity. Qed.

Lemma clock_after_attempts l (st : Mailer.State) :
  clock (after_attempts l st) = (clock st + length l)%nat.
Proof. reflexivity. Qed.

Lemma client_after_attempts l (st : Mailer.State) :
  client (after_attempts l st) = client st ++ handed_over (campaign st) l.
Proof. reflexivity. Qed.

Hint Rewrite db_after_attempts campaign_after_attempts session_new_after_attempts
  clock_after_attempts client_after_attempts : session.


Lemma send_campaign_run campaign_id test d clk outbox c :
  query_get d campaign_id = Some c ->
  not_sendable (Campaign.status c) = false ->
  let rs := Mailer.recipients test d in
  Mailer.send_campaign E sg campaign_id test d clk outbox =
  Ran (Mailer.finished E sg test c d clk outbox)
      (Ret (mkResult (count_delivered c rs) (count_failed c rs) (len rs))).
Proof.
  intros Hget Hok rs.
  unfold Mailer.send_campaign. rewrite Hget, Hok.
  unfold Mailer.send_campaign_started.
  unfold bind at 1, update_campaign at 1.
  unfold bind at 1, utcnow at 1.
  unfold bind at 1, update_campaign at 1.
  unfold bind at 1.
  change (commit ?x) with (committed x, @Ret unit tt). cbv iota beta.
  cbn [db campaign session_new clock client].
  match goal with |- context [committed ?x] => set (st0 := committed x) end.
  unfold try_except. rewrite send_campaign_try_run. cbv zeta.
  f_equal.
  apply St_ext; [apply Db_ext|..].
  all: autorewrite with session.
  all: unfold Mailer.finished;
    cbn [db campaign session_new clock client campaigns subscribers email_logs].
  all: subst st0; autorewrite with session.
  all: cbn [db campaign session_new clock client campaigns subscribers email_logs].
  - rewrite !update_row_again by (simpl_id; reflexivity). reflexivity.
  - reflexivity.
  - rewrite !app_nil_r, !app_nil_l. reflexivity.
  - reflexivity.
  - reflexivity.
  - reflexivity.
  - reflexivity.
Qed.


Lemma log_rows_ext c c' clk l :
  (forall s t, Mailer.log_row E sg c s t = Mailer.log_row E sg c' s t) ->
  log_rows c clk l = log_rows c' clk l.
Proof.
  intros H. revert clk. induction l as [|s l IH]; intros clk; simpl; [reflexivity|].
  now rewrite H, IH.
Qed.

Lemma log_rows_row_for c clk l :
  Forall2 (Mailer.row_for E sg c) l (log_rows c clk l).
Proof.
  revert clk. induction l as [|s l IH]; intros clk; simpl; constructor; auto.
  unfold Mailer.row_for, Mailer.log_row.
  destruct (attempt c s); simpl; auto.
Qed.

Lemma count_all_delivered c l :
  (forall s, In s l -> delivered c s = true) ->
  count_delivered c l = len l /\ count_failed c l = 0.
Proof.
  intros H. pose proof (count_split c l) as Hs.
  assert (count_failed c l = 0) as H0; [|lia].
  unfold Mailer.count_failed.
  induction l as [|s l IH]; [reflexivity|].
  cbn [filter]. rewrite (H s (or_introl eq_refl)). cbn [negb].
  apply IH.
  - intros s' Hs'. apply H. now right.
  - apply count_split.
Qed.

Lemma sendable_status status :
  status = "draft" \/ status = "scheduled" -> not_sendable status = false.
Proof. intros [-> | ->]; reflexivity. Qed.

Lemma not_sendable_status status :
  status <> "draft" -> status <> "scheduled" -> not_sendable status = true.
Proof.
  intros H1 H2. unfold not_sendable.
  destruct (String.eqb_spec status "draft"); [contradiction|].
  destruct (String.eqb_spec status "scheduled"); [contradiction|reflexivity].
Qed.

Lemma committed_stored {X} (st : St X) k :
  Campaign.id (campaign st) = k ->
  query_get (db st) k <> None ->
  query_get (db (committed st)) k = Some (campaign st).
Proof.
  intros Hid Hsome. unfold committed, commit, query_get in *; simpl.
  rewrite query_get_update_row by exact Hid.
  destruct (find _ (campaigns (db st))); [reflexivity|contradiction].
Qed.

Lemma finished_stored test campaign_id d clk outbox c :
  query_get d campaign_id = Some c ->
  query_get (db (Mailer.finished E sg test c d clk outbox)) campaign_id =
  Some (campaign (Mailer.finished E sg test c d clk outbox)).
Proof.
  intros Hget. unfold Mailer.finished, query_get in *; simpl.
  rewrite query_get_update_row.
  - now rewrite Hget.
  - simpl. now apply (query_get_id d).
Qed.

Lemma length_firstn_3 {A} (l : list A) : len (firstn 3 l) = Z.min 3 (len l).
Proof. unfold len. rewrite length_firstn. lia. Qed.


Lemma log_row_ids c s t :
  EmailLog.subscriber_id (Mailer.log_row E sg c s t) = Subscriber.id s /\
  EmailLog.campaign_id (Mailer.log_row E sg c s t) = Campaign.id c.
Proof. unfold Mailer.log_row. destruct (attempt c s); split; reflexivity. Qed.

Lemma rows_by_status c l rows :
  Forall2 (Mailer.row_for E sg c) l rows ->
  len (filter (fun row => String.eqb (EmailLog.status row) "sent") rows)
    = count_delivered c l /\
  len (filter (fun row => String.eqb (EmailLog.status row) "failed") rows)
    = count_failed c l /\
  len rows = len l.
Proof.
  induction 1 as [|s row l rows (_ & _ & Hrow) _ IH].
  - repeat split.
  - destruct IH as (IH1 & IH2 & IH3).
    rewrite count_delivered_cons, count_failed_cons.
    cbn [filter]. unfold Mailer.delivered.
    destruct (attempt c s); destruct Hrow as [-> _]; cbn [String.eqb Ascii.eqb Bool.eqb];
      unfold len in *; cbn [length]; rewrite ?Nat2Z.inj_succ; lia.
Qed.

(** Compose never returns a message: rendering raises, or the assignment
    to [custom_args] does; the text of the error is never empty. *)
Lemma compose_fails s c :
  exists e, Mailer.create_email_message E s c = Raise e /\ str e <> EmptyString.
Proof.
  unfold Mailer.create_email_message.
  destruct (Mailer.render_bodies E s c) as [[html text]|e] eqn:Hbodies.
  - eexists. split; [reflexivity | discriminate].
  - exists e. split; [reflexivity|].
    revert Hbodies. unfold Mailer.render_bodies.
    destruct (Mailer.render_template E (Campaign.template_html c) _) as [html|e1].
    + destruct (Campaign.template_text c) as [[|a t]|]; try discriminate.
      destruct (Mailer.render_template E (String a t) _); [discriminate|].
      intros [= <-]. discriminate.
    + intros [= <-]. discriminate.
Qed.

Lemma compose_error_text s c e :
  Mailer.create_email_message E s c = Raise e -> str e <> EmptyString.
Proof.
  destruct (compose_fails s c) as (e' & He & Htext). rewrite He. now intros [= <-].
Qed.

Lemma attempt_fails c s :
  exists e, attempt c s = Raise e /\ str e <> EmptyString.
Proof.
  unfold Mailer.attempt. destruct (compose_fails s c) as (e & -> & Htext).
  now exists e.
Qed.

Lemma never_delivered c s : delivered c s = false.
Proof.
  unfold Mailer.delivered. now destruct (attempt_fails c s) as (e & -> & _).
Qed.

Lemma count_delivered_none c l : count_delivered c l = 0.
Proof.
  unfold Mailer.count_delivered.
  induction l as [|s l IH]; [reflexivity|].
  cbn [filter]. now rewrite never_delivered.
Qed.

Lemma count_failed_all c l : count_failed c l = len l.
Proof. pose proof (count_split c l) as H. rewrite count_delivered_none in H. lia. Qed.

Lemma handed_over_none c l : Mailer.handed_over E c l = [].
Proof.
  unfold Mailer.handed_over. induction l as [|s l IH]; [reflexivity|].
  cbn [flat_map]. now destruct (compose_fails s c) as (e & -> & _).
Qed.

(** The row an attempt adds records a failure. *)
Lemma log_row_failed c s t :
  exists text,
    Mailer.log_row E sg c s t =
      EmailLog.mk (Subscriber.id s) (Campaign.id c) PNone "failed" (Some text) (Some t) /\
    text <> EmptyString.
Proof.
  unfold Mailer.log_row. destruct (attempt_fails c s) as (e & -> & Htext).
  now exists (str e).
Qed.

Lemma log_rows_failed c clk l :
  Forall (failed_row (Campaign.id c)) (log_rows c clk l) /\
  map EmailLog.subscriber_id (log_rows c clk l) = map Subscriber.id l.
Proof.
  revert clk. induction l as [|s l IH]; intros clk; [now split|].
  cbn [Mailer.log_rows map]. destruct (IH (S clk)) as [IH1 IH2].
  destruct (log_row_failed c s (now E clk)) as (text & -> & Htext).
  split; [|now rewrite IH2].
  constructor; [|exact IH1].
  repeat split. now exists text.
Qed.

Lemma send_batch_frame batch : forall counts st st' r,
  Mailer.send_batch E sg batch counts st = (st', r) ->
  db st' = db st /\ Campaign.id (campaign st') = Campaign.id (campaign st).
Proof.
  induction batch as [|s rest IH]; intros counts st st' r.
  - intros [= <- _]. now split.
  - cbn [Mailer.send_batch]. unfold bind at 1. rewrite send_single_email_run.
    unfold bind at 1, lift.
    destruct (sleep_reciprocal _) as [[]|e].
    + intros H. apply IH in H. destruct H as [-> ->]. split; reflexivity.
    + intros [= <- _]. split; reflexivity.
Qed.

Lemma send_batches_frame subs starts : forall counts st st' r,
  query_get (db st) (Campaign.id (campaign st)) <> None ->
  Mailer.send_batches E sg starts subs counts st = (st', r) ->
  Campaign.id (campaign st') = Campaign.id (campaign st) /\
  query_get (db st') (Campaign.id (campaign st)) <> None.
Proof.
  induction starts as [|i more IH]; intros counts st st' r Hrow.
  - intros [= <- _]. now split.
  - cbn [Mailer.send_batches]. unfold bind at 1.
    destruct (Mailer.send_batch E sg _ counts st) as [st1 [counts1|e]] eqn:Hbatch;
      apply send_batch_frame in Hbatch; destruct Hbatch as [Hdb Hid].
    + unfold bind at 1.
      change (commit st1) with (committed st1, @Ret unit tt). cbv iota beta.
      rewrite pause_between_batches.
      intros H. apply IH in H.
      * rewrite campaign_committed, Hid in H. exact H.
      * rewrite campaign_committed, (committed_stored st1 _ eq_refl); [discriminate|].
        now rewrite Hdb, Hid.
    + intros [= <- _]. rewrite Hdb, Hid. now split.
Qed.


Lemma attempted_after_attempts l (st : Mailer.State) :
  attempted (campaign (after_attempts l st)) = attempted (campaign st) + len l /\
  Campaign.total_recipients (campaign (after_attempts l st))
    = Campaign.total_recipients (campaign st) /\
  Campaign.emails_sent (campaign st)
    <= Campaign.emails_sent (campaign (after_attempts l st)) /\
  Campaign.emails_failed (campaign st)
    <= Campaign.emails_failed (campaign (after_attempts l st)).
Proof.
  pose proof (count_split (campaign st) l) as Hs.
  pose proof (len_nonneg (filter (delivered (campaign st)) l)) as H1.
  pose proof (len_nonneg (filter (fun s => negb (delivered (campaign st) s)) l)) as H2.
  rewrite campaign_after_attempts. unfold attempted.
  unfold Mailer.count_delivered, Mailer.count_failed in *.
  cbn [add_counts Campaign.set_emails_failed Campaign.set_emails_sent
       Campaign.emails_sent Campaign.emails_failed Campaign.total_recipients].
  repeat split; try reflexivity; lia.
Qed.

(** What the [try] of [send_campaign] leaves, whatever the settings. *)
Lemma send_campaign_try_cases test (st st' : Mailer.State) r :
  query_get (db st) (Campaign.id (campaign st)) <> None ->
  Mailer.send_campaign_try E sg test st = (st', r) ->
  Campaign.id (campaign st') = Campaign.id (campaign st) /\
  query_get (db st') (Campaign.id (campaign st)) <> None /\
  match r with
  | Ret _ =>
      session_new st' = [] /\
      query_get (db st') (Campaign.id (campaign st)) = Some (campaign st') /\
      (Campaign.status (campaign st') = "completed" \/
       Campaign.status (campaign st') = "completed_with_errors")
  | Raise _ => True
  end.
Proof.
  intros Hrow. unfold Mailer.send_campaign_try.
  unfold bind at 1. unfold bind at 1, update_campaign at 1. unfold bind at 1.
  change (commit ?x) with (committed x, @Ret unit tt). cbv iota beta.
  cbn [db campaign session_new clock client].
  match goal with |- context [committed ?x] => set (st1 := committed x) end.
  assert (Hid1 : Campaign.id (campaign st1) = Campaign.id (campaign st)) by reflexivity.
  assert (Hrow1 : query_get (db st1) (Campaign.id (campaign st1)) <> None).
  { subst st1. rewrite campaign_committed, (committed_stored _ _ eq_refl); [discriminate|].
    exact Hrow. }
  unfold bind at 1, lift.
  destruct (py_range 0 _ _) as [starts|e].
  - unfold bind at 1.
    destruct (Mailer.send_batches E sg starts _ (0, 0) st1) as [st2 [counts|e]] eqn:Hloop;
      apply send_batches_frame in Hloop; try exact Hrow1;
      destruct Hloop as [Hid2 Hrow2]; rewrite Hid1 in Hid2, Hrow2.
    + unfold bind at 1, update_campaign at 1. unfold bind at 1.
      change (commit ?x) with (committed x, @Ret unit tt). cbv iota beta.
      unfold ret. intros [= <- <-].
      rewrite campaign_committed. cbn [campaign].
      assert (Hst : query_get (db (committed (mkSt (db st2)
                       (Campaign.set_status
                          (if snd counts =? 0 then "completed" else "completed_with_errors")
                          (campaign st2))
                       (session_new st2) (clock st2) (client st2))))
                  (Campaign.id (campaign st)) =
                Some (Campaign.set_status
                          (if snd counts =? 0 then "completed" else "completed_with_errors")
                          (campaign st2))).
      { apply (committed_stored (mkSt _ _ _ _ _)); [exact Hid2 | exact Hrow2]. }
      split; [exact Hid2|]. rewrite Hst.
      split; [discriminate|].
      split; [reflexivity|]. split; [reflexivity|].
      cbn [Campaign.status Campaign.set_status].
      destruct (snd counts =? 0); [now left | now right].
    + intros [= <- <-]. now repeat split.
  - intros [= <- <-]. rewrite <- Hid1 at 2. now repeat split.
Qed.


Lemma send_test_email_run campaign_id test_email token d clk outbox c :
  query_get d campaign_id = Some c ->
  let test_subscriber :=
    new_subscriber token test_email (Some "Test User")
                   (Some "This is a test message.") in
  Mailer.send_test_email E sg campaign_id test_email token d clk outbox =
  Ran (after_attempts [test_subscriber] (mkSt d c [] clk outbox))
      (Ret (match attempt c test_subscriber with
            | Ret response => Sent (Mailer.header_value response "X-Message-Id")
                                   (Response.status_code response)
            | Raise e => NotSent (str e)
            end)).
Proof.
  intros Hget ts. unfold Mailer.send_test_email. rewrite Hget.
  unfold try_except. rewrite send_single_email_run. reflexivity.
Qed.

End MailerFacts.


(** * The claims on [mailer.py] *)

Section Claims.

Variable E : Env.
Variable sg : Mail.t -> res Response.t.

(** C6.  A send of a campaign whose status is neither 'draft' nor
    'scheduled' raises "Campaign cannot be sent. Current status: ..." and
    changes nothing: the tables, the loaded campaign, the session, the clock
    and the provider are as before.  A send of a campaign id with no stored
    row raises "Campaign not found". *)
Theorem send_refused campaign_id test_mode d clk outbox :
  (forall c,
     query_get d campaign_id = Some c ->
     Campaign.status c <> "draft" -> Campaign.status c <> "scheduled" ->
     Mailer.send_campaign E sg campaign_id test_mode d clk outbox =
     Ran (mkSt d c [] clk outbox)
         (Raise (Exception ("Campaign cannot be sent. Current status: " +:+
                            Campaign.status c)))) /\
  (query_get d campaign_id = None ->
   Mailer.send_campaign E sg campaign_id test_mode d clk outbox =
   NotLoaded (Exception "Campaign not found")).
Proof.
  split.
  - intros c Hget H1 H2. unfold Mailer.send_campaign.
    now rewrite Hget, (not_sendable_status _ H1 H2).
  - intros Hget. unfold Mailer.send_campaign. now rewrite Hget.
Qed.

End Claims.

(** * The MailerSend mailer *)

Section OldMailerFacts.

Variable E : Env.
Variable mailer : list MailerSend.call -> res PyVal.

(** The old attempt touches nothing but the MailerSend object. *)
Lemma old_attempt_frame s so so1 r :
  MailerOld.attempt E mailer s so = (so1, r) ->
  db so1 = db so /\ campaign so1 = campaign so /\
  session_new so1 = session_new so /\ clock so1 = clock so.
Proof.
  unfold MailerOld.attempt, MailerOld.create_email_message, MailerOld.call,
    bind, lift, ret, get_campaign.
  cbn [db campaign session_new clock client].
  repeat (cbv beta iota;
          match goal with
          | |- context [if ?x then _ else _] => destruct x
          | |- context [match ?x with _ => _ end] =>
              match type of x with res _ => destruct x end
          end);
    cbv beta iota; intros [= <- _];
    cbn [db campaign session_new clock client]; now repeat split.
Qed.

Lemma old_send_single_email_run s so :
  MailerOld.send_single_email E mailer s so =
  let (so1, r) := MailerOld.attempt E mailer s so in
  match r with
  | Ret message_id =>
      (mkSt (db so1)
            (Campaign.set_emails_sent (Campaign.emails_sent (campaign so1) + 1)
                                      (campaign so1))
            (session_new so1 ++
             [EmailLog.mk (Subscriber.id s) (Campaign.id (campaign so))
                          message_id "sent" None (Some (now E (clock so1)))])
            (S (clock so1)) (client so1),
       Ret (Sent message_id 200))
  | Raise e =>
      (mkSt (db so1)
            (Campaign.set_emails_failed (Campaign.emails_failed (campaign so1) + 1)
                                        (campaign so1))
            (session_new so1 ++
             [EmailLog.mk (Subscriber.id s) (Campaign.id (campaign so1))
                          PNone "failed" (Some (str e)) (Some (now E (clock so1)))])
            (S (clock so1)) (client so1),
       Ret (NotSent (str e)))
  end.
Proof.
  unfold MailerOld.send_single_email, MailerOld.attempt, try_except, bind, lift,
    ret, get_campaign, utcnow, session_add, update_campaign.
  destruct (MailerOld.create_email_message E mailer s (campaign so) so)
    as [so1 [[]|e]]; [|reflexivity].
  unfold MailerOld.call. destruct (mailer _) as [response|e]; [|reflexivity].
  destruct (MailerOld.extract_message_id response); reflexivity.
Qed.

End OldMailerFacts.

(** * More on the engine: what a send touches, and its edges *)

Lemma count_status_app status rows1 rows2 :
  count_status status (rows1 ++ rows2)
  = count_status status rows1 + count_status status rows2.
Proof. unfold count_status. now rewrite filter_app, len_app. Qed.

Ltac no_rows :=
  exists []; cbn [db campaign session_new email_logs]; rewrite ?app_nil_r;
  split; [reflexivity|]; split; [apply Forall_nil|];
  unfold count_status, len; simpl; split; lia.

Lemma follows_refl {X} (st : St X) : follows st st.
Proof.
  split; [reflexivity|]. split; [reflexivity|]. split; [reflexivity|]. no_rows.
Qed.

Lemma follows_trans {X} (a b c : St X) : follows a b -> follows b c -> follows a c.
Proof.
  intros (Hid1 & Hs1 & Ho1 & rows1 & Hl1 & Hr1 & Hsent1 & Hfail1)
         (Hid2 & Hs2 & Ho2 & rows2 & Hl2 & Hr2 & Hsent2 & Hfail2).
  rewrite Hid1 in *.
  split; [congruence|]. split; [congruence|].
  split; [intros k Hk; rewrite Ho2, Ho1; auto|].
  exists (rows1 ++ rows2).
  split; [now rewrite Hl2, Hl1, app_assoc|].
  split; [now apply Forall_app|].
  rewrite !count_status_app. split; lia.
Qed.

Lemma keeps_ret {X A} (a : A) : @keeps X A (ret a).
Proof. intros st st' r [= <- _]. apply follows_refl. Qed.

Lemma keeps_raise {X A} e : @keeps X A (raise e).
Proof. intros st st' r [= <- _]. apply follows_refl. Qed.

Lemma keeps_lift {X A} (x : res A) : @keeps X A (lift x).
Proof. intros st st' r [= <- _]. apply follows_refl. Qed.

Lemma keeps_bind {X A B} (m : M (St X) A) (k : A -> M (St X) B) :
  keeps m -> (forall a, keeps (k a)) -> keeps (bind m k).
Proof.
  intros Hm Hk st st' r. unfold bind.
  destruct (m st) as [st1 [a|e]] eqn:Hrun.
  - intros H. eapply follows_trans; [eapply Hm, Hrun | eapply Hk, H].
  - intros [= <- _]. eapply Hm, Hrun.
Qed.

Lemma keeps_try_except {X A} (m : M (St X) A) (h : exn -> M (St X) A) :
  keeps m -> (forall e, keeps (h e)) -> keeps (try_except m h).
Proof.
  intros Hm Hh st st' r. unfold try_except.
  destruct (m st) as [st1 [a|e]] eqn:Hrun.
  - intros [= <- _]. eapply Hm, Hrun.
  - intros H. eapply follows_trans; [eapply Hm, Hrun | eapply Hh, H].
Qed.

Lemma keeps_update {X} (f : Campaign.t -> Campaign.t) :
  (forall c, Campaign.id (f c) = Campaign.id c) ->
  (forall c, Campaign.emails_sent (f c) = Campaign.emails_sent c) ->
  (forall c, Campaign.emails_failed (f c) = Campaign.emails_failed c) ->
  @keeps X unit (update_campaign f).
Proof.
  intros Hid Hs Hf st st' r [= <- _].
  split; [apply Hid|]. split; [reflexivity|]. split; [reflexivity|].
  cbn [db campaign session_new]. rewrite Hs, Hf. no_rows.
Qed.

Lemma keeps_utcnow {X} now : @keeps X Time (utcnow now).
Proof.
  intros st st' r [= <- _].
  split; [reflexivity|]. split; [reflexivity|]. split; [reflexivity|]. no_rows.
Qed.

Lemma keeps_commit {X} : @keeps X unit commit.
Proof.
  intros st st' r [= <- _].
  split; [reflexivity|]. split; [reflexivity|].
  split.
  - intros k Hk. unfold query_get; cbn [db campaigns].
    apply query_get_other. congruence.
  - no_rows.
Qed.

Lemma keeps_send_single_email E sg s : keeps (Mailer.send_single_email E sg s).
Proof.
  intros st st' r. rewrite send_single_email_run. intros [= <- _].
  split; [reflexivity|]. split; [reflexivity|]. split; [reflexivity|].
  exists (Mailer.log_rows E sg (campaign st) (clock st) [s]).
  rewrite session_new_after_attempts, db_after_attempts, campaign_after_attempts.
  pose proof (log_rows_row_for E sg (campaign st) (clock st) [s]) as Hrows.
  destruct (rows_by_status E sg _ _ _ Hrows) as (Hsent & Hfailed & _).
  unfold count_status. rewrite Hsent, Hfailed.
  split; [now rewrite app_assoc|]. split.
  - cbn [Mailer.log_rows]. constructor; [|constructor].
    destruct (log_row_ids E sg (campaign st) s (now E (clock st))) as [_ Hc].
    split; [exact Hc|]. unfold Mailer.log_row.
    destruct (Mailer.attempt E sg (campaign st) s); [now left | now right].
  - split; reflexivity.
Qed.

Lemma keeps_send_batch E sg batch : forall counts,
  keeps (Mailer.send_batch E sg batch counts).
Proof.
  induction batch as [|s rest IH]; intros counts; [apply keeps_ret|].
  cbn [Mailer.send_batch].
  apply keeps_bind; [apply keeps_send_single_email|]. intros result.
  apply keeps_bind; [apply keeps_lift|]. intros _. apply IH.
Qed.

Lemma keeps_send_batches E sg subs starts : forall counts,
  keeps (Mailer.send_batches E sg starts subs counts).
Proof.
  induction starts as [|i more IH]; intros counts; [apply keeps_ret|].
  cbn [Mailer.send_batches].
  apply keeps_bind; [apply keeps_send_batch|]. intros counts'.
  apply keeps_bind; [apply keeps_commit|]. intros _.
  rewrite pause_between_batches. apply IH.
Qed.

Lemma keeps_send_campaign_try E sg test : keeps (Mailer.send_campaign_try E sg test).
Proof.
  unfold Mailer.send_campaign_try.
  apply keeps_bind; [intros st st' r [= <- _]; apply follows_refl|]. intros subs.
  apply keeps_bind; [now apply keeps_update|]. intros _.
  apply keeps_bind; [apply keeps_commit|]. intros _.
  apply keeps_bind; [apply keeps_lift|]. intros starts.
  apply keeps_bind; [apply keeps_send_batches|]. intros counts.
  apply keeps_bind; [now apply keeps_update|]. intros _.
  apply keeps_bind; [apply keeps_commit|]. intros _.
  apply keeps_ret.
Qed.

Lemma keeps_send_campaign_started E sg test :
  keeps (Mailer.send_campaign_started E sg test).
Proof.
  unfold Mailer.send_campaign_started.
  apply keeps_bind; [now apply keeps_update|]. intros _.
  apply keeps_bind; [apply keeps_utcnow|]. intros t.
  apply keeps_bind; [now apply keeps_update|]. intros _.
  apply keeps_bind; [apply keeps_commit|]. intros _.
  apply keeps_try_except; [apply keeps_send_campaign_try|]. intros e.
  apply keeps_bind; [now apply keeps_update|]. intros _.
  apply keeps_bind; [apply keeps_commit|]. intros _.
  apply keeps_raise.
Qed.

(** However a send that loaded its campaign ends, the stored row is the
    loaded campaign and nothing is left uncommitted. *)
Lemma send_campaign_settled E sg campaign_id test d clk outbox st r :
  Mailer.send_campaign E sg campaign_id test d clk outbox = Ran st r ->
  exists c,
    query_get d campaign_id = Some c /\
    follows (mkSt d c [] clk outbox) st /\
    query_get (db st) campaign_id = Some (campaign st) /\
    session_new st = [] /\
    (not_sendable (Campaign.status c) = true -> st = mkSt d c [] clk outbox) /\
    (not_sendable (Campaign.status c) = false ->
     Campaign.status (campaign st) = "completed" \/
     Campaign.status (campaign st) = "completed_with_errors" \/
     Campaign.status (campaign st) = "failed").
Proof.
  unfold Mailer.send_campaign.
  destruct (query_get d campaign_id) as [c|] eqn:Hget; [|discriminate].
  pose proof (query_get_id _ _ _ Hget) as Hid.
  intros Hrun. exists c. split; [reflexivity|].
  destruct (not_sendable (Campaign.status c)) eqn:Hns.
  - injection Hrun as <- <-.
    split; [apply follows_refl|]. split; [exact Hget|]. split; [reflexivity|].
    split; [reflexivity | discriminate].
  - destruct (Mailer.send_campaign_started E sg test (mkSt d c [] clk outbox))
      as [st' r'] eqn:Hstarted.
    injection Hrun as <- <-.
    split; [eapply keeps_send_campaign_started, Hstarted|].
    revert Hstarted. unfold Mailer.send_campaign_started.
    unfold bind at 1, update_campaign at 1.
    unfold bind at 1, utcnow at 1.
    unfold bind at 1, update_campaign at 1.
    unfold bind at 1.
    change (commit ?x) with (committed x, @Ret unit tt). cbv iota beta.
    cbn [db campaign session_new clock client].
    match goal with |- context [committed ?x] => set (st0 := committed x) end.
    assert (Hid0 : Campaign.id (campaign st0) = campaign_id) by exact Hid.
    assert (Hrow0 : query_get (db st0) (Campaign.id (campaign st0)) <> None).
    { subst st0. rewrite campaign_committed, (committed_stored _ _ eq_refl); [discriminate|].
      cbn [db campaign]. simpl_id. rewrite Hid, Hget. discriminate. }
    unfold try_except.
    destruct (Mailer.send_campaign_try E sg test st0) as [st1 [x|e]] eqn:Htry;
      apply send_campaign_try_cases in Htry; try exact Hrow0;
      rewrite Hid0 in Htry; destruct Htry as (Hid1 & Hrow1 & Hret).
    + intros [= <- _]. destruct Hret as (Hnew & Hstored & Hfinal).
      split; [exact Hstored|]. split; [exact Hnew|].
      split; [discriminate|]. intros _. tauto.
    + unfold bind at 1, update_campaign at 1. unfold bind at 1.
      change (commit ?x) with (committed x, @Ret unit tt). cbv iota beta.
      unfold raise. intros [= <- _].
      split.
      { rewrite campaign_committed. apply committed_stored; [exact Hid1 | exact Hrow1]. }
      split; [reflexivity|]. split; [discriminate|]. intros _. right; right; reflexivity.
Qed.

Section EngineFrame.

Variable E : Env.
Variable sg : Mail.t -> res Response.t.

(** X1.  Whatever the settings and however it ends, a send that loaded its
    campaign leaves the subscribers table as it was and every other
    campaign's row as it was. *)
Theorem send_touches_one_campaign campaign_id test_mode d clk outbox st r :
  Mailer.send_campaign E sg campaign_id test_mode d clk outbox = Ran st r ->
  subscribers (db st) = subscribers d /\
  forall k, k <> campaign_id -> query_get (db st) k = query_get d k.
Proof.
  intros Hrun.
  destruct (send_campaign_settled _ _ _ _ _ _ _ _ _ Hrun)
    as (c & Hget & (_ & Hsubs & Hothers & _) & _).
  pose proof (query_get_id _ _ _ Hget) as Hid.
  cbn [db campaign] in *. rewrite Hid in Hothers. now split.
Qed.

(** X2.  Whatever the settings and however it ends (returned, raised, or
    refused), a send that loaded its campaign only appends to the log, rows
    of this campaign with status 'sent' or 'failed', all committed; and the
    stored counters stay in step with them: emails_sent has grown by the
    number of appended 'sent' rows and emails_failed by the number of
    appended 'failed' rows. *)
Theorem send_log_and_counters campaign_id test_mode d clk outbox st r :
  Mailer.send_campaign E sg campaign_id test_mode d clk outbox = Ran st r ->
  exists c rows,
    query_get d campaign_id = Some c /\
    query_get (db st) campaign_id = Some (campaign st) /\
    session_new st = [] /\
    email_logs (db st) = email_logs d ++ rows /\
    Forall (engine_row campaign_id) rows /\
    Campaign.emails_sent (campaign st)
      = Campaign.emails_sent c + count_status "sent" rows /\
    Campaign.emails_failed (campaign st)
      = Campaign.emails_failed c + count_status "failed" rows.
Proof.
  intros Hrun.
  destruct (send_campaign_settled _ _ _ _ _ _ _ _ _ Hrun)
    as (c & Hget & (_ & _ & _ & rows & Hlog & Hrows & Hs & Hf) & Hstored & Hnew & _).
  pose proof (query_get_id _ _ _ Hget) as Hid.
  cbn [db campaign session_new] in *. rewrite Hid in Hrows.
  rewrite Hnew, !app_nil_r in Hlog.
  exists c, rows. repeat split; assumption.
Qed.

End EngineFrame.

Section EngineEdges.

Variable E : Env.
Variable sg : Mail.t -> res Response.t.

(** [send_campaign] on a campaign it accepts, from the start of the batch
    loop on. *)
Lemma send_campaign_from_entry campaign_id test d clk outbox c :
  query_get d campaign_id = Some c ->
  not_sendable (Campaign.status c) = false ->
  let rs := Mailer.recipients test d in
  let entry := loop_entry E c d clk outbox in
  Mailer.send_campaign E sg campaign_id test d clk outbox =
  match py_range 0 (len rs) (Config.EMAIL_BATCH_SIZE (config E)) with
  | Raise e =>
      Ran (committed (fst (update_campaign (Campaign.set_status "failed") entry)))
          (Raise (Exception ("Campaign sending failed: " +:+ str e)))
  | Ret starts =>
      match Mailer.send_batches E sg starts rs (0, 0) entry with
      | (st2, Ret counts) =>
          Ran (committed
                 (fst (update_campaign
                         (Campaign.set_status
                            (if snd counts =? 0 then "completed"
                             else "completed_with_errors")) st2)))
              (Ret (mkResult (fst counts) (snd counts) (len rs)))
      | (st2, Raise e) =>
          Ran (committed (fst (update_campaign (Campaign.set_status "failed") st2)))
              (Raise (Exception ("Campaign sending failed: " +:+ str e)))
      end
  end.
Proof.
  intros Hget Hok rs entry.
  unfold Mailer.send_campaign. rewrite Hget, Hok.
  unfold Mailer.send_campaign_started.
  unfold bind at 1, update_campaign at 1.
  unfold bind at 1, utcnow at 1.
  unfold bind at 1, update_campaign at 1.
  unfold bind at 1.
  change (commit ?x) with (committed x, @Ret unit tt). cbv iota beta.
  cbn [db campaign session_new clock client].
  match goal with |- context [committed ?x] => set (st0 := committed x) end.
  unfold try_except, Mailer.send_campaign_try.
  unfold bind at 1. unfold bind at 1, update_campaign at 1. unfold bind at 1.
  change (commit ?x) with (committed x, @Ret unit tt). cbv iota beta.
  assert (Hentry : committed
            (mkSt (db st0)
                  (Campaign.set_total_recipients (len (active_subscribers (db st0)))
                                                 (campaign st0))
                  (session_new st0) (clock st0) (client st0)) = entry).
  { subst st0 entry. unfold loop_entry.
    apply St_ext; [apply Db_ext|..]; autorewrite with session;
      cbn [db campaign session_new clock client campaigns subscribers email_logs];
      autorewrite with session;
      cbn [db campaign session_new clock client campaigns subscribers email_logs].
    - rewrite update_row_again by (simpl_id; reflexivity). reflexivity.
    - reflexivity.
    - now rewrite !app_nil_r.
    - reflexivity.
    - reflexivity.
    - reflexivity.
    - reflexivity. }
  rewrite Hentry.
  change (if test then firstn 3 (active_subscribers (db st0))
          else active_subscribers (db st0)) with rs.
  unfold bind at 1, lift.
  destruct (py_range 0 (len rs) (Config.EMAIL_BATCH_SIZE (config E))) as [starts|e].
  - unfold bind at 1.
    destruct (Mailer.send_batches E sg starts rs (0, 0) entry) as [st2 [counts|e]].
    + unfold bind at 1, update_campaign at 1. unfold bind at 1.
      change (commit ?x) with (committed x, @Ret unit tt). cbv iota beta.
      reflexivity.
    + unfold bind at 1, update_campaign at 1. unfold bind at 1.
      change (commit ?x) with (committed x, @Ret unit tt). cbv iota beta.
      reflexivity.
  - unfold bind at 1, update_campaign at 1. unfold bind at 1.
    change (commit ?x) with (committed x, @Ret unit tt). cbv iota beta.
    reflexivity.
Qed.

Lemma py_range_none n step :
  0 <= n -> step <> 0 -> (step < 0 \/ n = 0) -> py_range 0 n step = Ret [].
Proof.
  intros Hn Hstep Hcase. unfold py_range.
  destruct (Z.eqb_spec step 0); [contradiction|].
  destruct (Z.ltb_spec 0 step).
  - destruct Hcase as [Hneg | ->]; [lia|]. reflexivity.
  - destruct (Z.ltb_spec n 0); [lia|]. reflexivity.
Qed.

(** A send for which the range of batch starts is empty. *)
Lemma send_no_batches campaign_id test d clk outbox c :
  query_get d campaign_id = Some c ->
  Campaign.status c = "draft" \/ Campaign.status c = "scheduled" ->
  py_range 0 (len (Mailer.recipients test d)) (Config.EMAIL_BATCH_SIZE (config E))
    = Ret [] ->
  exists st,
    Mailer.send_campaign E sg campaign_id test d clk outbox
      = Ran st (Ret (mkResult 0 0 (len (Mailer.recipients test d)))) /\
    query_get (db st) campaign_id = Some (campaign st) /\
    Campaign.status (campaign st) = "completed" /\
    Campaign.total_recipients (campaign st) = len (active_subscribers d) /\
    Campaign.emails_sent (campaign st) = Campaign.emails_sent c /\
    Campaign.emails_failed (campaign st) = Campaign.emails_failed c /\
    email_logs (db st) = email_logs d /\
    client st = outbox.
Proof.
  intros Hget Hstatus Hrange.
  rewrite (send_campaign_from_entry _ _ _ _ _ c Hget (sendable_status _ Hstatus)).
  cbv zeta. rewrite Hrange. cbn [Mailer.send_batches]. unfold ret. cbn [snd fst].
  eexists. split; [reflexivity|].
  split.
  { rewrite campaign_committed. apply committed_stored.
    - rewrite campaign_updated. simpl_id. unfold loop_entry. cbn [campaign].
      simpl_id. now apply (query_get_id d).
    - rewrite db_updated. unfold loop_entry, query_get. cbn [db campaigns].
      rewrite query_get_update_row by (simpl_id; now apply (query_get_id d)).
      unfold query_get in Hget. rewrite Hget. discriminate. }
  rewrite campaign_committed, campaign_updated, email_logs_committed, db_updated,
    session_new_updated, client_committed, client_updated.
  unfold loop_entry. cbn [db campaign session_new client email_logs].
  rewrite app_nil_r. repeat split; reflexivity.
Qed.

(** X3.  With a negative EMAIL_BATCH_SIZE the range of batch starts is
    empty: a send of a campaign in 'draft' or 'scheduled' attempts nobody,
    hands the provider nothing and writes no log row, yet returns normally
    with sent = failed = 0 and total = the number of recipients, and leaves
    the campaign 'completed' with total_recipients = N and its counters as
    they were. *)
Theorem send_negative_batch_size campaign_id test_mode d clk outbox c :
  Config.EMAIL_BATCH_SIZE (config E) < 0 ->
  query_get d campaign_id = Some c ->
  Campaign.status c = "draft" \/ Campaign.status c = "scheduled" ->
  exists st,
    Mailer.send_campaign E sg campaign_id test_mode d clk outbox
      = Ran st (Ret (mkResult 0 0 (len (Mailer.recipients test_mode d)))) /\
    query_get (db st) campaign_id = Some (campaign st) /\
    Campaign.status (campaign st) = "completed" /\
    Campaign.total_recipients (campaign st) = len (active_subscribers d) /\
    Campaign.emails_sent (campaign st) = Campaign.emails_sent c /\
    Campaign.emails_failed (campaign st) = Campaign.emails_failed c /\
    email_logs (db st) = email_logs d /\
    client st = outbox.
Proof.
  intros Hneg Hget Hstatus. apply send_no_batches; try assumption.
  apply py_range_none; [apply len_nonneg | lia | now left].
Qed.

(** X4.  With no active subscribers and a non-zero EMAIL_BATCH_SIZE, a send
    of a campaign in 'draft' or 'scheduled' completes at once, whatever the
    rate limit: the result is sent = failed = total = 0, the campaign is
    'completed' with total_recipients = 0, no log row is written and the
    provider is not called. *)
Theorem send_no_recipients campaign_id test_mode d clk outbox c :
  Config.EMAIL_BATCH_SIZE (config E) <> 0 ->
  active_subscribers d = [] ->
  query_get d campaign_id = Some c ->
  Campaign.status c = "draft" \/ Campaign.status c = "scheduled" ->
  exists st,
    Mailer.send_campaign E sg campaign_id test_mode d clk outbox
      = Ran st (Ret (mkResult 0 0 0)) /\
    query_get (db st) campaign_id = Some (campaign st) /\
    Campaign.status (campaign st) = "completed" /\
    Campaign.total_recipients (campaign st) = 0 /\
    email_logs (db st) = email_logs d /\
    client st = outbox.
Proof.
  intros Hbs Hnone Hget Hstatus.
  assert (Hrs : Mailer.recipients test_mode d = []).
  { unfold Mailer.recipients. rewrite Hnone. now destruct test_mode. }
  destruct (send_no_batches campaign_id test_mode d clk outbox c Hget Hstatus)
    as (st & Hrun & Hstored & Hst & Htotal & _ & _ & Hlog & Hclient).
  - rewrite Hrs. apply py_range_none; [reflexivity | exact Hbs | now right].
  - rewrite Hrs in Hrun. rewrite Hnone in Htotal.
    exists st. repeat split; assumption.
Qed.

(** The loaded campaign of the session at the start of the loop has its
    row. *)
Lemma loop_entry_row campaign_id d clk (outbox : list Mail.t) c :
  query_get d campaign_id = Some c ->
  Campaign.id (campaign (loop_entry E c d clk outbox)) = campaign_id /\
  query_get (db (loop_entry E c d clk outbox)) campaign_id <> None.
Proof.
  intros Hget. pose proof (query_get_id _ _ _ Hget) as Hid.
  unfold loop_entry. cbn [campaign db]. simpl_id. split; [exact Hid|].
  unfold query_get. cbn [campaigns].
  rewrite query_get_update_row by (simpl_id; exact Hid).
  unfold query_get in Hget. rewrite Hget. discriminate.
Qed.

(** A send whose batch range cannot be built. *)
Lemma send_range_fails campaign_id test d clk outbox c :
  Config.EMAIL_BATCH_SIZE (config E) = 0 ->
  query_get d campaign_id = Some c ->
  Campaign.status c = "draft" \/ Campaign.status c = "scheduled" ->
  exists st,
    Mailer.send_campaign E sg campaign_id test d clk outbox
      = Ran st (Raise (Exception
                         "Campaign sending failed: range() arg 3 must not be zero")) /\
    query_get (db st) campaign_id = Some (campaign st) /\
    Campaign.status (campaign st) = "failed" /\
    Campaign.total_recipients (campaign st) = len (active_subscribers d) /\
    Campaign.emails_sent (campaign st) = Campaign.emails_sent c /\
    Campaign.emails_failed (campaign st) = Campaign.emails_failed c /\
    email_logs (db st) = email_logs d /\
    client st = outbox.
Proof.
  intros Hbs Hget Hstatus.
  rewrite (send_campaign_from_entry _ _ _ _ _ c Hget (sendable_status _ Hstatus)).
  cbv zeta. rewrite Hbs. unfold py_range. cbn [Z.eqb].
  eexists. split; [reflexivity|].
  destruct (loop_entry_row campaign_id d clk outbox c Hget) as [Hid Hrow].
  split.
  { rewrite campaign_committed. apply committed_stored.
    - rewrite campaign_updated. simpl_id. exact Hid.
    - rewrite db_updated. exact Hrow. }
  rewrite campaign_committed, campaign_updated, email_logs_committed, db_updated,
    session_new_updated, client_committed, client_updated.
  unfold loop_entry. cbn [db campaign session_new client email_logs].
  rewrite app_nil_r. repeat split; reflexivity.
Qed.

(** X5.  With EMAIL_BATCH_SIZE = 0 the batch range cannot be built: a send
    of a campaign in 'draft' or 'scheduled' attempts nobody, stores the
    campaign as 'failed' (total_recipients already set to N, counters and
    log as they were), and raises
    "Campaign sending failed: range() arg 3 must not be zero". *)
Theorem send_zero_batch_size campaign_id test_mode d clk outbox c :
  Config.EMAIL_BATCH_SIZE (config E) = 0 ->
  query_get d campaign_id = Some c ->
  Campaign.status c = "draft" \/ Campaign.status c = "scheduled" ->
  exists st,
    Mailer.send_campaign E sg campaign_id test_mode d clk outbox
      = Ran st (Raise (Exception
                         "Campaign sending failed: range() arg 3 must not be zero")) /\
    query_get (db st) campaign_id = Some (campaign st) /\
    Campaign.status (campaign st) = "failed" /\
    Campaign.total_recipients (campaign st) = len (active_subscribers d) /\
    Campaign.emails_sent (campaign st) = Campaign.emails_sent c /\
    Campaign.emails_failed (campaign st) = Campaign.emails_failed c /\
    email_logs (db st) = email_logs d /\
    session_new st = [] /\
    client st = outbox.
Proof.
  intros Hbs Hget Hstatus.
  destruct (send_range_fails campaign_id test_mode d clk outbox c Hbs Hget Hstatus)
    as (st & Hrun & Hstored & Hst & Htotal & Hsent & Hfailed & Hlogs & Hclient).
  exists st. repeat split; try assumption.
  apply send_campaign_settled in Hrun. now destruct Hrun as (_ & _ & _ & _ & Hnew & _).
Qed.

End EngineEdges.

Section EngineEdges2.

Variable E : Env.
Variable sg : Mail.t -> res Response.t.

Lemma py_range_first n step :
  0 < n -> 0 < step ->
  exists more, py_range 0 n step = Ret (0 :: more).
Proof.
  intros Hn Hstep. unfold py_range.
  destruct (Z.eqb_spec step 0); [lia|].
  destruct (Z.ltb_spec 0 step); [|lia].
  destruct (Z.ltb_spec 0 n); [|lia].
  pose proof (Z.div_pos (n - 0 - 1) step ltac:(lia) ltac:(lia)) as Hq.
  destruct (Z.to_nat ((n - 0 - 1) / step + 1)) as [|m] eqn:Hm; [lia|].
  cbn [seq map]. eexists. reflexivity.
Qed.

(** A send that stops at the pause after its first attempt. *)
Lemma send_one_attempt campaign_id test d clk outbox c s rest :
  Config.EMAIL_RATE_LIMIT (config E) <= 0 ->
  0 < Config.EMAIL_BATCH_SIZE (config E) ->
  query_get d campaign_id = Some c ->
  Campaign.status c = "draft" \/ Campaign.status c = "scheduled" ->
  Mailer.recipients test d = s :: rest ->
  exists st text,
    Mailer.send_campaign E sg campaign_id test d clk outbox
      = Ran st (Raise (Exception
                         ("Campaign sending failed: " +:+
                          (if Config.EMAIL_RATE_LIMIT (config E) =? 0
                           then "division by zero"
                           else "sleep length must be non-negative")))) /\
    query_get (db st) campaign_id = Some (campaign st) /\
    Campaign.status (campaign st) = "failed" /\
    Campaign.total_recipients (campaign st) = len (active_subscribers d) /\
    Campaign.emails_sent (campaign st) = Campaign.emails_sent c /\
    Campaign.emails_failed (campaign st) = Campaign.emails_failed c + 1 /\
    email_logs (db st) =
      email_logs d ++
      [EmailLog.mk (Subscriber.id s) campaign_id PNone "failed" (Some text)
                   (Some (now E (S clk)))] /\
    text <> EmptyString /\
    session_new st = [] /\
    client st = outbox.
Proof.
  intros Hrate Hbs Hget Hstatus Hrs.
  rewrite (send_campaign_from_entry E sg _ _ _ _ _ c Hget (sendable_status _ Hstatus)).
  cbv zeta. rewrite Hrs.
  destruct (py_range_first (len (s :: rest)) (Config.EMAIL_BATCH_SIZE (config E)))
    as [more Hrange]; [unfold len; cbn [length]; lia | exact Hbs |].
  rewrite Hrange. cbn [Mailer.send_batches]. unfold bind at 1.
  assert (Hbatch : exists tail,
            py_slice (s :: rest) 0 (0 + Config.EMAIL_BATCH_SIZE (config E)) = s :: tail).
  { unfold py_slice. cbn [Z.to_nat skipn].
    destruct (Z.to_nat (0 + Config.EMAIL_BATCH_SIZE (config E) - 0)) as [|b] eqn:Hb;
      [lia|]. cbn [firstn]. eexists. reflexivity. }
  destruct Hbatch as [tail ->].
  cbn [Mailer.send_batch]. unfold bind at 1. rewrite send_single_email_run.
  unfold bind at 1, lift.
  assert (Hsleep : sleep_reciprocal (Config.EMAIL_RATE_LIMIT (config E)) =
                   Raise (if Config.EMAIL_RATE_LIMIT (config E) =? 0
                          then ZeroDivisionError "division by zero"
                          else ValueError "sleep length must be non-negative")).
  { unfold sleep_reciprocal.
    destruct (Z.eqb_spec (Config.EMAIL_RATE_LIMIT (config E)) 0); [reflexivity|].
    destruct (Z.ltb_spec (Config.EMAIL_RATE_LIMIT (config E)) 0); [reflexivity | lia]. }
  rewrite Hsleep.
  set (entry := loop_entry E c d clk outbox).
  destruct (loop_entry_row E campaign_id d clk outbox c Hget) as [Hid Hrow].
  fold entry in Hid, Hrow.
  destruct (log_row_failed E sg (campaign entry) s (now E (clock entry)))
    as (text & Hlog & Htext).
  eexists. exists text. split.
  { destruct (Config.EMAIL_RATE_LIMIT (config E) =? 0); reflexivity. }
  split.
  { rewrite campaign_committed. apply committed_stored.
    - rewrite campaign_updated, campaign_after_attempts. simpl_id. exact Hid.
    - rewrite db_updated, db_after_attempts. exact Hrow. }
  rewrite campaign_committed, campaign_updated, email_logs_committed, db_updated,
    session_new_updated, client_committed, client_updated, session_new_committed.
  rewrite campaign_after_attempts, db_after_attempts, session_new_after_attempts,
    client_after_attempts.
  rewrite count_delivered_none, count_failed_all, handed_over_none.
  cbn [Mailer.log_rows]. rewrite Hlog, Hid.
  subst entry. unfold loop_entry.
  cbn [db campaign session_new clock client email_logs].
  unfold len. cbn [length].
  cbn [Campaign.status Campaign.total_recipients Campaign.emails_sent
       Campaign.emails_failed Campaign.set_status Campaign.set_sent_at
       Campaign.set_total_recipients Campaign.set_emails_sent
       Campaign.set_emails_failed add_counts app].
  rewrite app_nil_r. repeat split; try reflexivity; try assumption. lia.
Qed.

(** X6.  With a positive batch size and EMAIL_RATE_LIMIT <= 0, a send with at
    least one recipient makes exactly one attempt: the pause after it raises
    (division by zero for 0, a negative sleep length below 0).  The first
    recipient's row, a 'failed' one as compose raises, is committed and
    counted in emails_failed; nothing reaches the provider; the campaign is
    stored as 'failed', and the caller gets "Campaign sending failed: ..."
    with the text of the pause's error. *)
Theorem send_bad_rate_limit campaign_id test_mode d clk outbox c s rest :
  Config.EMAIL_RATE_LIMIT (config E) <= 0 ->
  0 < Config.EMAIL_BATCH_SIZE (config E) ->
  query_get d campaign_id = Some c ->
  Campaign.status c = "draft" \/ Campaign.status c = "scheduled" ->
  Mailer.recipients test_mode d = s :: rest ->
  exists st text,
    Mailer.send_campaign E sg campaign_id test_mode d clk outbox
      = Ran st (Raise (Exception
                         ("Campaign sending failed: " +:+
                          (if Config.EMAIL_RATE_LIMIT (config E) =? 0
                           then "division by zero"
                           else "sleep length must be non-negative")))) /\
    query_get (db st) campaign_id = Some (campaign st) /\
    Campaign.status (campaign st) = "failed" /\
    Campaign.total_recipients (campaign st) = len (active_subscribers d) /\
    Campaign.emails_sent (campaign st) = Campaign.emails_sent c /\
    Campaign.emails_failed (campaign st) = Campaign.emails_failed c + 1 /\
    email_logs (db st) =
      email_logs d ++
      [EmailLog.mk (Subscriber.id s) campaign_id PNone "failed" (Some text)
                   (Some (now E (S clk)))] /\
    text <> EmptyString /\
    session_new st = [] /\
    client st = outbox /\
    subscribers (db st) = subscribers d.
Proof.
  intros Hrate Hbs Hget Hstatus Hrs.
  destruct (send_one_attempt campaign_id test_mode d clk outbox c s rest
              Hrate Hbs Hget Hstatus Hrs)
    as (st & text & Hrun & Hrest).
  exists st, text. split; [exact Hrun|].
  repeat (split; [apply Hrest|]).
  apply send_campaign_settled in Hrun.
  destruct Hrun as (c' & _ & (_ & Hsubs & _) & _). exact Hsubs.
Qed.

(** X7.  In test mode with at most three active subscribers the recipients
    are all of them, so the send is the very send made outside test mode:
    same final session, same result or error, whatever the settings. *)
Theorem test_mode_small_list campaign_id d clk outbox :
  (length (active_subscribers d) <= 3)%nat ->
  Mailer.send_campaign E sg campaign_id true d clk outbox =
  Mailer.send_campaign E sg campaign_id false d clk outbox.
Proof.
  intros Hsmall. unfold Mailer.send_campaign.
  destruct (query_get d campaign_id) as [c|]; [|reflexivity].
  destruct (not_sendable (Campaign.status c)); [reflexivity|].
  assert (Htry : forall st : Mailer.State,
            subscribers (db st) = subscribers d ->
            Mailer.send_campaign_try E sg true st = Mailer.send_campaign_try E sg false st).
  { intros st Hsubs. unfold Mailer.send_campaign_try.
    assert (Hactive : active_subscribers (db st) = active_subscribers d)
      by (unfold active_subscribers; now rewrite Hsubs).
    unfold bind at 1. cbv iota beta. symmetry. unfold bind at 1. cbv iota beta.
    rewrite Hactive, (firstn_all2 (n := 3) (active_subscribers d)) by exact Hsmall.
    reflexivity. }
  assert (Hstarted : forall st : Mailer.State,
            subscribers (db st) = subscribers d ->
            Mailer.send_campaign_started E sg true st
            = Mailer.send_campaign_started E sg false st).
  { intros st Hsubs. unfold Mailer.send_campaign_started.
    unfold bind at 1, update_campaign at 1.
    unfold bind at 1, utcnow at 1.
    unfold bind at 1, update_campaign at 1.
    unfold bind at 1.
    change (commit ?x) with (committed x, @Ret unit tt). cbv iota beta.
    unfold try_except at 1. rewrite Htry by exact Hsubs.
    symmetry.
    unfold bind at 1, update_campaign at 1.
    unfold bind at 1, utcnow at 1.
    unfold bind at 1, update_campaign at 1.
    unfold bind at 1.
    change (commit ?x) with (committed x, @Ret unit tt). cbv iota beta.
    unfold try_except at 1. reflexivity. }
  now rewrite Hstarted.
Qed.

End EngineEdges2.

(** * The engine as it is: no attempt succeeds

    [create_email_message] never returns a message, so every attempt of a
    send ends in the handler of [send_single_email]: a 'failed' row, one more
    in emails_failed, and nothing for the provider. *)

Lemma failed_rows_counts k rows :
  Forall (failed_row k) rows ->
  filter (fun row => EmailLog.campaign_id row =? k) rows = rows /\
  count_status "failed" rows = len rows /\
  count_status "sent" rows = 0 /\
  Forall (engine_row k) rows.
Proof.
  unfold count_status.
  induction 1 as [|row rows (Hk & Hs & _ & _) _ (IH1 & IH2 & IH3 & IH4)];
    [repeat split; constructor|].
  cbn [filter]. rewrite Hk, Hs, Z.eqb_refl, IH1.
  change (String.eqb "failed" "failed") with true.
  change (String.eqb "failed" "sent") with false. cbv iota.
  repeat split.
  - unfold len in *. cbn [length]. rewrite Nat2Z.inj_succ. lia.
  - exact IH3.
  - constructor; [|exact IH4]. split; [exact Hk | now right].
Qed.

Lemma len_recipients test d : len (Mailer.recipients test d) <= len (active_subscribers d).
Proof.
  unfold Mailer.recipients. destruct test; [|lia].
  rewrite length_firstn_3. lia.
Qed.

Section NothingDelivered.

Variable E : Env.
Variable sg : Mail.t -> res Response.t.

(** A send with positive settings, in full. *)
Lemma send_campaign_fails_all campaign_id test d clk outbox c :
  0 < Config.EMAIL_RATE_LIMIT (config E) ->
  0 < Config.EMAIL_BATCH_SIZE (config E) ->
  query_get d campaign_id = Some c ->
  not_sendable (Campaign.status c) = false ->
  let rs := Mailer.recipients test d in
  exists st rows,
    Mailer.send_campaign E sg campaign_id test d clk outbox
      = Ran st (Ret (mkResult 0 (len rs) (len rs))) /\
    query_get (db st) campaign_id = Some (campaign st) /\
    Campaign.status (campaign st) =
      (if len rs =? 0 then "completed" else "completed_with_errors") /\
    Campaign.total_recipients (campaign st) = len (active_subscribers d) /\
    Campaign.emails_sent (campaign st) = Campaign.emails_sent c /\
    Campaign.emails_failed (campaign st) = Campaign.emails_failed c + len rs /\
    email_logs (db st) = email_logs d ++ rows /\
    Forall (failed_row campaign_id) rows /\
    map EmailLog.subscriber_id rows = map Subscriber.id rs /\
    session_new st = [] /\
    client st = outbox.
Proof.
  intros Hrate Hbatch Hget Hns rs.
  pose proof (send_campaign_run E sg Hrate Hbatch campaign_id test d clk outbox c
                Hget Hns) as Hrun.
  cbv zeta in Hrun. fold rs in Hrun.
  rewrite count_delivered_none, count_failed_all in Hrun.
  exists (Mailer.finished E sg test c d clk outbox).
  exists (Mailer.log_rows E sg c (S clk) rs).
  split; [exact Hrun|].
  split; [now apply finished_stored|].
  destruct (log_rows_failed E sg c (S clk) rs) as [Hrows Hids].
  rewrite (query_get_id _ _ _ Hget) in Hrows.
  unfold Mailer.finished, Mailer.campaign_finished.
  cbn [campaign db session_new client email_logs]. fold rs.
  rewrite !count_delivered_none, !count_failed_all, handed_over_none, app_nil_r.
  rewrite (log_rows_ext E sg _ c) by reflexivity.
  cbn [Campaign.status Campaign.total_recipients Campaign.emails_sent
       Campaign.emails_failed Campaign.set_status Campaign.set_sent_at
       Campaign.set_total_recipients Campaign.set_emails_sent
       Campaign.set_emails_failed add_counts Mailer.campaign_started].
  repeat split; try reflexivity; try assumption. lia.
Qed.

(** C1 (what the code does where the claim promises delivery).  A send
    outside test mode of a campaign in 'draft' or 'scheduled', with a
    positive batch size and rate limit and N active subscribers, delivers to
    none of them, whatever the templates and the provider: the result is
    sent = 0, failed = N; emails_sent stays as it was and emails_failed
    grows by N; the stored status is 'completed_with_errors' as soon as
    N >= 1; the provider is never called. *)
Theorem send_delivers_to_nobody campaign_id d clk outbox c :
  0 < Config.EMAIL_RATE_LIMIT (config E) ->
  0 < Config.EMAIL_BATCH_SIZE (config E) ->
  query_get d campaign_id = Some c ->
  Campaign.status c = "draft" \/ Campaign.status c = "scheduled" ->
  let N := len (active_subscribers d) in
  exists st,
    Mailer.send_campaign E sg campaign_id false d clk outbox
      = Ran st (Ret (mkResult 0 N N)) /\
    query_get (db st) campaign_id = Some (campaign st) /\
    Campaign.emails_sent (campaign st) = Campaign.emails_sent c /\
    Campaign.emails_failed (campaign st) = Campaign.emails_failed c + N /\
    Campaign.total_recipients (campaign st) = N /\
    Campaign.status (campaign st) =
      (if N =? 0 then "completed" else "completed_with_errors") /\
    client st = outbox.
Proof.
  intros Hrate Hbatch Hget Hstatus N.
  destruct (send_campaign_fails_all campaign_id false d clk outbox c Hrate Hbatch Hget
              (sendable_status _ Hstatus))
    as (st & rows & Hrun & Hstored & Hst & Htotal & Hsent & Hfailed & _ & _ & _ & _ & Hc).
  exists st. repeat split; assumption.
Qed.


(** C3 (as the code has it).  A send in test mode of a campaign in 'draft'
    or 'scheduled', with a positive batch size and rate limit and N active
    subscribers, attempts exactly the first min(3, N) of them in the store's
    order, one log row each, and is otherwise a send like any other:
    total_recipients becomes N, emails_sent + emails_failed grows by
    min(3, N), and the stored status ends 'completed' or
    'completed_with_errors'. *)
Theorem send_test_mode campaign_id d clk outbox c :
  0 < Config.EMAIL_RATE_LIMIT (config E) ->
  0 < Config.EMAIL_BATCH_SIZE (config E) ->
  query_get d campaign_id = Some c ->
  Campaign.status c = "draft" \/ Campaign.status c = "scheduled" ->
  let N := len (active_subscribers d) in
  let first3 := firstn 3 (active_subscribers d) in
  exists st r rows,
    Mailer.send_campaign E sg campaign_id true d clk outbox = Ran st (Ret r) /\
    query_get (db st) campaign_id = Some (campaign st) /\
    total r = Z.min 3 N /\
    sent r + failed r = Z.min 3 N /\
    email_logs (db st) = email_logs d ++ rows /\
    map EmailLog.subscriber_id rows = map Subscriber.id first3 /\
    Forall (engine_row campaign_id) rows /\
    Campaign.total_recipients (campaign st) = N /\
    attempted (campaign st) = attempted c + Z.min 3 N /\
    (Campaign.status (campaign st) = "completed" \/
     Campaign.status (campaign st) = "completed_with_errors").
Proof.
  intros Hrate Hbatch Hget Hstatus N first3.
  destruct (send_campaign_fails_all campaign_id true d clk outbox c Hrate Hbatch Hget
              (sendable_status _ Hstatus))
    as (st & rows & Hrun & Hstored & Hst & Htotal & Hsent & Hfailed & Hlogs & Hrows
        & Hids & _).
  change (Mailer.recipients true d) with first3 in Hrun, Hst, Hfailed, Hids.
  assert (Hlen : len first3 = Z.min 3 N) by apply length_firstn_3.
  rewrite Hlen in Hrun, Hst, Hfailed.
  destruct (failed_rows_counts campaign_id rows Hrows) as (_ & _ & _ & Hengine).
  exists st. eexists. exists rows. split; [exact Hrun|]. cbn [sent failed total].
  repeat split; try assumption; try lia.
  - unfold attempted. lia.
  - destruct (Z.min 3 N =? 0); [now left | now right].
Qed.

(** C4 (what the code does where the claim promises one message).  A test
    email for an existing campaign hands the provider nothing: compose
    raises, and the result is a failure carrying the error's text.  The
    tables are left as they were, so the stored campaign is unchanged and
    the temporary subscriber is never stored; on the loaded campaign,
    status, total_recipients and emails_sent are as before, emails_failed
    is one higher, and a 'failed' row without a subscriber id waits in the
    session, none of it committed. *)
Theorem send_test_email_effect campaign_id test_email token d clk outbox c :
  ascii_text test_email = true ->
  query_get d campaign_id = Some c ->
  exists st text,
    Mailer.send_test_email E sg campaign_id test_email token d clk outbox
      = Ran st (Ret (NotSent text)) /\
    text <> EmptyString /\
    db st = d /\
    client st = outbox /\
    Campaign.status (campaign st) = Campaign.status c /\
    Campaign.total_recipients (campaign st) = Campaign.total_recipients c /\
    Campaign.emails_sent (campaign st) = Campaign.emails_sent c /\
    Campaign.emails_failed (campaign st) = Campaign.emails_failed c + 1 /\
    session_new st =
      [EmailLog.mk None campaign_id PNone "failed" (Some text) (Some (now E clk))].
Proof.
  intros _ Hget.
  rewrite (send_test_email_run E sg campaign_id test_email token d clk outbox c Hget).
  cbv zeta.
  set (s := new_subscriber token test_email (Some "Test User")
                           (Some "This is a test message.")).
  destruct (attempt_fails E sg c s) as (e & Hatt & Htext).
  rewrite Hatt. exists (Mailer.after_attempts E sg [s] (mkSt d c [] clk outbox)), (str e).
  split; [reflexivity|]. split; [exact Htext|].
  rewrite db_after_attempts, client_after_attempts, campaign_after_attempts,
    session_new_after_attempts.
  rewrite count_delivered_none, count_failed_all, handed_over_none.
  cbn [db campaign session_new clock client Mailer.log_rows app].
  unfold Mailer.log_row. rewrite Hatt.
  rewrite (query_get_id _ _ _ Hget).
  unfold len. cbn [length].
  cbn [Campaign.status Campaign.total_recipients Campaign.emails_sent
       Campaign.emails_failed Campaign.set_emails_sent Campaign.set_emails_failed
       add_counts new_subscriber Subscriber.id s].
  rewrite app_nil_r. repeat split; try reflexivity; lia.
Qed.

(** Attempts on a batch raise emails_sent + emails_failed by at most the
    length of the batch and leave total_recipients alone, whatever the
    settings. *)
Lemma send_batch_attempted batch : forall counts st st' r,
  Mailer.send_batch E sg batch counts st = (st', r) ->
  attempted (campaign st') <= attempted (campaign st) + len batch /\
  Campaign.total_recipients (campaign st') = Campaign.total_recipients (campaign st).
Proof.
  induction batch as [|s rest IH]; intros counts st st' r.
  - intros [= <- _]. unfold len. cbn [length]. split; [lia | reflexivity].
  - cbn [Mailer.send_batch]. unfold bind at 1. rewrite send_single_email_run.
    destruct (attempted_after_attempts E sg [s] st) as (Ha & Ht & _).
    unfold len in Ha. cbn [length] in Ha.
    unfold bind at 1, lift.
    destruct (sleep_reciprocal _) as [[]|e].
    + intros H. apply IH in H. destruct H as [H1 H2].
      unfold len in *. cbn [length]. rewrite Nat2Z.inj_succ. split; [lia | congruence].
    + intros [= <- _]. unfold len. cbn [length]. rewrite Nat2Z.inj_succ.
      pose proof (Zle_0_nat (length rest)). split; [lia | exact Ht].
Qed.

(** However a send of a campaign with zero counters ends, the loaded
    campaign, which is the stored one, is within its total. *)
Lemma send_within_total campaign_id test d clk outbox c st r :
  query_get d campaign_id = Some c ->
  Campaign.status c = "draft" \/ Campaign.status c = "scheduled" ->
  Campaign.emails_sent c = 0 ->
  Campaign.emails_failed c = 0 ->
  Mailer.send_campaign E sg campaign_id test d clk outbox = Ran st r ->
  within_total (campaign st) /\ query_get (db st) campaign_id = Some (campaign st).
Proof.
  intros Hget Hstatus Hs0 Hf0 Hrun.
  pose proof (len_recipients test d) as Hle.
  pose proof (len_nonneg (active_subscribers d)) as HN.
  unfold within_total, attempted.
  destruct (Z.lt_trichotomy (Config.EMAIL_BATCH_SIZE (config E)) 0) as [Hbs|[Hbs|Hbs]].
  - destruct (send_no_batches E sg campaign_id test d clk outbox c Hget Hstatus)
      as (st0 & Hrun0 & Hstored & _ & Htotal & Hsent & Hfailed & _).
    { apply py_range_none; [apply len_nonneg | lia | now left]. }
    rewrite Hrun0 in Hrun. injection Hrun as <- _. split; [lia | exact Hstored].
  - destruct (send_range_fails E sg campaign_id test d clk outbox c Hbs Hget Hstatus)
      as (st0 & Hrun0 & Hstored & _ & Htotal & Hsent & Hfailed & _).
    rewrite Hrun0 in Hrun. injection Hrun as <- _. split; [lia | exact Hstored].
  - destruct (Mailer.recipients test d) as [|s rest] eqn:Hrs.
    + destruct (send_no_batches E sg campaign_id test d clk outbox c Hget Hstatus)
        as (st0 & Hrun0 & Hstored & _ & Htotal & Hsent & Hfailed & _).
      { rewrite Hrs. apply py_range_none; [reflexivity | lia | now right]. }
      rewrite Hrun0 in Hrun. injection Hrun as <- _. split; [lia | exact Hstored].
    + assert (Hone : 1 <= len (s :: rest))
        by (unfold len; cbn [length]; rewrite Nat2Z.inj_succ; lia).
      destruct (Z.lt_ge_cases 0 (Config.EMAIL_RATE_LIMIT (config E))) as [Hrate|Hrate].
      * destruct (send_campaign_fails_all campaign_id test d clk outbox c Hrate
                    ltac:(lia) Hget (sendable_status _ Hstatus))
          as (st0 & rows & Hrun0 & Hstored & _ & Htotal & Hsent & Hfailed & _).
        rewrite Hrs in Hrun0, Hfailed.
        rewrite Hrun0 in Hrun. injection Hrun as <- _. split; [lia | exact Hstored].
      * destruct (send_one_attempt E sg campaign_id test d clk outbox c s rest
                    Hrate ltac:(lia) Hget Hstatus Hrs)
          as (st0 & text & Hrun0 & Hstored & _ & Htotal & Hsent & Hfailed & _).
        rewrite Hrun0 in Hrun. injection Hrun as <- _. split; [lia | exact Hstored].
Qed.

(** C5.  For a campaign in 'draft' or 'scheduled' whose counters are 0, as
    they are for every campaign a send accepts, and whatever the settings:
    after each attempt of the batch loop, and when the send ends (returned
    or raised), emails_sent + emails_failed <= total_recipients holds of the
    loaded campaign, which at the end is the stored one.  A test email
    commits nothing: the tables, and with them the stored campaign and its
    counters, are as before, whatever the campaign's state. *)
Theorem counters_and_total campaign_id d clk outbox c :
  query_get d campaign_id = Some c ->
  Campaign.status c = "draft" \/ Campaign.status c = "scheduled" ->
  Campaign.emails_sent c = 0 ->
  Campaign.emails_failed c = 0 ->
  (forall test_mode pre post counts st r,
     Mailer.recipients test_mode d = pre ++ post ->
     Mailer.send_batch E sg pre counts (loop_entry E c d clk outbox) = (st, r) ->
     within_total (campaign st)) /\
  (forall test_mode st r,
     Mailer.send_campaign E sg campaign_id test_mode d clk outbox = Ran st r ->
     within_total (campaign st) /\
     query_get (db st) campaign_id = Some (campaign st)) /\
  (forall k d' c' test_email token clk' outbox' st r,
     ascii_text test_email = true ->
     query_get d' k = Some c' ->
     Mailer.send_test_email E sg k test_email token d' clk' outbox' = Ran st r ->
     db st = d' /\ query_get (db st) k = Some c').
Proof.
  intros Hget Hstatus Hs0 Hf0. split; [|split].
  - intros test pre post counts st r Hsplit Hbatch.
    apply send_batch_attempted in Hbatch. destruct Hbatch as [Ha Ht].
    pose proof (len_recipients test d) as Hle.
    rewrite Hsplit, len_app in Hle. pose proof (len_nonneg post).
    unfold within_total. rewrite Ht. revert Ha.
    unfold loop_entry, attempted. cbn [campaign].
    cbn [Campaign.total_recipients Campaign.emails_sent Campaign.emails_failed
         Campaign.set_total_recipients Campaign.set_sent_at Campaign.set_status].
    lia.
  - intros test st r Hrun.
    exact (send_within_total campaign_id test d clk outbox c st r
             Hget Hstatus Hs0 Hf0 Hrun).
  - intros k d' c' test_email token clk' outbox' st r _ Hget' Hrun.
    rewrite (send_test_email_run E sg k test_email token d' clk' outbox' c' Hget') in Hrun.
    cbv zeta in Hrun. injection Hrun as <- _.
    rewrite db_after_attempts. cbn [db]. now split.
Qed.



(** X29.  If every campaign a send would accept ('draft' or 'scheduled')
    has both counters at 0 and no log row, then so it is after a send,
    however the send ends: the campaign it ran on is no longer accepted,
    and it wrote nothing of the others. *)
Theorem send_keeps_drafts_untouched campaign_id test d clk outbox st r :
  drafts_untouched d ->
  Mailer.send_campaign E sg campaign_id test d clk outbox = Ran st r ->
  drafts_untouched (db st).
Proof.
  intros Hd Hrun k c' Hget' Hns'.
  destruct (send_campaign_settled _ _ _ _ _ _ _ _ _ Hrun)
    as (c & Hget & (_ & _ & Hothers & rows & Hlogs & Hrows & _) & Hstored & Hnew
        & Hsame & Hstatus).
  pose proof (query_get_id _ _ _ Hget) as Hid.
  cbn [db campaign session_new] in Hothers, Hlogs, Hrows.
  rewrite Hnew, !app_nil_r in Hlogs. rewrite Hid in Hothers, Hrows.
  destruct (Z.eq_dec k campaign_id) as [->|Hk].
  - rewrite Hstored in Hget'. injection Hget' as <-.
    destruct (not_sendable (Campaign.status c)) eqn:Hns.
    + rewrite (Hsame eq_refl) in Hns'. cbn [campaign] in Hns'. congruence.
    + destruct (Hstatus eq_refl) as [H|[H|H]]; rewrite H in Hns'; discriminate.
  - rewrite (Hothers k Hk) in Hget'.
    destruct (Hd k c' Hget' Hns') as (Hs & Hf & Hl).
    repeat split; try assumption.
    pose proof (query_get_id _ _ _ Hget') as Hid'.
    unfold logs_of in *. rewrite Hlogs, filter_app, Hl. rewrite Hid'.
    clear - Hrows Hk. induction Hrows as [|row rows [Hc _] _ IH]; [reflexivity|].
    cbn [filter app]. rewrite Hc.
    destruct (Z.eqb_spec campaign_id k); [congruence | exact IH].
Qed.

End NothingDelivered.

(** * A store that can fail *)

Section FaultyFacts.

Variable E : Env.
Variable sg : Mail.t -> res Response.t.
Variable store : nat -> option exn.
Variable rollback_needed : exn -> exn.

Lemma agrees_ret A (a : A) : Faulty.agrees (ret a) (ret a).
Proof. intros s Hs. now repeat split. Qed.

Lemma agrees_raise A e : @Faulty.agrees A (raise e) (raise e).
Proof. intros s Hs. now repeat split. Qed.

Lemma agrees_lift A (r : res A) : Faulty.agrees (lift r) (lift r).
Proof. intros s Hs. now repeat split. Qed.

Lemma agrees_on_session A (m : M Mailer.State A) : Faulty.agrees (Faulty.on_session m) m.
Proof.
  intros s Hs. unfold Faulty.on_session. destruct (m (Faulty.session s)) as [st r].
  now repeat split.
Qed.

Lemma agrees_bind A B (m' : M Faulty.State A) m (k' : A -> M Faulty.State B) k :
  Faulty.agrees m' m -> (forall a, Faulty.agrees (k' a) (k a)) ->
  Faulty.agrees (bind m' k') (bind m k).
Proof.
  intros Hm Hk s Hs. destruct (Hm s Hs) as (H1 & H2 & H3). unfold bind.
  destruct (m' s) as [s1 r1], (m (Faulty.session s)) as [st1 r1'].
  cbn [fst snd] in *. subst st1 r1'.
  destruct r1 as [a|e]; [exact (Hk a s1 H3) | now repeat split].
Qed.

Lemma agrees_try_except A (m' : M Faulty.State A) m h' h :
  Faulty.agrees m' m -> (forall e, Faulty.agrees (h' e) (h e)) ->
  Faulty.agrees (try_except m' h') (try_except m h).
Proof.
  intros Hm Hh s Hs. destruct (Hm s Hs) as (H1 & H2 & H3). unfold try_except.
  destruct (m' s) as [s1 r1], (m (Faulty.session s)) as [st1 r1'].
  cbn [fst snd] in *. subst st1 r1'.
  destruct r1 as [a|e]; [now repeat split | exact (Hh e s1 H3)].
Qed.

Section StoreUp.

Hypothesis store_up : forall k, store k = None.

Lemma agrees_commit : Faulty.agrees (Faulty.commit store rollback_needed) commit.
Proof.
  intros s Hs. unfold Faulty.commit. rewrite Hs, store_up. now repeat split.
Qed.

Lemma agrees_send_batches starts subscribers : forall counts,
  Faulty.agrees (Faulty.send_batches E sg store rollback_needed starts subscribers counts)
                (Mailer.send_batches E sg starts subscribers counts).
Proof.
  induction starts as [|i more IH]; intros counts; [apply agrees_ret|].
  cbn [Faulty.send_batches Mailer.send_batches].
  apply agrees_bind; [apply agrees_on_session|]. intros counts'.
  apply agrees_bind; [apply agrees_commit|]. intros _.
  apply agrees_bind; [|intros _; apply IH].
  destruct (_ <? _); [apply agrees_lift | apply agrees_ret].
Qed.

Lemma agrees_send_campaign_try test :
  Faulty.agrees (Faulty.send_campaign_try E sg store rollback_needed test)
                (Mailer.send_campaign_try E sg test).
Proof.
  unfold Faulty.send_campaign_try, Mailer.send_campaign_try.
  apply agrees_bind; [intros s Hs; now repeat split|]. intros subscribers.
  apply agrees_bind; [apply agrees_on_session|]. intros _.
  apply agrees_bind; [apply agrees_commit|]. intros _.
  apply agrees_bind; [apply agrees_lift|]. intros starts.
  apply agrees_bind; [apply agrees_send_batches|]. intros counts.
  apply agrees_bind; [apply agrees_on_session|]. intros _.
  apply agrees_bind; [apply agrees_commit|]. intros _.
  apply agrees_ret.
Qed.

Lemma agrees_send_campaign_started test :
  Faulty.agrees (Faulty.send_campaign_started E sg store rollback_needed test)
                (Mailer.send_campaign_started E sg test).
Proof.
  unfold Faulty.send_campaign_started, Mailer.send_campaign_started.
  apply agrees_bind; [apply agrees_on_session|]. intros _.
  apply agrees_bind; [apply agrees_on_session|]. intros t.
  apply agrees_bind; [apply agrees_on_session|]. intros _.
  apply agrees_bind; [apply agrees_commit|]. intros _.
  apply agrees_try_except; [apply agrees_send_campaign_try|]. intros e.
  apply agrees_bind; [apply agrees_on_session|]. intros _.
  apply agrees_bind; [apply agrees_commit|]. intros _.
  apply agrees_raise.
Qed.

(** On a store that takes every commit the run is the run of
    [Mailer.send_campaign]. *)
Lemma faulty_store_up campaign_id test d clk outbox :
  match Faulty.send_campaign E sg store rollback_needed campaign_id test d clk outbox,
        Mailer.send_campaign E sg campaign_id test d clk outbox with
  | Faulty.Unloaded e', NotLoaded e => e' = e
  | Faulty.Ended s r', Ran st r =>
      Faulty.session s = st /\ r' = r /\ Faulty.failed_flush s = None
  | _, _ => False
  end.
Proof.
  unfold Faulty.send_campaign, Mailer.send_campaign.
  destruct (query_get d campaign_id) as [c|]; [|reflexivity].
  destruct (not_sendable (Campaign.status c)); [now repeat split|].
  pose proof (agrees_send_campaign_started test
                (Faulty.mkState (mkSt d c [] clk outbox) 0 None) eq_refl) as H.
  cbn [Faulty.session] in H.
  destruct (Faulty.send_campaign_started _ _ _ _ _ _) as [s r'].
  destruct (Mailer.send_campaign_started _ _ _ _) as [st r].
  exact H.
Qed.

End StoreUp.

(** C7 (what the code does when the store fails).  Let the first commit of
    a send, the one that stores 'sending', succeed and the next one, the
    first inside the [try], fail with [e].  The handler sets the loaded
    campaign to 'failed', but its own commit raises on the session the
    failed commit left behind: what reaches the caller is that error, not
    the wrapped 'Campaign sending failed: ...', and the stored campaign is
    still 'sending'. *)
Theorem send_left_sending campaign_id test d clk outbox c e :
  query_get d campaign_id = Some c ->
  Campaign.status c = "draft" \/ Campaign.status c = "scheduled" ->
  store 0%nat = None ->
  store 1%nat = Some e ->
  exists s stored,
    Faulty.send_campaign E sg store rollback_needed campaign_id test d clk outbox
      = Faulty.Ended s (Raise (rollback_needed e)) /\
    query_get (db (Faulty.session s)) campaign_id = Some stored /\
    Campaign.status stored = "sending" /\
    Campaign.status (campaign (Faulty.session s)) = "failed" /\
    email_logs (db (Faulty.session s)) = email_logs d /\
    client (Faulty.session s) = outbox.
Proof.
  intros Hget Hstatus H0 H1.
  unfold Faulty.send_campaign. rewrite Hget, (sendable_status _ Hstatus).
  unfold Faulty.send_campaign_started, Faulty.send_campaign_try.
  unfold bind, try_except, Faulty.on_session, Faulty.commit, update_campaign, utcnow, raise.
  cbn [Faulty.session Faulty.commits Faulty.failed_flush db campaign session_new clock client].
  rewrite H0.
  cbn [Faulty.session Faulty.commits Faulty.failed_flush db campaign session_new clock client].
  rewrite H1.
  cbn [Faulty.session Faulty.commits Faulty.failed_flush db campaign session_new clock client].
  eexists. eexists. split; [reflexivity|].
  cbn [Faulty.session db campaign client].
  split; [|split; [|split; [reflexivity|split; [|reflexivity]]]].
  - apply committed_stored.
    + cbn [campaign Campaign.id Campaign.set_sent_at Campaign.set_status].
      exact (query_get_id _ _ _ Hget).
    + cbn [db]. rewrite Hget. discriminate.
  - reflexivity.
  - unfold committed, commit. cbn [fst db email_logs session_new]. apply app_nil_r.
Qed.

End FaultyFacts.

(** X8.  The batch size and the rate limit, as long as both are positive, do
    not show in what a send does: two sends that differ only in these two
    settings end with the same session (tables, campaign, messages handed to
    the provider) and the same result or error. *)
Theorem batching_is_invisible from_email from_name url render now sg
    batch_size rate_limit batch_size' rate_limit' campaign_id test_mode d clk outbox :
  0 < batch_size -> 0 < rate_limit -> 0 < batch_size' -> 0 < rate_limit' ->
  Mailer.send_campaign
    (mkEnv (Config.mk from_email from_name batch_size rate_limit url) render now)
    sg campaign_id test_mode d clk outbox
  = Mailer.send_campaign
      (mkEnv (Config.mk from_email from_name batch_size' rate_limit' url) render now)
      sg campaign_id test_mode d clk outbox.
Proof.
  intros Hb Hr Hb' Hr'.
  destruct (query_get d campaign_id) as [c|] eqn:Hget.
  - destruct (not_sendable (Campaign.status c)) eqn:Hns.
    + unfold Mailer.send_campaign. now rewrite Hget, Hns.
    + set (E1 := mkEnv (Config.mk from_email from_name batch_size rate_limit url) render now).
      set (E2 := mkEnv (Config.mk from_email from_name batch_size' rate_limit' url) render now).
      rewrite (send_campaign_run E1 sg Hr Hb campaign_id test_mode d clk outbox c Hget Hns).
      rewrite (send_campaign_run E2 sg Hr' Hb' campaign_id test_mode d clk outbox c Hget Hns).
      reflexivity.
  - unfold Mailer.send_campaign. now rewrite Hget.
Qed.

Section ComposeFailure.

Variable E : Env.
Variable sg : Mail.t -> res Response.t.

(** X9.  When Jinja2 raises on the HTML template, or on a non-empty text
    template after the HTML rendered, the attempt for that recipient hands
    nothing to the provider, adds a 'failed' row whose error_message is
    "Template rendering failed for <email>: Template rendering error: "
    followed by Jinja2's text, raises emails_failed by one, and reports the
    same text as its error. *)
Theorem compose_failure_logged s (st : Mailer.State) cause :
  let c := campaign st in
  let context := Mailer.build_context E s c in
  jinja E (Campaign.template_html c) context = Raise cause \/
  (exists html a t,
     jinja E (Campaign.template_html c) context = Ret html /\
     Campaign.template_text c = Some (String a t) /\
     jinja E (String a t) context = Raise cause) ->
  let text := "Template rendering failed for " +:+ Subscriber.email s +:+
              ": Template rendering error: " +:+ str cause in
  exists st',
    Mailer.send_single_email E sg s st = (st', Ret (NotSent text)) /\
    client st' = client st /\
    db st' = db st /\
    session_new st' = session_new st ++
      [EmailLog.mk (Subscriber.id s) (Campaign.id c) PNone "failed" (Some text)
                   (Some (now E (clock st)))] /\
    Campaign.emails_failed (campaign st') = Campaign.emails_failed c + 1 /\
    Campaign.emails_sent (campaign st') = Campaign.emails_sent c.
Proof.
  intros c context Hfail text.
  assert (Hcompose : Mailer.create_email_message E s c = Raise (Exception text)).
  { unfold Mailer.create_email_message, Mailer.render_bodies, Mailer.render_template.
    fold context. destruct Hfail as [H | (html & a & t & Hhtml & Htext & H)].
    - rewrite H. reflexivity.
    - rewrite Hhtml, Htext, H. reflexivity. }
  rewrite send_single_email_run.
  unfold Mailer.after_attempts, Mailer.count_delivered, Mailer.count_failed,
    Mailer.delivered, Mailer.handed_over, Mailer.attempt.
  cbn [Mailer.log_rows filter flat_map]. unfold Mailer.log_row, Mailer.attempt.
  fold c. rewrite Hcompose.
  cbn [negb filter len length Z.of_nat Pos.of_succ_nat app str Exception].
  eexists. split; [reflexivity|].
  cbn [db campaign session_new clock client add_counts Campaign.emails_failed
       Campaign.emails_sent Campaign.set_emails_failed Campaign.set_emails_sent].
  rewrite app_nil_r. repeat split; try reflexivity; lia.
Qed.

End ComposeFailure.

Section OldMailer.

Variable E : Env.
Variable mailer : list MailerSend.call -> res PyVal.

(** X10.  In the MailerSend mailer, a message that was composed and that the
    provider accepted is still logged as failed when the response is a dict
    whose 'data' entry is not a dict: reading the message id raises, so the
    attempt adds a 'failed' row with the text
    "'<type>' object has no attribute 'get'" and raises emails_failed by one,
    although the send call was made. *)
Theorem accepted_but_logged_failed s (st st1 : MailerOld.State) items data :
  MailerOld.create_email_message E mailer s (campaign st) st = (st1, Ret tt) ->
  mailer (client st1 ++ [MailerSend.send]) = Ret (PDict items) ->
  dict_get items "data" = Some data ->
  (forall d, data <> PDict d) ->
  exists cls st',
    let text := "'" +:+ cls +:+ "' object has no attribute 'get'" in
    MailerOld.send_single_email E mailer s st = (st', Ret (NotSent text)) /\
    client st' = client st1 ++ [MailerSend.send] /\
    db st' = db st /\
    session_new st' = session_new st ++
      [EmailLog.mk (Subscriber.id s) (Campaign.id (campaign st)) PNone "failed"
                   (Some text) (Some (now E (clock st)))] /\
    campaign st' =
      Campaign.set_emails_failed (Campaign.emails_failed (campaign st) + 1) (campaign st).
Proof.
  intros Hcreate Hsend Hdata Hnot.
  assert (Hatt : exists cls,
             MailerOld.attempt E mailer s st =
             (mkSt (db st1) (campaign st1) (session_new st1) (clock st1)
                   (client st1 ++ [MailerSend.send]),
              Raise (AttributeError ("'" +:+ cls +:+ "' object has no attribute 'get'")))).
  { unfold MailerOld.attempt, bind, get_campaign. rewrite Hcreate.
    unfold MailerOld.call. rewrite Hsend. unfold lift.
    destruct items as [|item items]; [discriminate|].
    unfold MailerOld.extract_message_id. rewrite Hdata.
    destruct data as [| x | x | x].
    - now exists "NoneType".
    - now exists "str".
    - now exists "int".
    - now destruct (Hnot x). }
  destruct Hatt as (cls & Hatt). exists cls.
  rewrite old_send_single_email_run, Hatt.
  destruct (old_attempt_frame E mailer s st _ _ Hatt) as (F1 & F2 & F3 & F4).
  cbn [db campaign session_new clock client] in *.
  eexists. cbv zeta. split; [reflexivity|].
  cbn [db campaign session_new clock client str AttributeError].
  now rewrite F1, F2, F3, F4.
Qed.

End OldMailer.

(** * The scheduler and the routes *)

Lemma sender_cannot_be_built client :
  Mailer.EmailSender client =
  Raise (AttributeError "type object 'Config' has no attribute 'SENDGRID_API_KEY'").
Proof. reflexivity. Qed.

Lemma scheduled_is_sendable c :
  String.eqb (Campaign.status c) "scheduled" = true ->
  not_sendable (Campaign.status c) = false.
Proof.
  intros H. apply String.eqb_eq in H. unfold not_sendable. now rewrite H.
Qed.

(** Setting 'failed' and committing, on a session whose campaign has its
    row. *)
Lemma mark_failed_stored {X} (st : St X) k :
  Campaign.id (campaign st) = k ->
  query_get (db st) k <> None ->
  query_get
    (db (fst ((let* _ := update_campaign (Campaign.set_status "failed") in commit) st))) k
  = Some (Campaign.set_status "failed" (campaign st)).
Proof.
  intros Hid Hrow.
  change (fst ((let* _ := update_campaign (Campaign.set_status "failed") in commit) st))
    with (committed (fst (update_campaign (Campaign.set_status "failed") st))).
  rewrite (committed_stored _ k); [reflexivity | exact Hid | exact Hrow].
Qed.

Section SchedulerFacts.

Variable E : Env.
Variable sender : res (Mail.t -> res Response.t).

Lemma after_job_not_scheduled campaign_id w c :
  query_get (tables (Scheduler.scheduled_job_wrapper E sender campaign_id w)) campaign_id
    = Some c ->
  Campaign.status c <> "scheduled".
Proof.
  unfold Scheduler.scheduled_job_wrapper.
  destruct (query_get (tables w) campaign_id) as [c0|] eqn:Hget;
    [|rewrite Hget; discriminate].
  pose proof (query_get_id _ _ _ Hget) as Hid.
  assert (Hlost : forall e : exn,
    query_get
      (tables (world_of (fst ((let* _ := update_campaign (Campaign.set_status "failed")
                               in commit)
                              (mkSt (tables w) c0 [] (readings w) (seen w))))))
      campaign_id = Some c -> Campaign.status c <> "scheduled").
  { intros _. cbn [world_of tables].
    rewrite (mark_failed_stored _ campaign_id);
      [|exact Hid | cbn [db]; rewrite Hget; discriminate].
    intros [= <-]. discriminate. }
  destruct (String.eqb (Campaign.status c0) "scheduled") eqn:Hs.
  - unfold Mailer.send_campaign_email.
    destruct sender as [sg|e]; [|apply (Hlost e)].
    destruct (Mailer.send_campaign E sg campaign_id false (tables w) (readings w) (seen w))
      as [e|st r] eqn:Hrun; [apply (Hlost e)|].
    apply send_campaign_settled in Hrun.
    destruct Hrun as (c1 & Hget1 & _ & Hstored & _ & _ & Hstatus).
    rewrite Hget in Hget1. injection Hget1 as <-.
    specialize (Hstatus (scheduled_is_sendable _ Hs)).
    destruct r as [x|e].
    + cbn [world_of tables]. rewrite Hstored. intros [= <-].
      destruct Hstatus as [H|[H|H]]; rewrite H; discriminate.
    + cbn [world_of tables].
      rewrite (mark_failed_stored _ campaign_id).
      * intros [= <-]. discriminate.
      * exact (query_get_id _ _ _ Hstored).
      * rewrite Hstored. discriminate.
  - rewrite Hget. intros [= <-]. intros H. rewrite H in Hs. discriminate.
Qed.

(** X12.  A scheduled job leaves its campaign in a status other than
    'scheduled' (or finds none), so firing the job for the same campaign
    again changes nothing: no second send, no further rows, no status
    change. *)
Theorem scheduled_job_fires_once campaign_id w :
  let w' := Scheduler.scheduled_job_wrapper E sender campaign_id w in
  match query_get (tables w') campaign_id with
  | Some c => Campaign.status c <> "scheduled"
  | None => True
  end /\
  Scheduler.scheduled_job_wrapper E sender campaign_id w' = w'.
Proof.
  intros w'.
  pose proof (after_job_not_scheduled campaign_id w) as Hafter. fold w' in Hafter.
  unfold Scheduler.scheduled_job_wrapper at 1.
  destruct (query_get (tables w') campaign_id) as [c|]; [|now split].
  specialize (Hafter c eq_refl). split; [exact Hafter|].
  destruct (String.eqb_spec (Campaign.status c) "scheduled"); [contradiction|reflexivity].
Qed.

End SchedulerFacts.

(** X13.  With the settings class as [config.py] defines it, the SendGrid
    sender cannot be built (the class has no SENDGRID_API_KEY), so the
    scheduled job of a campaign in 'scheduled' sends nothing and logs
    nothing: it stores the campaign as 'failed' and changes nothing else. *)
Theorem scheduled_job_marks_failed E api_client campaign_id w c :
  query_get (tables w) campaign_id = Some c ->
  Campaign.status c = "scheduled" ->
  Scheduler.scheduled_job_wrapper E (Mailer.EmailSender api_client) campaign_id w =
  mkWorld (mkDb (update_row (Campaign.set_status "failed" c) (campaigns (tables w)))
                (subscribers (tables w))
                (email_logs (tables w)))
          (readings w) (seen w).
Proof.
  intros Hget Hs. unfold Scheduler.scheduled_job_wrapper.
  rewrite Hget, Hs, sender_cannot_be_built.
  cbn [String.eqb Mailer.send_campaign_email]. unfold world_of, bind, update_campaign, commit.
  cbn [fst db campaign session_new clock client]. now rewrite app_nil_r.
Qed.

Section RouteFacts.

Variable E : Env.


(** X15.  With the settings class as [config.py] defines it, the send route
    cannot build the SendGrid sender: for a campaign in 'draft' or
    'scheduled' it changes nothing, hands nothing to the provider, and
    flashes the error "Error sending campaign: type object 'Config' has no
    attribute 'SENDGRID_API_KEY'". *)
Theorem route_send_cannot_build_sender api_client id w c :
  query_get (tables w) id = Some c ->
  Campaign.status c = "draft" \/ Campaign.status c = "scheduled" ->
  App.send_campaign E (Mailer.EmailSender api_client) id w =
  (w, App.Redirect "view_campaign"
        "Error sending campaign: type object 'Config' has no attribute 'SENDGRID_API_KEY'"
        "error").
Proof.
  intros Hget Hstatus. unfold App.send_campaign.
  rewrite Hget, (sendable_status _ Hstatus), sender_cannot_be_built. reflexivity.
Qed.

End RouteFacts.

(** ** Deleting and unsubscribing *)

Lemma find_filter_other (k id : Z) rows :
  k <> id ->
  find (fun r => Campaign.id r =? k)
       (filter (fun c => negb (Campaign.id c =? id)) rows) =
  find (fun r => Campaign.id r =? k) rows.
Proof.
  intros Hne. induction rows as [|r rows IH]; [reflexivity|].
  cbn [filter find]. destruct (Campaign.id r =? id) eqn:Hr; cbn [negb].
  - apply Z.eqb_eq in Hr.
    replace (Campaign.id r =? k) with false by (symmetry; apply Z.eqb_neq; lia).
    exact IH.
  - cbn [find]. now rewrite IH.
Qed.

Lemma find_filter_same (id : Z) rows :
  find (fun r => Campaign.id r =? id)
       (filter (fun c => negb (Campaign.id c =? id)) rows) = None.
Proof.
  induction rows as [|r rows IH]; [reflexivity|].
  cbn [filter]. destruct (Campaign.id r =? id) eqn:Hr; cbn [negb]; [exact IH|].
  cbn [find]. now rewrite Hr.
Qed.

(** X16.  Once a send has run for a campaign, however it ended, the delete
    route refuses the campaign: it answers 'Campaign cannot be deleted.
    Current status: <status>' and leaves the tables, and so the campaign's
    log rows, as the send left them. *)
Theorem sent_campaign_cannot_be_deleted E sg id test_mode d clk outbox st r :
  Mailer.send_campaign E sg id test_mode d clk outbox = Ran st r ->
  App.delete_campaign id (db st) =
  (db st, App.Redirect "view_campaign"
            ("Campaign cannot be deleted. Current status: " +:+
             Campaign.status (campaign st))
            "error").
Proof.
  intros Hrun. apply send_campaign_settled in Hrun.
  destruct Hrun as (c & Hget & _ & Hstored & _ & Hsame & Hstatus).
  unfold App.delete_campaign. rewrite Hstored.
  destruct (not_sendable (Campaign.status c)) eqn:Hns.
  - rewrite (Hsame eq_refl). cbn [campaign]. now rewrite Hns.
  - destruct (Hstatus eq_refl) as [H|[H|H]]; rewrite H; reflexivity.
Qed.

(** X17.  Deleting a campaign in 'draft' or 'scheduled' removes its row and,
    through the cascade, exactly the log rows of that campaign: afterwards
    the campaign cannot be loaded, every other campaign loads as before, the
    subscribers are untouched, and the log holds the former rows of the
    other campaigns. *)
Theorem delete_campaign_effect id d c :
  query_get d id = Some c ->
  Campaign.status c = "draft" \/ Campaign.status c = "scheduled" ->
  exists d',
    App.delete_campaign id d =
      (d', App.Redirect "campaigns" "Campaign deleted successfully!" "success") /\
    query_get d' id = None /\
    (forall k, k <> id -> query_get d' k = query_get d k) /\
    subscribers d' = subscribers d /\
    (forall row, In row (email_logs d') <->
                 In row (email_logs d) /\ EmailLog.campaign_id row <> id).
Proof.
  intros Hget Hstatus. unfold App.delete_campaign.
  rewrite Hget, (sendable_status _ Hstatus). eexists. split; [reflexivity|].
  unfold query_get. cbn [campaigns subscribers email_logs].
  split; [apply find_filter_same|].
  split; [intros k Hk; now apply find_filter_other|].
  split; [reflexivity|].
  intros row. rewrite filter_In, negb_true_iff, Z.eqb_neq. reflexivity.
Qed.

Lemma NoDup_map_inj {A B} (f : A -> B) l x y :
  NoDup (map f l) -> In x l -> In y l -> f x = f y -> x = y.
Proof.
  induction l as [|a l IH]; [contradiction|].
  cbn [map]. intros Hnd Hx Hy Heq. inversion Hnd as [|? ? Hnotin Hnd']; subst.
  destruct Hx as [<-|Hx], Hy as [<-|Hy].
  - reflexivity.
  - exfalso. apply Hnotin. rewrite Heq. now apply in_map.
  - exfalso. apply Hnotin. rewrite <- Heq. now apply in_map.
  - now apply IH.
Qed.

Lemma find_by_token l s :
  NoDup (map Subscriber.unsubscribe_token l) -> In s l ->
  find (fun r => String.eqb (Subscriber.unsubscribe_token r)
                            (Subscriber.unsubscribe_token s)) l = Some s.
Proof.
  intros Hnd Hin. induction l as [|a l IH]; [contradiction|].
  cbn [find].
  destruct (String.eqb_spec (Subscriber.unsubscribe_token a)
                            (Subscriber.unsubscribe_token s)) as [Heq|Hne].
  - f_equal. apply (NoDup_map_inj Subscriber.unsubscribe_token (a :: l));
      [exact Hnd | now left | exact Hin | exact Heq].
  - destruct Hin as [<-|Hin]; [contradiction|].
    apply IH; [|exact Hin]. now inversion Hnd.
Qed.

Lemma active_after_update s' (p : Subscriber.t -> bool) l :
  Subscriber.is_active s' = false ->
  Forall (fun r => App.same_id (Subscriber.id r) (Subscriber.id s') = p r) l ->
  filter Subscriber.is_active (App.update_subscriber s' l) =
  filter (fun r => negb (p r)) (filter Subscriber.is_active l).
Proof.
  intros Hoff. induction 1 as [|r l Hr _ IH]; [reflexivity|].
  cbn [App.update_subscriber map filter]. fold (App.update_subscriber s' l).
  rewrite Hr, IH.
  destruct (p r) eqn:Hp; destruct (Subscriber.is_active r) eqn:Ha;
    cbn [filter]; rewrite ?Hoff, ?Hp, ?Ha; cbn [negb]; reflexivity.
Qed.

(** The unsubscribe route on a known token, on tables that keep their
    constraints. *)
Lemma unsubscribe_known d s :
  App.subscribers_keyed d ->
  In s (subscribers d) ->
  Subscriber.unsubscribe_token s <> EmptyString ->
  let d' := mkDb (campaigns d)
                 (App.update_subscriber (App.deactivated s) (subscribers d))
                 (email_logs d) in
  App.unsubscribe (Some (Subscriber.unsubscribe_token s)) d
    = (d', App.Page "unsubscribed.html") /\
  active_subscribers d' =
    filter (fun r => negb (String.eqb (Subscriber.unsubscribe_token r)
                                      (Subscriber.unsubscribe_token s)))
           (active_subscribers d).
Proof.
  intros (Hids & Hsome & Htokens) Hin Htoken d'. subst d'.
  unfold App.unsubscribe.
  destruct (Subscriber.unsubscribe_token s) as [|a t] eqn:Ht; [contradiction|].
  rewrite <- Ht. rewrite (find_by_token _ _ Htokens Hin).
  split; [reflexivity|].
  unfold active_subscribers. cbn [subscribers].
  apply active_after_update; [reflexivity|].
  rewrite Forall_forall. intros r Hr. cbn [App.deactivated Subscriber.id].
  rewrite Forall_forall in Hsome.
  destruct (String.eqb_spec (Subscriber.unsubscribe_token r)
                            (Subscriber.unsubscribe_token s)) as [Heq|Hne].
  - assert (r = s) as -> by (eapply NoDup_map_inj; eassumption).
    destruct (Subscriber.id s) as [i|] eqn:Hi; [|now destruct (Hsome s Hin)].
    cbn [App.same_id]. apply Z.eqb_refl.
  - destruct (Subscriber.id r) as [i|] eqn:Hi, (Subscriber.id s) as [j|] eqn:Hj;
      cbn [App.same_id]; try reflexivity.
    apply Z.eqb_neq. intros ->. apply Hne. f_equal.
    apply (NoDup_map_inj Subscriber.id (subscribers d)); try assumption. congruence.
Qed.

(** X18.  On a subscribers table that keeps the constraints of [models.py]
    (primary key, unique token), following a subscriber's unsubscribe link
    takes exactly that subscriber out of the active subscribers a later send
    reads, and leaves the campaigns and the log as they were. *)
Theorem unsubscribe_removes_recipient d s :
  App.subscribers_keyed d ->
  In s (subscribers d) ->
  Subscriber.unsubscribe_token s <> EmptyString ->
  exists d',
    App.unsubscribe (Some (Subscriber.unsubscribe_token s)) d
      = (d', App.Page "unsubscribed.html") /\
    active_subscribers d' =
      filter (fun r => negb (String.eqb (Subscriber.unsubscribe_token r)
                                        (Subscriber.unsubscribe_token s)))
             (active_subscribers d) /\
    campaigns d' = campaigns d /\
    email_logs d' = email_logs d.
Proof.
  intros Hkeyed Hin Htoken.
  destruct (unsubscribe_known d s Hkeyed Hin Htoken) as [Hrun Hactive].
  eexists. split; [exact Hrun|]. split; [exact Hactive|]. split; reflexivity.
Qed.

Lemma find_after_update (p : Subscriber.t -> bool) s s' l :
  p s' = true ->
  App.same_id (Subscriber.id s) (Subscriber.id s') = true ->
  find p l = Some s ->
  find p (App.update_subscriber s' l) = Some s'.
Proof.
  intros Hp Hid. induction l as [|r l IH]; [discriminate|].
  cbn [find App.update_subscriber map]. fold (App.update_subscriber s' l).
  destruct (p r) eqn:Hr.
  - intros [= ->]. now rewrite Hid, Hp.
  - intros Hfind. destruct (App.same_id (Subscriber.id r) (Subscriber.id s')).
    + now rewrite Hp.
    + rewrite Hr. now apply IH.
Qed.

Lemma update_subscriber_again s' l :
  App.update_subscriber s' (App.update_subscriber s' l) = App.update_subscriber s' l.
Proof.
  unfold App.update_subscriber. rewrite map_map. apply map_ext. intros r.
  destruct (App.same_id (Subscriber.id r) (Subscriber.id s')) eqn:Hr; [|now rewrite Hr].
  now destruct (App.same_id (Subscriber.id s') (Subscriber.id s')).
Qed.

Lemma update_subscriber_no_id s' l :
  Subscriber.id s' = None -> App.update_subscriber s' l = l.
Proof.
  intros Hid. unfold App.update_subscriber. rewrite <- (map_id l) at 2.
  apply map_ext. intros r. rewrite Hid. now destruct (Subscriber.id r).
Qed.

(** X19.  Following the same unsubscribe link again changes nothing: the
    route leaves the tables a first visit left, whatever the token (missing,
    empty, unknown or known) and whatever the tables hold. *)
Theorem unsubscribe_twice token d :
  fst (App.unsubscribe token (fst (App.unsubscribe token d))) =
  fst (App.unsubscribe token d).
Proof.
  destruct token as [[|a t]|]; try reflexivity.
  unfold App.unsubscribe at 2 3.
  destruct (find _ (subscribers d)) as [s|] eqn:Hfind.
  - cbn [fst]. unfold App.unsubscribe. cbn [subscribers campaigns email_logs].
    destruct (Subscriber.id s) as [i|] eqn:Hi.
    + rewrite (find_after_update _ s (App.deactivated s)).
      * cbn [fst]. change (App.deactivated (App.deactivated s)) with (App.deactivated s).
        now rewrite update_subscriber_again.
      * apply find_some in Hfind. exact (proj2 Hfind).
      * cbn [App.deactivated Subscriber.id]. rewrite Hi. cbn. apply Z.eqb_refl.
      * exact Hfind.
    + rewrite (update_subscriber_no_id (App.deactivated s)) by exact Hi.
      rewrite Hfind. cbn [fst].
      now rewrite (update_subscriber_no_id (App.deactivated s)) by exact Hi.
  - cbn [fst]. unfold App.unsubscribe. now rewrite Hfind.
Qed.

(** * utils.py *)

Lemma rsplit_once_none sep s :
  Utils.contains sep s = false -> Utils.rsplit_once sep s = None.
Proof.
  induction s as [|a s IH]; [reflexivity|].
  cbn [Utils.contains Utils.rsplit_once]. intros H.
  apply orb_false_iff in H. destruct H as [Ha Hs].
  now rewrite (IH Hs), Ha.
Qed.

Lemma rsplit_once_last sep h t :
  Utils.contains sep t = false ->
  Utils.rsplit_once sep (h +:+ String sep t) = Some (h, t).
Proof.
  intros Ht. induction h as [|a h IH].
  - cbn [String.append Utils.rsplit_once].
    now rewrite (rsplit_once_none _ _ Ht), Ascii.eqb_refl.
  - cbn [String.append Utils.rsplit_once]. now rewrite IH.
Qed.

Lemma rsplit_once_parts sep s h t :
  Utils.rsplit_once sep s = Some (h, t) -> s = h +:+ String sep t.
Proof.
  revert h. induction s as [|a s IH]; intros h; [discriminate|].
  cbn [Utils.rsplit_once].
  destruct (Utils.rsplit_once sep s) as [[h' t']|].
  - intros [= <- <-]. cbn [String.append]. f_equal. now apply IH.
  - destruct (Ascii.eqb_spec a sep) as [->|]; [|discriminate].
    now intros [= <- <-].
Qed.

Lemma contains_append sep h t :
  Utils.contains sep (h +:+ String sep t) = true.
Proof.
  induction h as [|a h IH]; cbn [String.append Utils.contains].
  - now rewrite Ascii.eqb_refl.
  - rewrite IH. apply orb_true_r.
Qed.

Lemma csv_has_no_dot ext : lower ext = "csv" -> Utils.contains "." ext = false.
Proof.
  destruct ext as [|a [|b [|c [|? ?]]]]; try discriminate.
  cbn [lower Utils.contains]. intros [= Ha Hb Hc].
  destruct (Ascii.eqb_spec a "."); [subst; discriminate|].
  destruct (Ascii.eqb_spec b "."); [subst; discriminate|].
  destruct (Ascii.eqb_spec c "."); [subst; discriminate|].
  reflexivity.
Qed.

(** X20.  With the default extensions, a file name is allowed exactly when
    it is some text, a dot, and 'csv' in any mix of upper and lower case:
    the text after the last dot decides, so 'a.csv.exe' is refused and a bare
    '.CSV' is allowed. *)
Theorem allowed_file_csv filename :
  Utils.allowed_file filename ["csv"] = true <->
  exists stem ext, filename = stem +:+ "." +:+ ext /\ lower ext = "csv".
Proof.
  unfold Utils.allowed_file. split.
  - intros H. apply andb_prop in H. destruct H as [_ H].
    destruct (Utils.rsplit_once "." filename) as [[stem ext]|] eqn:Hsplit;
      [|discriminate].
    exists stem, ext. split; [now apply rsplit_once_parts|].
    cbn [existsb] in H. rewrite orb_false_r in H. now apply String.eqb_eq.
  - intros (stem & ext & -> & Hext).
    change ("." +:+ ext) with (String "." ext).
    rewrite contains_append, rsplit_once_last by now apply csv_has_no_dot.
    cbn [andb existsb]. rewrite Hext. reflexivity.
Qed.

Section Colours.

Variable E : Env.
Variable sg : Mail.t -> res Response.t.

Lemma send_campaign_try_status test (st st' : Mailer.State) x :
  Mailer.send_campaign_try E sg test st = (st', Ret x) ->
  Campaign.status (campaign st') =
  (if failed x =? 0 then "completed" else "completed_with_errors").
Proof.
  unfold Mailer.send_campaign_try.
  unfold bind at 1. unfold bind at 1, update_campaign at 1. unfold bind at 1.
  change (commit ?x) with (committed x, @Ret unit tt). cbv iota beta.
  unfold bind at 1, lift.
  destruct (py_range 0 _ _) as [starts|e]; [|discriminate].
  unfold bind at 1.
  destruct (Mailer.send_batches E sg starts _ (0, 0) _) as [st2 [counts|e]];
    [|discriminate].
  unfold bind at 1, update_campaign at 1. unfold bind at 1.
  change (commit ?x) with (committed x, @Ret unit tt). cbv iota beta.
  unfold ret. intros [= <- <-].
  rewrite campaign_committed. reflexivity.
Qed.

Lemma send_campaign_status campaign_id test d clk outbox c st r :
  query_get d campaign_id = Some c ->
  not_sendable (Campaign.status c) = false ->
  Mailer.send_campaign E sg campaign_id test d clk outbox = Ran st r ->
  Campaign.status (campaign st) =
  match r with
  | Ret x => if failed x =? 0 then "completed" else "completed_with_errors"
  | Raise _ => "failed"
  end.
Proof.
  intros Hget Hns. unfold Mailer.send_campaign. rewrite Hget, Hns.
  destruct (Mailer.send_campaign_started E sg test (mkSt d c [] clk outbox))
    as [st' r'] eqn:Hstarted.
  intros [= <- <-]. revert Hstarted. unfold Mailer.send_campaign_started.
  unfold bind at 1, update_campaign at 1.
  unfold bind at 1, utcnow at 1.
  unfold bind at 1, update_campaign at 1.
  unfold bind at 1.
  change (commit ?x) with (committed x, @Ret unit tt). cbv iota beta.
  cbn [db campaign session_new clock client].
  match goal with |- context [committed ?x] => set (st0 := committed x) end.
  unfold try_except.
  destruct (Mailer.send_campaign_try E sg test st0) as [st1 [x|e]] eqn:Htry.
  - intros [= <- <-]. now apply send_campaign_try_status in Htry.
  - unfold bind at 1, update_campaign at 1. unfold bind at 1.
    change (commit ?x) with (committed x, @Ret unit tt). cbv iota beta.
    unfold raise. intros [= <- <-]. reflexivity.
Qed.

(** X21.  The colour the pages show for a campaign after a send tells how
    the send ended: 'success' when it returned with no failed attempt,
    'warning' when it returned with failed attempts, 'danger' when it
    raised; never the fallback 'secondary'. *)
Theorem send_outcome_colour campaign_id test_mode d clk outbox c st r :
  query_get d campaign_id = Some c ->
  Campaign.status c = "draft" \/ Campaign.status c = "scheduled" ->
  Mailer.send_campaign E sg campaign_id test_mode d clk outbox = Ran st r ->
  Utils.get_status_color (Campaign.status (campaign st)) =
  match r with
  | Ret x => if failed x =? 0 then "success" else "warning"
  | Raise _ => "danger"
  end.
Proof.
  intros Hget Hstatus Hrun.
  rewrite (send_campaign_status _ _ _ _ _ _ _ _ Hget (sendable_status _ Hstatus) Hrun).
  destruct r as [x|e]; [|reflexivity].
  destruct (failed x =? 0); reflexivity.
Qed.

End Colours.

(** * More on the engine *)

(** X22.  A campaign is sent at most once: after a send has run for it, in
    test mode or not and however it ended, every later send of the same
    campaign, with any settings and provider, is refused with
    'Campaign cannot be sent. Current status: <status>' and changes
    nothing. *)
Theorem second_send_refused E sg E' sg' id test_mode d clk outbox st r
    test_mode' clk' outbox' :
  Mailer.send_campaign E sg id test_mode d clk outbox = Ran st r ->
  Mailer.send_campaign E' sg' id test_mode' (db st) clk' outbox' =
  Ran (mkSt (db st) (campaign st) [] clk' outbox')
      (Raise (Exception ("Campaign cannot be sent. Current status: " +:+
                         Campaign.status (campaign st)))).
Proof.
  intros Hrun. apply send_campaign_settled in Hrun.
  destruct Hrun as (c & Hget & _ & Hstored & _ & Hsame & Hstatus).
  unfold Mailer.send_campaign. rewrite Hstored.
  destruct (not_sendable (Campaign.status c)) eqn:Hns.
  - rewrite (Hsame eq_refl). cbn [campaign db]. now rewrite Hns.
  - destruct (Hstatus eq_refl) as [H|[H|H]]; rewrite H; reflexivity.
Qed.

Section Stamps.

Variable E : Env.
Variable sg : Mail.t -> res Response.t.

Lemma log_rows_stamps c clk l :
  map EmailLog.sent_at (Mailer.log_rows E sg c clk l) =
  map (fun k => Some (now E k)) (seq clk (length l)).
Proof.
  revert clk. induction l as [|s l IH]; intros clk; [reflexivity|].
  cbn [Mailer.log_rows map length seq]. rewrite IH. f_equal.
  unfold Mailer.log_row. now destruct (Mailer.attempt E sg c s).
Qed.

(** X23.  A send with positive settings reads the clock once for the
    campaign's sent_at and then once per attempt, in order: the i-th row it
    appends carries the i-th reading after the one stored as sent_at.  With
    a clock that never goes back, no row is stamped before the campaign's
    sent_at. *)
Theorem rows_stamped_in_order campaign_id test_mode d clk outbox c :
  0 < Config.EMAIL_RATE_LIMIT (config E) ->
  0 < Config.EMAIL_BATCH_SIZE (config E) ->
  query_get d campaign_id = Some c ->
  Campaign.status c = "draft" \/ Campaign.status c = "scheduled" ->
  exists st r rows,
    Mailer.send_campaign E sg campaign_id test_mode d clk outbox = Ran st (Ret r) /\
    Campaign.sent_at (campaign st) = Some (now E clk) /\
    email_logs (db st) = email_logs d ++ rows /\
    map EmailLog.sent_at rows =
      map (fun k => Some (now E k)) (seq (S clk) (Z.to_nat (total r))) /\
    ((forall a b, (a <= b)%nat -> now E a <= now E b) ->
     Forall (fun row => exists t, EmailLog.sent_at row = Some t /\ now E clk <= t) rows).
Proof.
  intros Hrate Hbatch Hget Hstatus.
  pose proof (send_campaign_run E sg Hrate Hbatch campaign_id test_mode d clk outbox c
                Hget (sendable_status _ Hstatus)) as Hrun.
  cbv zeta in Hrun.
  eexists. eexists. eexists. split; [exact Hrun|].
  unfold Mailer.finished. cbn [campaign db email_logs total].
  split; [reflexivity|]. split; [reflexivity|].
  assert (Hstamps := log_rows_stamps (Mailer.campaign_started E c d clk) (S clk)
                       (Mailer.recipients test_mode d)).
  split.
  - rewrite Hstamps. unfold len. now rewrite Nat2Z.id.
  - intros Hmono.
    set (rows := Mailer.log_rows E sg _ _ _) in *.
    clearbody rows. revert Hstamps.
    generalize (length (Mailer.recipients test_mode d)). intros n.
    assert (Hge : (clk <= S clk)%nat) by lia. revert Hge.
    generalize (S clk). intros k. revert k n.
    induction rows as [|row rows IH]; intros k n Hk Hmap; [constructor|].
    destruct n as [|n]; [discriminate|]. cbn [map seq] in Hmap.
    injection Hmap as Hrow Hrest. constructor.
    + exists (now E k). split; [exact Hrow | now apply Hmono].
    + apply (IH (S k) n); [lia | exact Hrest].
Qed.

End Stamps.





(** ** Cleaning an address *)

Lemma is_space_lower a : Utils.is_space (lower_ascii a) = Utils.is_space a.
Proof. destruct a as [[] [] [] [] [] [] [] []]; reflexivity. Qed.

Lemma lower_ascii_again a : lower_ascii (lower_ascii a) = lower_ascii a.
Proof. destruct a as [[] [] [] [] [] [] [] []]; reflexivity. Qed.

Lemma lower_again s : lower (lower s) = lower s.
Proof.
  induction s as [|a s IH]; [reflexivity|].
  cbn [lower]. now rewrite lower_ascii_again, IH.
Qed.

Lemma lower_lstrip s : lower (Utils.lstrip s) = Utils.lstrip (lower s).
Proof.
  induction s as [|a s IH]; [reflexivity|].
  cbn [lower Utils.lstrip]. rewrite is_space_lower.
  destruct (Utils.is_space a); [exact IH | reflexivity].
Qed.

Lemma lower_rstrip s : lower (Utils.rstrip s) = Utils.rstrip (lower s).
Proof.
  induction s as [|a s IH]; [reflexivity|].
  cbn [lower Utils.rstrip]. rewrite <- IH, is_space_lower.
  destruct (Utils.rstrip s) as [|b kept]; cbn [lower].
  - now destruct (Utils.is_space a).
  - reflexivity.
Qed.

Lemma rstrip_again s : Utils.rstrip (Utils.rstrip s) = Utils.rstrip s.
Proof.
  induction s as [|a s IH]; [reflexivity|].
  cbn [Utils.rstrip].
  destruct (Utils.rstrip s) as [|b kept] eqn:Hs.
  - destruct (Utils.is_space a) eqn:Ha; [reflexivity|].
    cbn [Utils.rstrip]. now rewrite Ha.
  - change (Utils.rstrip (String a (String b kept)))
      with (match Utils.rstrip (String b kept) with
            | EmptyString =>
                if Utils.is_space a then EmptyString else String a EmptyString
            | kept' => String a kept'
            end).
    now rewrite IH.
Qed.

Lemma lstrip_starts_clean s : Utils.starts_clean (Utils.lstrip s).
Proof.
  induction s as [|a s IH]; [exact I|].
  cbn [Utils.lstrip]. destruct (Utils.is_space a) eqn:Ha; [exact IH | exact Ha].
Qed.

Lemma rstrip_starts_clean s : Utils.starts_clean s -> Utils.starts_clean (Utils.rstrip s).
Proof.
  destruct s as [|a s]; [trivial|].
  cbn [Utils.starts_clean Utils.rstrip]. intros Ha. rewrite Ha.
  now destruct (Utils.rstrip s).
Qed.

Lemma lstrip_clean s : Utils.starts_clean s -> Utils.lstrip s = s.
Proof.
  destruct s as [|a s]; [reflexivity|].
  cbn [Utils.starts_clean Utils.lstrip]. now intros ->.
Qed.

Lemma strip_again s : Utils.strip (Utils.strip s) = Utils.strip s.
Proof.
  unfold Utils.strip.
  rewrite (lstrip_clean (Utils.rstrip (Utils.lstrip s))).
  - apply rstrip_again.
  - apply rstrip_starts_clean, lstrip_starts_clean.
Qed.

Lemma lower_strip s : lower (Utils.strip s) = Utils.strip (lower s).
Proof. unfold Utils.strip. now rewrite lower_rstrip, lower_lstrip. Qed.

(** X25.  An address that [clean_email_address] returns is in normal form:
    lower case, no white space at either end, with an '@', and cleaning it
    again returns it unchanged.  Stated for ASCII text, where the model's
    [strip] and [lower] are Python's. *)
Theorem clean_email_address_normal email e :
  Utils.ascii_only email = true ->
  Utils.clean_email_address (Some email) = Some e ->
  Utils.clean_email_address (Some e) = Some e /\
  lower e = e /\ Utils.strip e = e /\ Utils.contains "@" e = true.
Proof.
  intros _. unfold Utils.clean_email_address at 1.
  destruct email as [|a r]; [discriminate|].
  set (x := String a r). cbv zeta.
  destruct (negb (Utils.contains "@" (lower (Utils.strip x))) ||
            negb (Utils.contains "." (Utils.split_last "@" (lower (Utils.strip x)))))
    eqn:Hcheck; [discriminate|].
  intros [= <-].
  assert (Hlower : lower (lower (Utils.strip x)) = lower (Utils.strip x))
    by apply lower_again.
  assert (Hstrip : Utils.strip (lower (Utils.strip x)) = lower (Utils.strip x))
    by now rewrite <- lower_strip, strip_again.
  assert (Hat : Utils.contains "@" (lower (Utils.strip x)) = true).
  { apply orb_false_iff in Hcheck. destruct Hcheck as [H _].
    now apply negb_false_iff in H. }
  split; [|now repeat split].
  unfold Utils.clean_email_address.
  destruct (lower (Utils.strip x)) as [|b t] eqn:He; [discriminate|].
  cbv zeta. rewrite Hstrip, Hlower, Hcheck. reflexivity.
Qed.

(** ** Who gets mail *)

Section WhoGetsMail.

Variable E : Env.
Variable sg : Mail.t -> res Response.t.
Variable l : list Subscriber.t.

Lemma mails_only_refl st : mails_only l st st.
Proof. split; [reflexivity|]. exists []. now rewrite app_nil_r. Qed.

Lemma mails_only_trans a b c : mails_only l a b -> mails_only l b c -> mails_only l a c.
Proof.
  intros (Hs1 & m1 & Hc1 & Hm1) (Hs2 & m2 & Hc2 & Hm2).
  split; [congruence|]. exists (m1 ++ m2).
  split; [now rewrite Hc2, Hc1, app_assoc | now apply Forall_app].
Qed.



Lemma keeps_mail_try_except {A} (m : M Mailer.State A) (h : exn -> M Mailer.State A) :
  keeps_mail l m -> (forall e, keeps_mail l (h e)) -> keeps_mail l (try_except m h).
Proof.
  intros Hm Hh st st' r. unfold try_except.
  destruct (m st) as [st1 [a|e]] eqn:Hrun.
  - intros [= <- _]. eapply Hm, Hrun.
  - intros H. eapply mails_only_trans; [eapply Hm, Hrun | eapply Hh, H].
Qed.









End WhoGetsMail.




(** * The properties on the sample data *)

Lemma send_refused_witness :
  Mailer.send_campaign Sample.env Sample.accepts 1 false Sample.db_done 0%nat [] =
  Ran (mkSt Sample.db_done Sample.done [] 0%nat [])
      (Raise (Exception "Campaign cannot be sent. Current status: completed")) /\
  Mailer.send_campaign Sample.env Sample.accepts 2 false Sample.db_done 0%nat [] =
  NotLoaded (Exception "Campaign not found").
Proof.
  destruct (send_refused Sample.env Sample.accepts 1 false Sample.db_done 0%nat [])
    as [Hstate _].
  destruct (send_refused Sample.env Sample.accepts 2 false Sample.db_done 0%nat [])
    as [_ Hfound].
  split.
  - apply (Hstate Sample.done); [reflexivity | discriminate | discriminate].
  - apply Hfound. reflexivity.
Defined.

Lemma send_delivers_to_nobody_witness :
  exists st,
    Mailer.send_campaign Sample.env Sample.accepts 1 false Sample.db_two 0%nat []
      = Ran st (Ret (mkResult 0 2 2)) /\
    query_get (db st) 1 = Some (campaign st) /\
    Campaign.emails_sent (campaign st) = 0 /\
    Campaign.emails_failed (campaign st) = 2 /\
    Campaign.total_recipients (campaign st) = 2 /\
    Campaign.status (campaign st) = "completed_with_errors" /\
    client st = [].
Proof.
  apply (send_delivers_to_nobody Sample.env Sample.accepts 1 Sample.db_two 0%nat []
           Sample.draft).
  - reflexivity.
  - reflexivity.
  - reflexivity.
  - left; reflexivity.
Defined.


Lemma send_test_mode_witness :
  exists st r rows,
    Mailer.send_campaign Sample.env Sample.accepts 1 true Sample.db_four 0%nat []
      = Ran st (Ret r) /\
    total r = 3 /\
    email_logs (db st) = rows /\
    map EmailLog.subscriber_id rows = [Some 1; Some 2; Some 3] /\
    Campaign.total_recipients (campaign st) = 4 /\
    attempted (campaign st) = 3.
Proof.
  destruct (send_test_mode Sample.env Sample.accepts 1 Sample.db_four 0%nat []
              Sample.draft)
    as (st & r & rows & Hrun & _ & Htotal & _ & Hlogs & Hids & _ & Hrecipients
        & Hattempted & _).
  - reflexivity.
  - reflexivity.
  - reflexivity.
  - left; reflexivity.
  - exists st, r, rows. split; [exact Hrun|]. split; [exact Htotal|].
    split; [exact Hlogs|]. split; [exact Hids|].
    split; [exact Hrecipients | exact Hattempted].
Defined.

(** C3 as stated fails: a send in test mode on the default settings, of a
    new draft with three active subscribers, stores another status, another
    total_recipients and another emails_failed.  And the settings matter:
    with a batch size of -1 the run attempts nobody, and with a rate limit
    of 0 it raises after the first attempt. *)
Lemma test_mode_mutates :
  query_get Sample.db_three 1 = Some Sample.draft /\
  Campaign.status Sample.draft = "draft" /\
  Campaign.total_recipients Sample.draft = 0 /\
  Campaign.emails_failed Sample.draft = 0 /\
  (exists st,
     Mailer.send_campaign Sample.env Sample.accepts 1 true Sample.db_three 0%nat []
       = Ran st (Ret (mkResult 0 3 3)) /\
     query_get (db st) 1 = Some (campaign st) /\
     Campaign.status (campaign st) = "completed_with_errors" /\
     Campaign.total_recipients (campaign st) = 3 /\
     Campaign.emails_sent (campaign st) = 0 /\
     Campaign.emails_failed (campaign st) = 3) /\
  (exists st,
     Mailer.send_campaign Sample2.env_batch_neg Sample.accepts 1 true Sample.db_three
                          0%nat []
       = Ran st (Ret (mkResult 0 0 3)) /\
     email_logs (db st) = []) /\
  (exists st e,
     Mailer.send_campaign Sample.env_rate0 Sample.accepts 1 true Sample.db_three 0%nat []
       = Ran st (Raise e) /\
     len (email_logs (db st)) = 1 /\
     Campaign.status (campaign st) = "failed").
Proof.
  do 4 (split; [reflexivity|]).
  split; [|split].
  - eexists. split; [vm_compute; reflexivity|]. vm_compute. repeat split.
  - eexists. split; [vm_compute; reflexivity|]. reflexivity.
  - eexists. eexists. split; [vm_compute; reflexivity|]. vm_compute. repeat split.
Qed.

Lemma send_test_email_effect_witness :
  exists st text,
    Mailer.send_test_email Sample.env Sample.accepts 1 "me@x.com" "token-t"
                           Sample.db_two 0%nat []
      = Ran st (Ret (NotSent text)) /\
    text <> EmptyString /\
    db st = Sample.db_two /\
    client st = [].
Proof.
  destruct (send_test_email_effect Sample.env Sample.accepts 1 "me@x.com" "token-t"
              Sample.db_two 0%nat [] Sample.draft)
    as (st & text & Hrun & Htext & Hdb & Hclient & _).
  - reflexivity.
  - reflexivity.
  - exists st, text. split; [exact Hrun|]. split; [exact Htext|].
    split; [exact Hdb | exact Hclient].
Defined.

Lemma counters_and_total_witness :
  (forall st r,
     Mailer.send_campaign Sample.env Sample.accepts 1 false Sample.db_two 0%nat []
       = Ran st r ->
     within_total (campaign st) /\ query_get (db st) 1 = Some (campaign st)) /\
  (forall st r,
     Mailer.send_batch Sample.env Sample.accepts [Sample.ann] (0, 0)
       (loop_entry Sample.env Sample.draft Sample.db_two 0%nat []) = (st, r) ->
     within_total (campaign st)).
Proof.
  destruct (counters_and_total Sample.env Sample.accepts 1 Sample.db_two 0%nat []
              Sample.draft)
    as (Hattempt & Hsend & _).
  - reflexivity.
  - left; reflexivity.
  - reflexivity.
  - reflexivity.
  - split.
    + exact (Hsend false).
    + intros st r. apply (Hattempt false [Sample.ann] [Sample.bob] (0, 0) st r).
      reflexivity.
Defined.

(** The context as the renderer receives it, for a subscriber without a
    name or a message. *)
Example compose_context_seen :
  Mailer.create_email_message Sample2.env_echo Sample.bob Sample.draft =
  Raise (Exception
           ("Template rendering failed for b@x.com: Template rendering error: " +:+
            "Hi {{name}} with name=b, custom_message=, " +:+
            "unsubscribe_url=http://localhost:5000/unsubscribe?token=token-b, " +:+
            "campaign_name=Spring")).
Proof. reflexivity. Qed.

Lemma send_keeps_drafts_untouched_witness :
  drafts_untouched (db Sample2.sent_scheduled).
Proof.
  apply (send_keeps_drafts_untouched Sample.env Sample.accepts 2 false
           Sample2.db_scheduled 0%nat [] Sample2.sent_scheduled (Ret (mkResult 0 2 2))).
  - intros k c Hget _. unfold query_get, Sample2.db_scheduled in Hget.
    cbn [campaigns find] in Hget.
    change (Campaign.id Sample.draft) with 1 in Hget.
    change (Campaign.id Sample2.scheduled) with 2 in Hget.
    destruct (1 =? k); [injection Hget as <-; now repeat split|].
    destruct (2 =? k); [injection Hget as <-; now repeat split | discriminate].
  - vm_compute. reflexivity.
Defined.

Lemma send_left_sending_witness :
  exists s stored,
    Faulty.send_campaign Sample.env Sample.accepts Sample2.store_fails_second
                         Sample2.pending_rollback 1 false Sample.db_two 0%nat []
      = Faulty.Ended s
          (Raise (Sample2.pending_rollback
                    (PyExc "OperationalError" "database is locked"))) /\
    query_get (db (Faulty.session s)) 1 = Some stored /\
    Campaign.status stored = "sending".
Proof.
  destruct (send_left_sending Sample.env Sample.accepts Sample2.store_fails_second
              Sample2.pending_rollback 1 false Sample.db_two 0%nat [] Sample.draft
              (PyExc "OperationalError" "database is locked"))
    as (s & stored & Hrun & Hstored & Hstatus & _).
  - reflexivity.
  - left; reflexivity.
  - reflexivity.
  - reflexivity.
  - exists s, stored. split; [exact Hrun|]. split; [exact Hstored | exact Hstatus].
Defined.

(** C9 (where the two mailers part).  The same draft, the same two active
    subscribers, the default settings, and providers that both accept
    every message: [mailer.py] delivers nothing, logs two 'failed' rows and
    stores 'completed_with_errors'; [mailer_old.py] hands over both
    messages, logs two 'sent' rows and stores 'completed'. *)
Theorem mailers_disagree :
  exists st st',
    Mailer.send_campaign Sample.env Sample.accepts 1 false Sample.db_two 0%nat []
      = Ran st (Ret (mkResult 0 2 2)) /\
    MailerOld.send_campaign Sample.env Sample.mailer_accepts 1 false Sample.db_two 0%nat []
      = Ran st' (Ret (mkResult 2 0 2)) /\
    Campaign.status (campaign st) = "completed_with_errors" /\
    Campaign.status (campaign st') = "completed" /\
    Campaign.emails_sent (campaign st) = 0 /\
    Campaign.emails_sent (campaign st') = 2 /\
    Campaign.emails_failed (campaign st) = 2 /\
    Campaign.emails_failed (campaign st') = 0 /\
    map EmailLog.status (email_logs (db st)) = ["failed"; "failed"] /\
    map EmailLog.status (email_logs (db st')) = ["sent"; "sent"] /\
    client st = [] /\
    len (filter (fun call => match call with MailerSend.send => true | _ => false end)
                (client st')) = 2.
Proof.
  eexists. eexists.
  split; [vm_compute; reflexivity|].
  split; [vm_compute; reflexivity|].
  vm_compute. repeat split.
Qed.

Lemma send_touches_one_campaign_witness :
  subscribers (db Sample2.sent_scheduled) = subscribers Sample2.db_scheduled /\
  forall k, k <> 2 ->
    query_get (db Sample2.sent_scheduled) k = query_get Sample2.db_scheduled k.
Proof.
  apply (send_touches_one_campaign Sample.env Sample.accepts 2 false
           Sample2.db_scheduled 0%nat [] Sample2.sent_scheduled (Ret (mkResult 0 2 2))).
  vm_compute. reflexivity.
Defined.

Lemma send_log_and_counters_witness :
  exists c rows,
    query_get Sample.db_three 1 = Some c /\
    query_get (db Sample2.sent_three) 1 = Some (campaign Sample2.sent_three) /\
    session_new Sample2.sent_three = [] /\
    email_logs (db Sample2.sent_three) = email_logs Sample.db_three ++ rows /\
    Forall (engine_row 1) rows /\
    Campaign.emails_sent (campaign Sample2.sent_three)
      = Campaign.emails_sent c + count_status "sent" rows /\
    Campaign.emails_failed (campaign Sample2.sent_three)
      = Campaign.emails_failed c + count_status "failed" rows.
Proof.
  apply (send_log_and_counters Sample.env Sample.rejects_bad 1 false
           Sample.db_three 0%nat [] Sample2.sent_three (Ret (mkResult 0 3 3))).
  vm_compute. reflexivity.
Defined.

Lemma send_negative_batch_size_witness :
  exists st,
    Mailer.send_campaign Sample2.env_batch_neg Sample.accepts 1 false Sample.db_two 0%nat []
      = Ran st (Ret (mkResult 0 0 2)) /\
    Campaign.status (campaign st) = "completed" /\
    email_logs (db st) = [] /\
    client st = [].
Proof.
  destruct (send_negative_batch_size Sample2.env_batch_neg Sample.accepts 1 false
              Sample.db_two 0%nat [] Sample.draft)
    as (st & Hrun & _ & Hstatus & _ & _ & _ & Hlogs & Hclient).
  - reflexivity.
  - reflexivity.
  - left; reflexivity.
  - exists st. split; [exact Hrun|]. split; [exact Hstatus|].
    split; [exact Hlogs | exact Hclient].
Defined.

Lemma send_no_recipients_witness :
  exists st,
    Mailer.send_campaign Sample.env_rate0 Sample.accepts 1 false Sample2.db_nobody 0%nat []
      = Ran st (Ret (mkResult 0 0 0)) /\
    Campaign.status (campaign st) = "completed" /\
    Campaign.total_recipients (campaign st) = 0.
Proof.
  destruct (send_no_recipients Sample.env_rate0 Sample.accepts 1 false
              Sample2.db_nobody 0%nat [] Sample.draft)
    as (st & Hrun & _ & Hstatus & Htotal & _).
  - discriminate.
  - reflexivity.
  - reflexivity.
  - left; reflexivity.
  - exists st. split; [exact Hrun|]. split; [exact Hstatus | exact Htotal].
Defined.

Lemma send_zero_batch_size_witness :
  exists st,
    Mailer.send_campaign Sample2.env_batch0 Sample.accepts 1 false Sample.db_two 0%nat []
      = Ran st (Raise (Exception
                         "Campaign sending failed: range() arg 3 must not be zero")) /\
    query_get (db st) 1 = Some (campaign st) /\
    Campaign.status (campaign st) = "failed" /\
    Campaign.total_recipients (campaign st) = 2 /\
    email_logs (db st) = [].
Proof.
  destruct (send_zero_batch_size Sample2.env_batch0 Sample.accepts 1 false
              Sample.db_two 0%nat [] Sample.draft)
    as (st & Hrun & Hstored & Hstatus & Htotal & _ & _ & Hlogs & _).
  - reflexivity.
  - reflexivity.
  - left; reflexivity.
  - exists st. split; [exact Hrun|]. split; [exact Hstored|]. split; [exact Hstatus|].
    split; [exact Htotal | exact Hlogs].
Defined.

Lemma send_bad_rate_limit_witness :
  exists st text,
    Mailer.send_campaign Sample.env_rate0 Sample.accepts 1 false Sample.db_two 0%nat []
      = Ran st (Raise (Exception "Campaign sending failed: division by zero")) /\
    query_get (db st) 1 = Some (campaign st) /\
    Campaign.status (campaign st) = "failed" /\
    Campaign.emails_failed (campaign st) = 1 /\
    email_logs (db st) = [EmailLog.mk (Some 1) 1 PNone "failed" (Some text) (Some 1)] /\
    client st = [].
Proof.
  destruct (send_bad_rate_limit Sample.env_rate0 Sample.accepts 1 false
              Sample.db_two 0%nat [] Sample.draft Sample.ann [Sample.bob])
    as (st & text & Hrun & Hstored & Hstatus & _ & _ & Hfailed & Hlogs & _ & _ & Hclient & _).
  - cbn. lia.
  - reflexivity.
  - reflexivity.
  - left; reflexivity.
  - reflexivity.
  - exists st, text. split; [exact Hrun|]. split; [exact Hstored|].
    split; [exact Hstatus|]. split; [exact Hfailed|]. split; [exact Hlogs | exact Hclient].
Defined.

Lemma test_mode_small_list_witness :
  Mailer.send_campaign Sample.env Sample.rejects_bad 1 true Sample.db_three 0%nat [] =
  Mailer.send_campaign Sample.env Sample.rejects_bad 1 false Sample.db_three 0%nat [].
Proof.
  apply (test_mode_small_list Sample.env Sample.rejects_bad 1 Sample.db_three 0%nat []).
  cbn. lia.
Defined.

Lemma batching_is_invisible_witness :
  Mailer.send_campaign
    (mkEnv (Config.mk (Some "news@example.com") "Email Shooter" 100 1 "http://x/unsubscribe")
           Sample.render (fun k => Z.of_nat k))
    Sample.rejects_bad 1 false Sample.db_four 0%nat []
  = Mailer.send_campaign
      (mkEnv (Config.mk (Some "news@example.com") "Email Shooter" 3 50 "http://x/unsubscribe")
             Sample.render (fun k => Z.of_nat k))
      Sample.rejects_bad 1 false Sample.db_four 0%nat [].
Proof.
  apply (batching_is_invisible (Some "news@example.com") "Email Shooter"
           "http://x/unsubscribe" Sample.render (fun k => Z.of_nat k) Sample.rejects_bad
           100 1 3 50 1 false Sample.db_four 0%nat []); lia.
Defined.

Lemma compose_failure_logged_witness :
  exists st',
    Mailer.send_single_email Sample2.env_broken Sample.accepts Sample.ann
      (mkSt Sample.db_two Sample.draft [] 0%nat [])
    = (st', Ret (NotSent ("Template rendering failed for a@x.com: " +:+
                          "Template rendering error: unexpected '}'"))) /\
    client st' = [] /\
    Campaign.emails_failed (campaign st') = 1.
Proof.
  destruct (compose_failure_logged Sample2.env_broken Sample.accepts Sample.ann
              (mkSt Sample.db_two Sample.draft [] 0%nat [])
              (PyExc "TemplateSyntaxError" "unexpected '}'"))
    as (st' & Hrun & Hclient & _ & _ & Hfailed & _).
  - left. reflexivity.
  - exists st'. split; [exact Hrun|]. split; [exact Hclient | exact Hfailed].
Defined.

Lemma accepted_but_logged_failed_witness :
  exists st',
    MailerOld.send_single_email Sample.env Sample2.mailer_null_data Sample.ann
      (mkSt Sample.db_two Sample.draft [] 0%nat [])
    = (st', Ret (NotSent "'NoneType' object has no attribute 'get'")) /\
    Campaign.emails_failed (campaign st') = 1.
Proof.
  destruct (accepted_but_logged_failed Sample.env Sample2.mailer_null_data Sample.ann
              (mkSt Sample.db_two Sample.draft [] 0%nat [])
              (fst (MailerOld.create_email_message Sample.env Sample2.mailer_null_data
                      Sample.ann Sample.draft
                      (mkSt Sample.db_two Sample.draft [] 0%nat [])))
              [("data", PNone)] PNone)
    as (cls & st' & Hrun & _ & _ & _ & Hcampaign).
  - reflexivity.
  - reflexivity.
  - reflexivity.
  - discriminate.
  - exists st'. split.
    + rewrite Hrun. vm_compute in Hrun. now injection Hrun as _ ->.
    + rewrite Hcampaign. reflexivity.
Defined.

Lemma scheduled_job_marks_failed_witness :
  Scheduler.scheduled_job_wrapper Sample.env (Mailer.EmailSender (Ret Sample.accepts)) 2
    (mkWorld Sample2.db_scheduled 0%nat []) =
  mkWorld (mkDb [Sample.draft; Campaign.set_status "failed" Sample2.scheduled]
                [Sample.ann; Sample.bob] [])
          0%nat [].
Proof.
  apply (scheduled_job_marks_failed Sample.env (Ret Sample.accepts) 2
           (mkWorld Sample2.db_scheduled 0%nat []) Sample2.scheduled); reflexivity.
Defined.


Lemma route_send_cannot_build_sender_witness :
  App.send_campaign Sample.env (Mailer.EmailSender (Ret Sample.accepts)) 1
    (mkWorld Sample.db_two 0%nat []) =
  (mkWorld Sample.db_two 0%nat [],
   App.Redirect "view_campaign"
     "Error sending campaign: type object 'Config' has no attribute 'SENDGRID_API_KEY'"
     "error").
Proof.
  apply (route_send_cannot_build_sender Sample.env (Ret Sample.accepts) 1
           (mkWorld Sample.db_two 0%nat []) Sample.draft); [reflexivity | now left].
Defined.

Lemma sent_campaign_cannot_be_deleted_witness :
  App.delete_campaign 2 (db Sample2.sent_scheduled) =
  (db Sample2.sent_scheduled,
   App.Redirect "view_campaign" "Campaign cannot be deleted. Current status: completed_with_errors"
                "error").
Proof.
  apply (sent_campaign_cannot_be_deleted Sample.env Sample.accepts 2 false
           Sample2.db_scheduled 0%nat [] Sample2.sent_scheduled (Ret (mkResult 0 2 2))).
  vm_compute. reflexivity.
Defined.

Lemma delete_campaign_effect_witness :
  exists d',
    App.delete_campaign 1 (db Sample2.sent_scheduled) =
      (d', App.Redirect "campaigns" "Campaign deleted successfully!" "success") /\
    query_get d' 1 = None /\
    (forall k, k <> 1 -> query_get d' k = query_get (db Sample2.sent_scheduled) k) /\
    subscribers d' = subscribers (db Sample2.sent_scheduled) /\
    (forall row, In row (email_logs d') <->
                 In row (email_logs (db Sample2.sent_scheduled)) /\
                 EmailLog.campaign_id row <> 1).
Proof.
  apply (delete_campaign_effect 1 (db Sample2.sent_scheduled) Sample.draft);
    [reflexivity | now left].
Defined.

Lemma sample_subscribers_keyed : App.subscribers_keyed Sample.db_two.
Proof.
  unfold App.subscribers_keyed. cbn.
  split; [|split].
  - repeat constructor; cbn; intuition discriminate.
  - repeat constructor; discriminate.
  - repeat constructor; cbn; intuition discriminate.
Qed.

Lemma unsubscribe_removes_recipient_witness :
  exists d',
    App.unsubscribe (Some "token-a") Sample.db_two = (d', App.Page "unsubscribed.html") /\
    active_subscribers d' =
      filter (fun r => negb (String.eqb (Subscriber.unsubscribe_token r) "token-a"))
             (active_subscribers Sample.db_two) /\
    campaigns d' = campaigns Sample.db_two /\
    email_logs d' = email_logs Sample.db_two.
Proof.
  apply (unsubscribe_removes_recipient Sample.db_two Sample.ann).
  - exact sample_subscribers_keyed.
  - left; reflexivity.
  - discriminate.
Defined.

Lemma send_outcome_colour_witness :
  Utils.get_status_color (Campaign.status (campaign Sample2.sent_three)) = "warning".
Proof.
  apply (send_outcome_colour Sample.env Sample.rejects_bad 1 false Sample.db_three 0%nat []
           Sample.draft Sample2.sent_three (Ret (mkResult 0 3 3))).
  - reflexivity.
  - left; reflexivity.
  - vm_compute. reflexivity.
Defined.

Lemma second_send_refused_witness :
  Mailer.send_campaign Sample.env_rate0 Sample.times_out 2 true
    (db Sample2.sent_scheduled) 7%nat [] =
  Ran (mkSt (db Sample2.sent_scheduled) (campaign Sample2.sent_scheduled) [] 7%nat [])
      (Raise (Exception ("Campaign cannot be sent. Current status: " +:+
                         Campaign.status (campaign Sample2.sent_scheduled)))).
Proof.
  apply (second_send_refused Sample.env Sample.accepts Sample.env_rate0 Sample.times_out
           2 false Sample2.db_scheduled 0%nat [] Sample2.sent_scheduled
           (Ret (mkResult 0 2 2)) true 7%nat []).
  vm_compute. reflexivity.
Defined.

Lemma rows_stamped_in_order_witness :
  exists st r rows,
    Mailer.send_campaign Sample.env Sample.rejects_bad 1 false Sample.db_three 0%nat []
      = Ran st (Ret r) /\
    Campaign.sent_at (campaign st) = Some 0 /\
    email_logs (db st) = rows /\
    map EmailLog.sent_at rows = [Some 1; Some 2; Some 3].
Proof.
  destruct (rows_stamped_in_order Sample.env Sample.rejects_bad 1 false Sample.db_three
              0%nat [] Sample.draft)
    as (st & r & rows & Hrun & Hsent & Hlogs & Hstamps & _).
  - reflexivity.
  - reflexivity.
  - reflexivity.
  - left; reflexivity.
  - exists st, r, rows. split; [exact Hrun|]. split; [exact Hsent|].
    split; [exact Hlogs|]. rewrite Hstamps.
    vm_compute in Hrun. injection Hrun as _ <-. reflexivity.
Defined.


Lemma clean_email_address_normal_witness :
  Utils.clean_email_address (Some "ann@x.com") = Some "ann@x.com" /\
  lower "ann@x.com" = "ann@x.com" /\
  Utils.strip "ann@x.com" = "ann@x.com" /\
  Utils.contains "@" "ann@x.com" = true.
Proof.
  apply (clean_email_address_normal "  Ann@X.com " "ann@x.com"); reflexivity.
Defined.


